(** * kinder: orchestration, container lifecycle, registry mirrors and CA hierarchy

    A shallow embedding of the parts of the kinder command-line tool that
    its specification makes testable statements about, and the proofs of
    those statements.

    The external collaborators (the Go standard library's [net] and
    [crypto/x509] packages, the container runtime daemon, the cluster
    provisioning library, the file system) are modelled by explicit state
    that is threaded through every call; every fallible call returns a
    [result]. *)

From Stdlib Require Import ZArith String Ascii List Bool Lia DecimalString.
From stdpp Require Import base option list strings gmap.
Import ListNotations.

Local Open Scope Z_scope.

(** ** Errors, as Go's [(value, error)] pairs *)

Inductive result (A : Type) : Type :=
| Ok (a : A)
| Err (msg : string).
Arguments Ok {A} a.
Arguments Err {A} msg.

Definition is_ok {A} (r : result A) : bool :=
  match r with Ok _ => true | Err _ => false end.

(** [fmt.Errorf("<prefix>: %w", err)] *)
Definition wrap (prefix : string) (msg : string) : string :=
  prefix +:+ ": " +:+ msg.

(** ** Strings *)

Definition nl : string := String (ascii_of_nat 10) EmptyString.
Definition dq : string := String (ascii_of_nat 34) EmptyString.

(** Decimal rendering of a non-negative integer, as [%d] prints it. *)
Definition itoa (n : Z) : string :=
  NilZero.string_of_uint (N.to_uint (Z.to_N n)).

(** [strings.Join] *)
Fixpoint Join (elems : list string) (sep : string) : string :=
  match elems with
  | [] => ""
  | [x] => x
  | x :: rest => x +:+ sep +:+ Join rest sep
  end.



Lemma append_cons ch (a b : string) : String ch a +:+ b = String ch (a +:+ b).
Proof. reflexivity. Qed.







(** ** docker/network.go: deriving the gateway and the container IP range *)

Module Net.

(** [net.IP] and [net.IPMask] are byte slices; a byte is a [Z] in
    [0, 256). *)
Definition IP := list Z.
Definition IPMask := list Z.

Record IPNet := mkIPNet { ipnet_IP : IP; ipnet_Mask : IPMask }.

(** [b++] on a Go [byte]. *)
Definition byte_incr (b : Z) : Z := (b + 1) mod 256.

(** [net.CIDRMask(ones, bits)]: [ones] one-bits followed by zeros, on
    [bits/8] bytes; [nil] unless [bits] is 32 or 128 and
    [0 <= ones <= bits]. *)
Fixpoint mask_bytes (l : nat) (n : Z) : IPMask :=
  match l with
  | O => []
  | S l' =>
      if 8 <=? n then 255 :: mask_bytes l' (n - 8)
      else Z.lxor 255 (Z.shiftr 255 n) :: mask_bytes l' 0
  end.

Definition CIDRMask (ones bits : Z) : IPMask :=
  if negb ((bits =? 32) || (bits =? 128)) then []
  else if (ones <? 0) || (bits <? ones) then []
  else mask_bytes (Z.to_nat (bits / 8)) ones.

(** [IPMask.Size]: the number of leading ones and the total number of
    bits, or [(0, 0)] when the mask is not in canonical form. *)
Definition leading_ones (b : Z) : Z :=
  if b =? 255 then 8 else if b =? 254 then 7 else if b =? 252 then 6
  else if b =? 248 then 5 else if b =? 240 then 4 else if b =? 224 then 3
  else if b =? 192 then 2 else if b =? 128 then 1 else if b =? 0 then 0
  else -1.

Fixpoint simpleMaskLength (m : IPMask) : Z :=
  match m with
  | [] => 0
  | b :: rest =>
      if b =? 255 then
        let n := simpleMaskLength rest in
        if n <? 0 then -1 else 8 + n
      else if leading_ones b <? 0 then -1
      else if forallb (Z.eqb 0) rest then leading_ones b else -1
  end.

Definition Size (m : IPMask) : Z * Z :=
  let ones := simpleMaskLength m in
  if ones <? 0 then (0, 0) else (ones, Z.of_nat (length m) * 8).

(** [IP.Mask]: the address with the mask applied byte by byte. *)
Fixpoint apply_mask (ip : IP) (m : IPMask) : IP :=
  match ip, m with
  | b :: ip', k :: m' => Z.land b k :: apply_mask ip' m'
  | _, _ => []
  end.

(** [gatewayIP[len(gatewayIP)-1]++] on a copy of the slice. An empty
    slice makes the Go runtime panic with an index out of range. *)
Fixpoint incr_last (ip : IP) : option IP :=
  match ip with
  | [] => None
  | [b] => Some [byte_incr b]
  | b :: rest => option_map (cons b) (incr_last rest)
  end.

(** The address seen as one big-endian number, and that number plus one
    (modulo the size of the address space): the specification's
    "network address + 1". *)
Definition ip_to_Z (ip : IP) : Z := fold_left (fun acc b => acc * 256 + b) ip 0.

Fixpoint ip_of_Z (n : nat) (v : Z) : IP :=
  match n with
  | O => []
  | S n' => ip_of_Z n' (v / 256) ++ [v mod 256]
  end.

Definition ip_succ (ip : IP) : IP := ip_of_Z (length ip) (ip_to_Z ip + 1).

Section Derive.

(** The two functions of Go's [net] package that the code calls.
    [ParseCIDR] returns the network ([IPNet]) of a CIDR string, or
    nothing when the string is not a CIDR; [IPString] is [IP.String]. *)
Variable ParseCIDR : string -> option IPNet.
Variable IPString : IP -> string.

Definition deriveNetworkConfig (cidr : string) : result (string * string) :=
  match ParseCIDR cidr with
  | None => Err (wrap ("invalid CIDR " +:+ cidr) ("invalid CIDR address: " +:+ cidr))
  | Some ipNet =>
      match incr_last (ipnet_IP ipNet) with
      | None => Err "panic: runtime error: index out of range [-1]"
      | Some gatewayIP =>
          let gateway := IPString gatewayIP in
          let '(ones, bits) := Size (ipnet_Mask ipNet) in
          let ipRange :=
            if bits - 1 <=? ones then cidr
            else IPString (ipnet_IP ipNet) +:+ "/" +:+ itoa (ones + 1) in
          Ok (gateway, ipRange)
      end
  end.

End Derive.

(** *** The IPv4 fragment of [net.ParseCIDR] and [IP.String] *)

Definition is_digit (c : ascii) : bool :=
  let n := Z.of_nat (nat_of_ascii c) in (48 <=? n) && (n <=? 57).

Definition digit_val (c : ascii) : Z := Z.of_nat (nat_of_ascii c) - 48.

(** The value of a non-empty string of decimal digits. *)
Fixpoint digits_val (s : string) (acc : Z) : option Z :=
  match s with
  | EmptyString => Some acc
  | String c s' => if is_digit c then digits_val s' (acc * 10 + digit_val c) else None
  end.

Definition dtoi (s : string) : option Z :=
  match s with
  | EmptyString => None
  | _ => digits_val s 0
  end.

(** One octet of a dotted quad: decimal, at most 255, no leading zero. *)
Definition parse_octet (s : string) : option Z :=
  match s with
  | String "0"%char (String _ _) => None
  | _ => match dtoi s with
         | Some v => if v <=? 255 then Some v else None
         | None => None
         end
  end.

(** [strings.Cut s sep] for a one-character separator. *)
Fixpoint cut (s : string) (sep : ascii) : option (string * string) :=
  match s with
  | EmptyString => None
  | String c s' =>
      if Ascii.eqb c sep then Some (EmptyString, s')
      else match cut s' sep with
           | Some (a, b) => Some (String c a, b)
           | None => None
           end
  end.

Fixpoint split_on (s : string) (sep : ascii) : list string :=
  match s with
  | EmptyString => [EmptyString]
  | String c s' =>
      if Ascii.eqb c sep then EmptyString :: split_on s' sep
      else match split_on s' sep with
           | f :: fs => String c f :: fs
           | [] => [String c EmptyString]
           end
  end.

Definition parseIPv4 (s : string) : option IP :=
  match split_on s "."%char with
  | [a; b; c; d] =>
      match parse_octet a, parse_octet b, parse_octet c, parse_octet d with
      | Some a', Some b', Some c', Some d' => Some [a'; b'; c'; d']
      | _, _, _, _ => None
      end
  | _ => None
  end.

Definition ParseCIDR4 (s : string) : option IPNet :=
  match cut s "/"%char with
  | None => None
  | Some (addr, mask) =>
      match parseIPv4 addr, dtoi mask with
      | Some ip, Some n =>
          if 32 <? n then None
          else let m := CIDRMask n 32 in Some (mkIPNet (apply_mask ip m) m)
      | _, _ => None
      end
  end.

Definition IPString4 (ip : IP) : string :=
  match ip with
  | [a; b; c; d] => itoa a +:+ "." +:+ itoa b +:+ "." +:+ itoa c +:+ "." +:+ itoa d
  | [] => "<nil>"
  | _ => "?"
  end.

Definition deriveNetworkConfig4 : string -> result (string * string) :=
  deriveNetworkConfig ParseCIDR4 IPString4.

End Net.

(** C5 (gateway part, at the failing input). For the CIDR "10.0.0.255/32"
    the network address is 10.0.0.255; the code increments only its last
    byte, which wraps to 0 without a carry, so the derived gateway is
    "10.0.0.0", whereas the network address plus one is 10.0.1.0. *)
Theorem C5_gateway_wraps_without_carry :
  Net.ParseCIDR4 "10.0.0.255/32" = Some (Net.mkIPNet [10; 0; 0; 255] [255; 255; 255; 255]) /\
  Net.deriveNetworkConfig4 "10.0.0.255/32" = Ok ("10.0.0.0", "10.0.0.255/32") /\
  Net.IPString4 (Net.ip_succ [10; 0; 0; 255]) = "10.0.1.0" /\
  "10.0.0.0" <> Net.IPString4 (Net.ip_succ [10; 0; 0; 255]).
Proof.
  repeat split; try (vm_compute; reflexivity).
  vm_compute. discriminate.
Qed.

(** ** A state-and-error monad for code that talks to the outside world *)

Definition M (S A : Type) : Type := S -> result A * S.

Definition ret {S A} (a : A) : M S A := fun s => (Ok a, s).

Definition fail {S A} (msg : string) : M S A := fun s => (Err msg, s).

Definition bind {S A B} (c : M S A) (k : A -> M S B) : M S B :=
  fun s => match c s with
           | (Ok a, s') => k a s'
           | (Err e, s') => (Err e, s')
           end.

(** Run [c] and hand its error, if any, to the caller as a value: Go's
    [if err := c(); err != nil { ... }] where the branch does not return. *)
Definition attempt {S A} (c : M S A) : M S (result A) :=
  fun s => let '(r, s') := c s in (Ok r, s').

(** [fmt.Errorf("<prefix>: %w", err)] around a whole call. *)
Definition wrapping {S A} (prefix : string) (c : M S A) : M S A :=
  fun s => match c s with
           | (Ok a, s') => (Ok a, s')
           | (Err e, s') => (Err (wrap prefix e), s')
           end.

Declare Scope monad_scope.
Delimit Scope monad_scope with monad.
Notation "x <- c ;; k" := (bind c (fun x => k))
  (at level 100, c at next level, right associativity) : monad_scope.
Notation "c ;;; k" := (bind c (fun _ => k))
  (at level 100, right associativity) : monad_scope.
Local Open Scope monad_scope.

(** ** docker/client.go, docker/container.go, docker/network.go over a model
    of the container runtime daemon *)

Module Docker.

(** [ContainerConfig], the descriptor given to [CreateContainer]. *)
Record ContainerConfig := mkContainerConfig {
  Name : string;
  Image : string;
  Hostname : string;
  NetworkName : string;
  NetworkAliases : list string;
  Env : list string;
  ExposedPorts : list string;
  PortBindings : list (string * (string * string));
  Mounts : list (string * string);
  RestartPolicy : string;
  WorkingDir : string;
  User : string;
  Cmd : list string;
  Entrypoint : list string
}.

(** What [cli.ContainerCreate] receives: [container.Config],
    [container.HostConfig] and the optional [network.NetworkingConfig]. *)
Record CreateRequest := mkCreateRequest {
  rq_Image : string;
  rq_Hostname : string;
  rq_Env : list string;
  rq_ExposedPorts : list string;
  rq_WorkingDir : string;
  rq_User : string;
  rq_Cmd : list string;
  rq_Entrypoint : list string;
  rq_Mounts : list (string * string);
  rq_RestartPolicy : string;
  rq_PortBindings : list (string * (string * string));
  rq_Endpoints : option (string * list string)
}.

(** A container as the daemon holds it. *)
Record Container := mkContainer {
  ctr_ID : string;
  ctr_Names : list string;
  ctr_Running : bool;
  ctr_Spec : CreateRequest
}.

Record NetworkCreate := mkNetworkCreate {
  nc_Driver : string;
  nc_Subnet : string;
  nc_IPRange : string;
  nc_Gateway : string;
  nc_EnableIPv6 : bool;
  nc_BridgeName : string
}.

Record NetworkResource := mkNetworkResource {
  net_ID : string;
  net_Name : string;
  net_Spec : NetworkCreate
}.

(** The daemon and the process-wide client handle. [faults] scripts the
    failures of the coming external calls: every call to the daemon (and
    the construction of the client) consumes the head of the script and
    fails when it is [true]; an exhausted script means no more failures. *)
Record World := mkWorld {
  containers : list Container;
  networks : list NetworkResource;
  images : list string;
  next_id : nat;
  faults : list bool;
  sharedClient : bool;
  stderr : list string
}.

Definition set_containers (cs : list Container) (w : World) : World :=
  mkWorld cs (networks w) (images w) (next_id w) (faults w) (sharedClient w) (stderr w).
Definition set_networks (ns : list NetworkResource) (w : World) : World :=
  mkWorld (containers w) ns (images w) (next_id w) (faults w) (sharedClient w) (stderr w).
Definition set_images (im : list string) (w : World) : World :=
  mkWorld (containers w) (networks w) im (next_id w) (faults w) (sharedClient w) (stderr w).
Definition set_next_id (n : nat) (w : World) : World :=
  mkWorld (containers w) (networks w) (images w) n (faults w) (sharedClient w) (stderr w).
Definition set_faults (f : list bool) (w : World) : World :=
  mkWorld (containers w) (networks w) (images w) (next_id w) f (sharedClient w) (stderr w).
Definition set_sharedClient (b : bool) (w : World) : World :=
  mkWorld (containers w) (networks w) (images w) (next_id w) (faults w) b (stderr w).
Definition set_stderr (l : list string) (w : World) : World :=
  mkWorld (containers w) (networks w) (images w) (next_id w) (faults w) (sharedClient w) l.

(** One external call: consume the head of the fault script. *)
Definition call (what : string) : M World unit :=
  fun w => let w' := set_faults (tl (faults w)) w in
           if hd false (faults w) then (Err what, w') else (Ok tt, w').

(** The daemon answers the next [n] calls. *)
Definition reachable (n : nat) (w : World) : Prop :=
  Forall (fun b => b = false) (firstn n (faults w)).

(** *** The daemon's API *)

(** Names are stored with a leading slash; a reference [ref] designates
    the container named ["/" ++ ref] (or [ref] itself when it is already
    written with its slash). *)
Definition name_matches (ref : string) (name : string) : bool :=
  String.eqb name ("/" +:+ ref) || String.eqb name ref.

Definition has_name (ref : string) (c : Container) : bool :=
  existsb (name_matches ref) (ctr_Names c).

Definition fresh_id (n : nat) : string := "c" +:+ itoa (Z.of_nat n).

Definition stored_name (name : string) (id : string) : string :=
  match name with
  | EmptyString => "/auto_" +:+ id
  | String "/"%char _ => name
  | _ => "/" +:+ name
  end.

Definition ContainerList : M World (list Container) :=
  call "Cannot connect to the Docker daemon" ;;;
  fun w => (Ok (containers w), w).

Definition ContainerInspect (ref : string) : M World Container :=
  call "Cannot connect to the Docker daemon" ;;;
  fun w => match find (has_name ref) (containers w) with
           | Some c => (Ok c, w)
           | None => (Err ("No such container: " +:+ ref), w)
           end.

Definition start_id (id : string) (c : Container) : Container :=
  if String.eqb (ctr_ID c) id
  then mkContainer (ctr_ID c) (ctr_Names c) true (ctr_Spec c) else c.

Definition ContainerStart (id : string) : M World unit :=
  call "Cannot connect to the Docker daemon" ;;;
  fun w => if existsb (fun c => String.eqb (ctr_ID c) id) (containers w)
           then (Ok tt, set_containers (map (start_id id) (containers w)) w)
           else (Err ("No such container: " +:+ id), w).

Definition stop_ref (ref : string) (c : Container) : Container :=
  if has_name ref c
  then mkContainer (ctr_ID c) (ctr_Names c) false (ctr_Spec c) else c.

Definition ContainerStop (ref : string) : M World unit :=
  call "Cannot connect to the Docker daemon" ;;;
  fun w => if existsb (has_name ref) (containers w)
           then (Ok tt, set_containers (map (stop_ref ref) (containers w)) w)
           else (Err ("No such container: " +:+ ref), w).

Definition ContainerRemove (ref : string) : M World unit :=
  call "Cannot connect to the Docker daemon" ;;;
  fun w => if existsb (has_name ref) (containers w)
           then (Ok tt, set_containers (filter (fun c => negb (has_name ref c)) (containers w)) w)
           else (Err ("No such container: " +:+ ref), w).

(** [cli.ImagePull] followed by draining its progress stream. *)
Definition ImagePull (image : string) : M World unit :=
  call "pull access denied" ;;;
  fun w => (Ok tt, w).

Definition drain_pull (image : string) : M World unit :=
  call "unexpected EOF" ;;;
  fun w => (Ok tt, set_images (image :: images w) w).

Definition ContainerCreate (rq : CreateRequest) (name : string) : M World string :=
  call "Cannot connect to the Docker daemon" ;;;
  fun w =>
    let id := fresh_id (next_id w) in
    let nm := stored_name name id in
    if existsb (fun c => existsb (String.eqb nm) (ctr_Names c)) (containers w)
    then (Err ("Conflict. The container name " +:+ nm +:+ " is already in use"), w)
    else (Ok id,
          set_next_id (S (next_id w))
            (set_containers (containers w ++ [mkContainer id [nm] false rq]) w)).

Definition NetworkList : M World (list NetworkResource) :=
  call "Cannot connect to the Docker daemon" ;;;
  fun w => (Ok (networks w), w).

Definition NetworkCreateCall (name : string) (opts : NetworkCreate) : M World string :=
  call "Cannot connect to the Docker daemon" ;;;
  fun w =>
    if existsb (fun n => String.eqb (net_Name n) name) (networks w)
    then (Err ("network with name " +:+ name +:+ " already exists"), w)
    else let id := "n" +:+ itoa (Z.of_nat (next_id w)) in
         (Ok id, set_next_id (S (next_id w))
                   (set_networks (networks w ++ [mkNetworkResource id name opts]) w)).

Definition NetworkRemove (name : string) : M World unit :=
  call "Cannot connect to the Docker daemon" ;;;
  fun w => if existsb (fun n => String.eqb (net_Name n) name) (networks w)
           then (Ok tt, set_networks (filter (fun n => negb (String.eqb (net_Name n) name)) (networks w)) w)
           else (Err ("network " +:+ name +:+ " not found"), w).

(** *** docker/client.go *)

Definition NewClient : M World unit :=
  wrapping "failed to create docker client" (call "unable to parse docker host").

Definition GetSharedClient : M World unit :=
  fun w => if sharedClient w then (Ok tt, w)
           else (NewClient ;;; fun w' => (Ok tt, set_sharedClient true w')) w.

(** *** docker/container.go *)

Definition ContainerExists (containerName : string) : M World bool :=
  GetSharedClient ;;;
  cs <- wrapping "failed to list containers" ContainerList ;;
  ret (existsb (has_name containerName) cs).

Definition build_request (config : ContainerConfig) : CreateRequest :=
  mkCreateRequest
    (Image config) (Hostname config) (Env config) (ExposedPorts config)
    (WorkingDir config) (User config)
    (if (0 <? length (Cmd config))%nat then Cmd config else [])
    (if (0 <? length (Entrypoint config))%nat then Entrypoint config else [])
    (Mounts config) (RestartPolicy config) (PortBindings config)
    (if String.eqb (NetworkName config) "" then None
     else Some (NetworkName config, NetworkAliases config)).

Definition CreateContainer (config : ContainerConfig) : M World string :=
  GetSharedClient ;;;
  exists_ <- wrapping "failed to check if container exists" (ContainerExists (Name config)) ;;
  if (exists_ : bool) then
    inspect <- wrapping "failed to inspect existing container" (ContainerInspect (Name config)) ;;
    (if ctr_Running inspect then ret tt
     else wrapping "failed to start existing container" (ContainerStart (ctr_ID inspect))) ;;;
    ret (ctr_ID inspect)
  else
    wrapping "failed to pull image" (ImagePull (Image config)) ;;;
    wrapping "failed to complete image pull" (drain_pull (Image config)) ;;;
    id <- wrapping "failed to create container" (ContainerCreate (build_request config) (Name config)) ;;
    wrapping "failed to start container" (ContainerStart id) ;;;
    ret id.

Definition warn (msg : string) : M World unit :=
  fun w => (Ok tt, set_stderr (stderr w ++ [msg]) w).

Definition RemoveContainer (containerName : string) : M World unit :=
  GetSharedClient ;;;
  r <- attempt (ContainerStop containerName) ;;
  match r with
  | Err e => warn ("Warning: failed to stop container: " +:+ e)
  | Ok _ => ret tt
  end ;;;
  wrapping "failed to remove container" (ContainerRemove containerName).

(** *** docker/network.go *)

Record NetworkConfig := mkNetworkConfig {
  nw_Name : string;
  nw_CIDR : string;
  nw_Driver : string;
  nw_BridgeName : string
}.

Definition lift_result {A} (r : result A) : M World A := fun w => (r, w).

Definition CreateNetwork (config : NetworkConfig) : M World string :=
  GetSharedClient ;;;
  nets <- wrapping "failed to list networks" NetworkList ;;
  match find (fun n => String.eqb (net_Name n) (nw_Name config)) nets with
  | Some n => fail ("network " +:+ nw_Name config +:+ " already exists")
  | None =>
      gi <- wrapping "failed to parse network CIDR"
              (lift_result (Net.deriveNetworkConfig4 (nw_CIDR config))) ;;
      let '(gateway, ipRange) := gi in
      let bridgeName :=
        if String.eqb (nw_BridgeName config) "" then nw_Name config +:+ "br0"
        else nw_BridgeName config in
      wrapping "failed to create network"
        (NetworkCreateCall (nw_Name config)
           (mkNetworkCreate (nw_Driver config) (nw_CIDR config) ipRange gateway false bridgeName))
  end.

Definition RemoveNetwork (name : string) : M World unit :=
  GetSharedClient ;;;
  wrapping "failed to remove network" (NetworkRemove name).

Definition NetworkExists (name : string) : M World bool :=
  GetSharedClient ;;;
  nets <- wrapping "failed to list networks" NetworkList ;;
  ret (existsb (fun n => String.eqb (net_Name n) name) nets).

End Docker.

(** ** Reasoning about monadic code *)

Lemma bind_Ok_inv {S A B} (c : M S A) (k : A -> M S B) s b s' :
  bind c k s = (Ok b, s') -> exists a s1, c s = (Ok a, s1) /\ k a s1 = (Ok b, s').
Proof.
  unfold bind. destruct (c s) as [[a|e] s1]; [eauto | discriminate].
Qed.

Lemma bind_Ok {S A B} (c : M S A) (k : A -> M S B) s a s1 :
  c s = (Ok a, s1) -> bind c k s = k a s1.
Proof. unfold bind. now intros ->. Qed.

Lemma bind_Err {S A B} (c : M S A) (k : A -> M S B) s e s1 :
  c s = (Err e, s1) -> bind c k s = (Err e, s1).
Proof. unfold bind. now intros ->. Qed.

Lemma wrapping_Ok_inv {S A} p (c : M S A) s a s' :
  wrapping p c s = (Ok a, s') -> c s = (Ok a, s').
Proof.
  unfold wrapping. destruct (c s) as [[x|e] s1]; [congruence | discriminate].
Qed.

Lemma wrapping_Ok {S A} p (c : M S A) s a s' :
  c s = (Ok a, s') -> wrapping p c s = (Ok a, s').
Proof. unfold wrapping. now intros ->. Qed.

Lemma wrapping_Err {S A} p (c : M S A) s e s' :
  c s = (Err e, s') -> wrapping p c s = (Err (wrap p e), s').
Proof. unfold wrapping. now intros ->. Qed.

Module DockerFacts.
Import Docker.

Lemma call_Ok_inv what w u w' :
  call what w = (Ok u, w') ->
  hd false (faults w) = false /\ w' = set_faults (tl (faults w)) w.
Proof.
  unfold call. destruct (hd false (faults w)); [discriminate|].
  intros [= _ <-]. auto.
Qed.

Lemma call_Ok what w :
  hd false (faults w) = false -> call what w = (Ok tt, set_faults (tl (faults w)) w).
Proof. unfold call. now intros ->. Qed.

Lemma GetSharedClient_shared w :
  sharedClient w = true -> GetSharedClient w = (Ok tt, w).
Proof. unfold GetSharedClient. now intros ->. Qed.

Lemma GetSharedClient_Ok_inv w u w' :
  GetSharedClient w = (Ok u, w') ->
  sharedClient w' = true /\ containers w' = containers w /\
  networks w' = networks w /\ images w' = images w /\ next_id w' = next_id w.
Proof.
  unfold GetSharedClient. destruct (sharedClient w) eqn:Hs.
  - intros [= _ <-]. auto.
  - intros H. apply bind_Ok_inv in H as (a & s1 & Hc & Hk).
    apply wrapping_Ok_inv, call_Ok_inv in Hc as [_ ->].
    injection Hk as _ <-. simpl. auto.
Qed.

Lemma start_id_has_name ref id c : has_name ref (start_id id c) = has_name ref c.
Proof. unfold start_id. now destruct (String.eqb (ctr_ID c) id). Qed.

Lemma start_id_ID id c : ctr_ID (start_id id c) = ctr_ID c.
Proof. unfold start_id. now destruct (String.eqb (ctr_ID c) id). Qed.

Lemma find_map_start ref id (l : list Container) :
  find (has_name ref) (map (start_id id) l) = option_map (start_id id) (find (has_name ref) l).
Proof.
  induction l as [|c l IH]; [reflexivity|]. simpl.
  rewrite start_id_has_name. now destruct (has_name ref c).
Qed.

Lemma existsb_find {A} (p : A -> bool) (l : list A) :
  existsb p l = match find p l with Some _ => true | None => false end.
Proof.
  induction l as [|x l IH]; [reflexivity|]. simpl.
  destruct (p x); [reflexivity | exact IH].
Qed.

Lemma find_app_None {A} (p : A -> bool) (l l' : list A) :
  find p l = None -> find p (l ++ l') = find p l'.
Proof.
  induction l as [|x l IH]; [reflexivity|]. simpl.
  destruct (p x); [discriminate | exact IH].
Qed.

Lemma ContainerExists_Ok_inv name w b w' :
  ContainerExists name w = (Ok b, w') ->
  sharedClient w' = true /\ containers w' = containers w /\
  images w' = images w /\ next_id w' = next_id w /\ networks w' = networks w /\
  b = existsb (has_name name) (containers w).
Proof.
  unfold ContainerExists. intros H.
  apply bind_Ok_inv in H as (u & s1 & Hg & H).
  apply GetSharedClient_Ok_inv in Hg as (Hs & Hc & Hn & Hi & Hx).
  apply bind_Ok_inv in H as (cs & s2 & Hl & H).
  apply wrapping_Ok_inv in Hl. unfold ContainerList in Hl.
  apply bind_Ok_inv in Hl as (u' & s3 & Hcall & Hl).
  apply call_Ok_inv in Hcall as [_ ->]. injection Hl as <- <-.
  injection H as <- <-. simpl. rewrite Hc. auto 10.
Qed.

(** What a successful [CreateContainer] leaves behind: the client handle
    exists, and any container that answers to the requested name is
    running and carries the returned identifier. *)
Lemma CreateContainer_Ok_post config w id w1 :
  CreateContainer config w = (Ok id, w1) ->
  sharedClient w1 = true /\
  forall c, find (has_name (Name config)) (containers w1) = Some c ->
            ctr_ID c = id /\ ctr_Running c = true.
Proof.
  unfold CreateContainer. intros H.
  apply bind_Ok_inv in H as (u & s1 & Hg & H).
  apply GetSharedClient_Ok_inv in Hg as (Hs1 & _).
  apply bind_Ok_inv in H as (ex & s2 & He & H).
  apply wrapping_Ok_inv, ContainerExists_Ok_inv in He as (Hs2 & Hc2 & _ & _ & _ & Hex).
  destruct ex.
  - apply bind_Ok_inv in H as (insp & s3 & Hi & H).
    apply wrapping_Ok_inv in Hi. unfold ContainerInspect in Hi.
    apply bind_Ok_inv in Hi as (u' & s4 & Hcall & Hi).
    apply call_Ok_inv in Hcall as [_ ->]. simpl in Hi.
    destruct (find (has_name (Name config)) (containers s2)) as [c|] eqn:Hf; [|discriminate].
    injection Hi as -> <-.
    apply bind_Ok_inv in H as (u'' & s5 & Hst & H). injection H as <- <-.
    destruct (ctr_Running insp) eqn:Hrun.
    + injection Hst as _ <-. simpl. split; [assumption|].
      intros c Hc. rewrite Hf in Hc. injection Hc as <-. auto.
    + apply wrapping_Ok_inv in Hst. unfold ContainerStart in Hst.
      apply bind_Ok_inv in Hst as (u3 & s6 & Hcall & Hst).
      apply call_Ok_inv in Hcall as [_ ->]. simpl in Hst.
      destruct (existsb _ (containers s2)); [|discriminate].
      injection Hst as _ <-. simpl. split; [assumption|].
      intros c Hc. rewrite find_map_start, Hf in Hc. injection Hc as <-.
      rewrite start_id_ID. split; [reflexivity|].
      unfold start_id. now rewrite String.eqb_refl.
  - apply bind_Ok_inv in H as (u1 & s3 & Hp & H).
    apply wrapping_Ok_inv in Hp. unfold ImagePull in Hp.
    apply bind_Ok_inv in Hp as (u2 & s4 & Hcall & Hp).
    apply call_Ok_inv in Hcall as [_ ->]. injection Hp as _ <-.
    apply bind_Ok_inv in H as (u3 & s5 & Hd & H).
    apply wrapping_Ok_inv in Hd. unfold drain_pull in Hd.
    apply bind_Ok_inv in Hd as (u4 & s6 & Hcall & Hd).
    apply call_Ok_inv in Hcall as [_ ->]. injection Hd as _ <-.
    apply bind_Ok_inv in H as (id' & s7 & Hcr & H).
    apply wrapping_Ok_inv in Hcr. unfold ContainerCreate in Hcr.
    apply bind_Ok_inv in Hcr as (u5 & s8 & Hcall & Hcr).
    apply call_Ok_inv in Hcall as [_ ->]. simpl in Hcr.
    destruct (existsb _ (containers s2)) eqn:Hconf; [discriminate|].
    injection Hcr as <- <-.
    apply bind_Ok_inv in H as (u6 & s9 & Hst & H). injection H as <- <-.
    apply wrapping_Ok_inv in Hst. unfold ContainerStart in Hst.
    apply bind_Ok_inv in Hst as (u7 & s10 & Hcall & Hst).
    apply call_Ok_inv in Hcall as [_ ->]. simpl in Hst.
    destruct (existsb _ (containers s2 ++ _)); [|discriminate].
    injection Hst as _ <-. simpl. split; [assumption|].
    intros c Hc. rewrite find_map_start in Hc.
    assert (Hnone : find (has_name (Name config)) (containers s2) = None).
    { rewrite Hc2. rewrite existsb_find in Hex.
      destruct (find (has_name (Name config)) (containers s1)); [discriminate | reflexivity]. }
    rewrite (find_app_None _ _ _ Hnone) in Hc.
    simpl in Hc.
    destruct (has_name (Name config) _); [|discriminate].
    injection Hc as <-. rewrite start_id_ID. simpl. split; [reflexivity|].
    unfold start_id. simpl. now rewrite String.eqb_refl.
Qed.

End DockerFacts.

Module DockerClaims.
Import Docker DockerFacts.

Lemma reachable_2 w :
  reachable 2 w ->
  hd false (faults w) = false /\ hd false (tl (faults w)) = false.
Proof.
  unfold reachable. destruct (faults w) as [|a [|b l]]; simpl; intros H.
  - auto.
  - inversion H; subst. auto.
  - inversion H as [|? ? Ha H']; subst. inversion H'; subst. auto.
Qed.

(** C2. [CreateContainer] invoked a second time with the same container
    name, the second invocation finding the container, while the daemon
    answers: it returns the identifier the first invocation returned and
    no error, creates nothing, pulls nothing, and leaves every container
    as it was, whatever the rest of the second descriptor says. *)
Theorem C2_CreateContainer_same_name_twice
  (cfg1 cfg2 : ContainerConfig) (w w1 : World) (id1 : string) :
  Name cfg2 = Name cfg1 ->
  CreateContainer cfg1 w = (Ok id1, w1) ->
  reachable 2 w1 ->
  fst (ContainerExists (Name cfg2) w1) = Ok true ->
  exists w2,
    CreateContainer cfg2 w1 = (Ok id1, w2) /\
    containers w2 = containers w1 /\
    images w2 = images w1 /\
    next_id w2 = next_id w1 /\
    networks w2 = networks w1.
Proof.
  intros Hname H1 Hreach Hfound.
  destruct (CreateContainer_Ok_post _ _ _ _ H1) as [Hshared Hpost].
  destruct (reachable_2 _ Hreach) as [Hf1 Hf2].
  rewrite Hname in *.
  set (wa := set_faults (tl (faults w1)) w1).
  assert (Hex : ContainerExists (Name cfg1) w1
                = (Ok (existsb (has_name (Name cfg1)) (containers w1)), wa)).
  { unfold ContainerExists, ContainerList, wrapping, bind, GetSharedClient, call, ret.
    rewrite Hshared, Hf1. reflexivity. }
  rewrite Hex in Hfound. simpl in Hfound. injection Hfound as Hfound.
  rewrite existsb_find in Hfound.
  destruct (find (has_name (Name cfg1)) (containers w1)) as [c|] eqn:Hfind;
    [clear Hfound | discriminate].
  destruct (Hpost c eq_refl) as [Hid Hrun].
  exists (set_faults (tl (faults wa)) wa).
  split; [|now simpl].
  unfold CreateContainer. rewrite Hname.
  rewrite (bind_Ok _ _ _ _ _ (GetSharedClient_shared _ Hshared)).
  erewrite bind_Ok; [|apply wrapping_Ok; rewrite Hex, existsb_find, Hfind; reflexivity].
  cbv beta iota.
  assert (Hinsp : ContainerInspect (Name cfg1) wa = (Ok c, set_faults (tl (faults wa)) wa)).
  { unfold ContainerInspect. erewrite bind_Ok; [|apply call_Ok; exact Hf2].
    simpl. now rewrite Hfind. }
  erewrite bind_Ok; [|apply wrapping_Ok; exact Hinsp].
  rewrite Hrun. unfold bind, ret. now rewrite Hid.
Qed.

(** A second invocation on the daemon that the first one left, with a
    different image in the descriptor. *)
Definition zot_cfg (image : string) : ContainerConfig :=
  mkContainerConfig "kinder-zot" image "zot" "kind" ["zot"] []
    ["5000/tcp"] [("5000/tcp", ("0.0.0.0", "5000"))]
    [("/data/zot", "/etc/zot")] "unless-stopped" "" "" ["serve"; "/etc/zot/config.json"] [].

Definition empty_world : World := mkWorld [] [] [] 0 [] false [].

Lemma C2_witness :
  exists w2,
    CreateContainer (zot_cfg "zot:v2") (snd (CreateContainer (zot_cfg "zot:v1") empty_world))
    = (Ok "c0", w2) /\
    containers w2 = containers (snd (CreateContainer (zot_cfg "zot:v1") empty_world)) /\
    images w2 = ["zot:v1"] /\
    next_id w2 = 1%nat /\
    networks w2 = [].
Proof.
  apply (C2_CreateContainer_same_name_twice
           (zot_cfg "zot:v1") (zot_cfg "zot:v2") empty_world
           (snd (CreateContainer (zot_cfg "zot:v1") empty_world)) "c0").
  - reflexivity.
  - vm_compute. reflexivity.
  - vm_compute. constructor.
  - vm_compute. reflexivity.
Defined.

End DockerClaims.

(** ** main.go: the start, stop and restart commands *)

Module Main.

(** What the commands print about their progress: [ProgressStart] opens a
    step, [ProgressDone] closes it with its outcome. Headers, blank lines
    and the final summary are console formatting and are left out. *)
Inductive Event :=
| EvStart (name : string)
| EvDone (success : bool) (details : string).

(** The package-level flag variables that the commands read and default. *)
Record Flags := mkFlags {
  certPath : string;
  keyPath : string;
  networkCIDR : string;
  networkName : string;
  traefikPort : string;
  traefikDomain : string
}.

Definition DefaultTraefikPort : string := "8443".
Definition DefaultTraefikDomain : string := "c0000201.sslip.io".
Definition CACertFilename : string := "ca.crt".
Definition CAKeyFilename : string := "ca.key".

(** [joinErrors] *)
Definition joinErrors (errs : list string) : string := Join errs ", ".

Section Orchestrator.

(** Everything outside the container daemon that the service steps act
    on: the file system, the provisioned clusters, the registry. *)
Variable X : Type.

Record Env := mkEnv { docker : Docker.World; sys : X; flags : Flags }.

Definition World : Type := Env * list Event.

Definition lift {A} (c : M Env A) : M World A :=
  fun w => let '(r, e') := c (fst w) in (r, (e', snd w)).

Definition liftD {A} (c : M Docker.World A) : M Env A :=
  fun e => let '(r, d') := c (docker e) in (r, mkEnv d' (sys e) (flags e)).

Definition ProgressStart (name : string) : M World unit :=
  fun w => (Ok tt, (fst w, snd w ++ [EvStart name])).

Definition ProgressDone (success : bool) (details : string) : M World unit :=
  fun w => (Ok tt, (fst w, snd w ++ [EvDone success details])).

Definition getFlags : M World Flags := fun w => (Ok (flags (fst w)), w).

Definition setFlags (f : Flags) : M World unit :=
  fun w => (Ok tt, (mkEnv (docker (fst w)) (sys (fst w)) f, snd w)).

(** The service-level operations of container_commands.go and
    kind_commands.go, and the calls into the file system, the [filepath]
    package and the [cacert] package that [startCmd] makes. *)
Variable stopKind stopTraefik stopGatus stopZot stopStepCA : M Env unit.
Variable startStepCA startZot WaitForZot startGatus startTraefik startKind
  bootstrapArgoCD : M Env unit.
Variable pushTrustBundle pushCertManagerIssuer : string -> M Env unit.
Variable getDataDir : M Env string.
Variable statIsNotExist : string -> M Env bool.
Variable MkdirAll : string -> M Env unit.
Variable GenerateCAWithDomain : string -> string -> string -> M Env unit.
Variable filepath_Join : string -> string -> string.
Variable filepath_Dir : string -> string.

(** [if err := c; err != nil { ProgressDone(false, err.Error());
    return fmt.Errorf("<prefix>: %w", err) }] *)
Definition orAbort {A} (prefix : string) (c : M World A) : M World A :=
  r <- attempt c ;;
  match r with
  | Err e => ProgressDone false e ;;; fail (wrap prefix e)
  | Ok a => ret a
  end.

(** [if err := c; err != nil { ProgressDone(false, err.Error());
    errs = append(errs, fmt.Sprintf("<label>: %v", err)) }
    else { ProgressDone(true, "Stopped") }] *)
Definition orRecord (label : string) (c : M World unit) (errs : list string)
  : M World (list string) :=
  r <- attempt c ;;
  match r with
  | Err e => ProgressDone false e ;;; ret (errs ++ [label +:+ ": " +:+ e])
  | Ok _ => ProgressDone true "Stopped" ;;; ret errs
  end.


(** The blocks of [startCmd], in the order of the source. *)
Definition start_defaults : M World unit :=
  f <- getFlags ;;
  let f := if String.eqb (traefikPort f) "" then
             mkFlags (certPath f) (keyPath f) (networkCIDR f) (networkName f)
                     DefaultTraefikPort (traefikDomain f)
           else f in
  let f := if String.eqb (traefikDomain f) "" then
             mkFlags (certPath f) (keyPath f) (networkCIDR f) (networkName f)
                     (traefikPort f) DefaultTraefikDomain
           else f in
  setFlags f ;;;
  dataDir <- wrapping "failed to get data directory" (lift getDataDir) ;;
  let f := if String.eqb (certPath f) "" then
             mkFlags (filepath_Join dataDir CACertFilename) (keyPath f) (networkCIDR f)
                     (networkName f) (traefikPort f) (traefikDomain f)
           else f in
  let f := if String.eqb (keyPath f) "" then
             mkFlags (certPath f) (filepath_Join dataDir CAKeyFilename) (networkCIDR f)
                     (networkName f) (traefikPort f) (traefikDomain f)
           else f in
  setFlags f.

Definition start_ca_certificate : M World unit :=
  ProgressStart "CA certificate" ;;;
  f <- getFlags ;;
  missing <- lift (statIsNotExist (certPath f)) ;;
  if (missing : bool) then
    let certDir := filepath_Dir (certPath f) in
    orAbort ("failed to create directory " +:+ certDir) (lift (MkdirAll certDir)) ;;;
    let keyDir := filepath_Dir (keyPath f) in
    orAbort ("failed to create directory " +:+ keyDir) (lift (MkdirAll keyDir)) ;;;
    orAbort "failed to generate CA certificate"
      (lift (GenerateCAWithDomain (certPath f) (keyPath f) (traefikDomain f))) ;;;
    ProgressDone true "generated"
  else ProgressDone true "exists".

(** [networkID[:12]] *)
Definition prefix12 (s : string) : string := String.substring 0 12 s.

Definition start_network : M World unit :=
  ProgressStart "Network" ;;;
  f <- getFlags ;;
  networkExists <- orAbort "failed to check if network exists"
                     (lift (liftD (Docker.NetworkExists (networkName f)))) ;;
  if (networkExists : bool) then
    ProgressDone true ("'" +:+ networkName f +:+ "' exists")
  else
    let netConfig := Docker.mkNetworkConfig (networkName f) (networkCIDR f) "bridge"
                       (networkName f +:+ "br0") in
    networkID <- orAbort "failed to create network"
                   (lift (liftD (Docker.CreateNetwork netConfig))) ;;
    ProgressDone true ("Created '" +:+ networkName f +:+ "' (ID: " +:+ prefix12 networkID
                       +:+ ", CIDR: " +:+ networkCIDR f +:+ ")").

Definition start_services : M World unit :=
  ProgressStart "Step CA" ;;;
  orAbort "failed to start Step CA" (lift startStepCA) ;;;
  ProgressDone true "Running" ;;;
  ProgressStart "Zot Registry" ;;;
  orAbort "failed to start Zot" (lift startZot) ;;;
  orAbort "Zot registry not ready" (lift WaitForZot) ;;;
  ProgressDone true "Running" ;;;
  ProgressStart "Trust Bundle" ;;;
  f <- getFlags ;;
  orAbort "failed to push trust bundle" (lift (pushTrustBundle (certPath f))) ;;;
  ProgressDone true "Pushed" ;;;
  ProgressStart "Cert Issuer" ;;;
  f <- getFlags ;;
  orAbort "failed to push cert-manager issuer" (lift (pushCertManagerIssuer (certPath f))) ;;;
  ProgressDone true "Pushed" ;;;
  ProgressStart "Gatus" ;;;
  orAbort "failed to start Gatus" (lift startGatus) ;;;
  ProgressDone true "Running" ;;;
  ProgressStart "Traefik" ;;;
  orAbort "failed to start Traefik" (lift startTraefik) ;;;
  ProgressDone true "Running" ;;;
  ProgressStart "Kind cluster" ;;;
  orAbort "failed to start Kind" (lift startKind) ;;;
  ProgressDone true "Running" ;;;
  ProgressStart "ArgoCD" ;;;
  orAbort "failed to bootstrap ArgoCD" (lift bootstrapArgoCD) ;;;
  ProgressDone true "Running".

Definition startCmd : M World unit :=
  start_defaults ;;;
  start_ca_certificate ;;;
  start_network ;;;
  start_services.

(** [if err := c; err != nil { ProgressDone(false, err.Error()) }
    else { ProgressDone(true, "Stopped") }]: the error is shown and dropped. *)
Definition orIgnore (c : M World unit) : M World unit :=
  r <- attempt c ;;
  match r with
  | Err e => ProgressDone false e
  | Ok _ => ProgressDone true "Stopped"
  end.

Definition restartCmd : M World unit :=
  ProgressStart "Kind cluster" ;;;
  orIgnore (lift stopKind) ;;;
  ProgressStart "Traefik" ;;;
  orIgnore (lift stopTraefik) ;;;
  ProgressStart "Gatus" ;;;
  orIgnore (lift stopGatus) ;;;
  ProgressStart "Zot Registry" ;;;
  orIgnore (lift stopZot) ;;;
  ProgressStart "Step CA" ;;;
  orIgnore (lift stopStepCA) ;;;
  ProgressStart "Step CA" ;;;
  orAbort "failed to start Step CA" (lift startStepCA) ;;;
  ProgressDone true "Running" ;;;
  ProgressStart "Zot Registry" ;;;
  orAbort "failed to start Zot" (lift startZot) ;;;
  orAbort "Zot registry not ready" (lift WaitForZot) ;;;
  ProgressDone true "Running" ;;;
  ProgressStart "Trust Bundle" ;;;
  f <- getFlags ;;
  orAbort "failed to push trust bundle" (lift (pushTrustBundle (certPath f))) ;;;
  ProgressDone true "Pushed" ;;;
  ProgressStart "Cert Issuer" ;;;
  f <- getFlags ;;
  orAbort "failed to push cert-manager issuer" (lift (pushCertManagerIssuer (certPath f))) ;;;
  ProgressDone true "Pushed" ;;;
  ProgressStart "Gatus" ;;;
  orAbort "failed to start Gatus" (lift startGatus) ;;;
  ProgressDone true "Running" ;;;
  ProgressStart "Traefik" ;;;
  orAbort "failed to start Traefik" (lift startTraefik) ;;;
  ProgressDone true "Running" ;;;
  ProgressStart "Kind cluster" ;;;
  orAbort "failed to start Kind" (lift startKind) ;;;
  ProgressDone true "Running" ;;;
  ProgressStart "ArgoCD" ;;;
  orAbort "failed to bootstrap ArgoCD" (lift bootstrapArgoCD) ;;;
  ProgressDone true "Running".

End Orchestrator.

End Main.

(** ** The stop command is a best-effort teardown *)

Module StopFacts.
Import Main.

Section Stop.

Variable X : Type.
Variable stopKind stopTraefik stopGatus stopZot stopStepCA : M (Env X) unit.






(** The names of the steps that were opened, in order. *)
Definition started (l : list Event) : list string :=
  flat_map (fun ev => match ev with EvStart n => [n] | EvDone _ _ => [] end) l.




End Stop.

End StopFacts.

(** ** The network step of the start command *)

Module StartFacts.
Import Main.

Section StartNetwork.

Variable X : Type.

Lemma NetworkExists_reachable (name : string) (d : Docker.World) :
  Docker.reachable 2 d ->
  exists d',
    Docker.NetworkExists name d
    = (Ok (existsb (fun n => String.eqb (Docker.net_Name n) name) (Docker.networks d)), d') /\
    Docker.networks d' = Docker.networks d /\
    Docker.containers d' = Docker.containers d /\
    Docker.images d' = Docker.images d /\
    Docker.next_id d' = Docker.next_id d.
Proof.
  intros Hr. destruct (DockerClaims.reachable_2 _ Hr) as [H1 H2].
  unfold Docker.NetworkExists, Docker.GetSharedClient, Docker.NewClient,
    Docker.NetworkList, Docker.call, wrapping, bind, ret.
  destruct (Docker.sharedClient d) eqn:Hs.
  - rewrite H1. eexists. split; [reflexivity|]. simpl. auto.
  - rewrite H1. cbn [Docker.set_faults Docker.set_sharedClient Docker.faults
                      Docker.containers Docker.networks Docker.images Docker.next_id
                      Docker.sharedClient Docker.stderr].
    rewrite H2. eexists. split; [reflexivity|]. simpl. auto.
Qed.

(** C3. When a network of the requested name already exists (and the
    daemon answers), the network step of the start sequence reports that
    it exists, returns no error, creates nothing, and the sequence goes on
    with whatever follows, on the network that was there. *)
Theorem C3_start_accepts_existing_network
  {B : Type} (e : Env X) (l : list Event) (k : unit -> M (World X) B) :
  existsb (fun n => String.eqb (Docker.net_Name n) (networkName (flags X e)))
          (Docker.networks (docker X e)) = true ->
  Docker.reachable 2 (docker X e) ->
  exists d',
    bind (start_network X) k (e, l)
    = k tt (mkEnv X d' (sys X e) (flags X e),
            l ++ [EvStart "Network";
                  EvDone true ("'" +:+ networkName (flags X e) +:+ "' exists")]) /\
    Docker.networks d' = Docker.networks (docker X e) /\
    Docker.containers d' = Docker.containers (docker X e).
Proof.
  intros Hex Hr.
  destruct (NetworkExists_reachable (networkName (flags X e)) _ Hr)
    as (d' & Hrun & Hn & Hc & _).
  exists d'. split; [|auto].
  unfold start_network, orAbort, ProgressStart, ProgressDone, getFlags, attempt,
    lift, liftD, bind, ret.
  cbn [fst snd]. rewrite Hrun, Hex. cbn [fst snd].
  now rewrite <- app_assoc.
Qed.

(** [CreateNetwork] on its own refuses a name that is taken: the start
    sequence never calls it in that case. *)
Lemma CreateNetwork_refuses_existing (config : Docker.NetworkConfig) (d : Docker.World) :
  existsb (fun n => String.eqb (Docker.net_Name n) (Docker.nw_Name config))
          (Docker.networks d) = true ->
  Docker.reachable 2 d ->
  fst (Docker.CreateNetwork config d)
  = Err ("network " +:+ Docker.nw_Name config +:+ " already exists").
Proof.
  intros Hex Hr. destruct (DockerClaims.reachable_2 _ Hr) as [H1 H2].
  rewrite DockerFacts.existsb_find in Hex.
  unfold Docker.CreateNetwork, Docker.GetSharedClient, Docker.NewClient,
    Docker.NetworkList, Docker.call, wrapping, bind, ret, fail.
  destruct (Docker.sharedClient d) eqn:Hs; rewrite H1;
    cbn [Docker.set_faults Docker.set_sharedClient Docker.faults
         Docker.containers Docker.networks Docker.images Docker.next_id
         Docker.sharedClient Docker.stderr]; rewrite ?H2;
    cbn [Docker.set_faults Docker.set_sharedClient Docker.faults
         Docker.containers Docker.networks Docker.images Docker.next_id
         Docker.sharedClient Docker.stderr];
    destruct (find _ (Docker.networks d)); try discriminate; reflexivity.
Qed.

End StartNetwork.

Definition kind_net : Docker.NetworkResource :=
  Docker.mkNetworkResource "n0" "kind"
    (Docker.mkNetworkCreate "bridge" "172.28.28.0/24" "172.28.28.0/25" "172.28.28.1" false "kindbr0").

Definition world_with_network : Env unit :=
  mkEnv unit (Docker.mkWorld [] [kind_net] [] 1 [] false [])
        tt (mkFlags "" "" "172.28.28.0/24" "kind" "" "").

Lemma C3_witness :
  exists d',
    bind (start_network unit) (fun _ => ret tt) (world_with_network, [])
    = ret tt (mkEnv unit d' tt (flags unit world_with_network),
              [] ++ [EvStart "Network"; EvDone true ("'" +:+ "kind" +:+ "' exists")]) /\
    Docker.networks d' = [kind_net] /\
    Docker.containers d' = [].
Proof.
  apply (C3_start_accepts_existing_network unit world_with_network [] (fun _ => ret tt)).
  - reflexivity.
  - vm_compute. constructor.
Defined.

End StartFacts.

(** ** Restart against "stop without the network step, then start" *)

Module RestartFacts.
Import Main.

Section Restart.

Variable X : Type.
Variable stopKind stopTraefik stopGatus stopZot stopStepCA : M (Env X) unit.
Variable startStepCA startZot WaitForZot startGatus startTraefik startKind
  bootstrapArgoCD : M (Env X) unit.
Variable pushTrustBundle pushCertManagerIssuer : string -> M (Env X) unit.
Variable getDataDir : M (Env X) string.
Variable statIsNotExist : string -> M (Env X) bool.
Variable MkdirAll : string -> M (Env X) unit.
Variable GenerateCAWithDomain : string -> string -> string -> M (Env X) unit.
Variable filepath_Join : string -> string -> string.
Variable filepath_Dir : string -> string.

(** The specification's "Stop (skipping network teardown)": the stop
    command without its sixth step. *)
Definition stop_skipping_network : M (World X) unit :=
  let errs := [] in
  ProgressStart X "Kind cluster" ;;;
  errs <- orRecord X "kind" (lift X stopKind) errs ;;
  ProgressStart X "Traefik" ;;;
  errs <- orRecord X "traefik" (lift X stopTraefik) errs ;;
  ProgressStart X "Gatus" ;;;
  errs <- orRecord X "gatus" (lift X stopGatus) errs ;;
  ProgressStart X "Zot Registry" ;;;
  errs <- orRecord X "zot" (lift X stopZot) errs ;;
  ProgressStart X "Step CA" ;;;
  errs <- orRecord X "stepca" (lift X stopStepCA) errs ;;
  if (0 <? length errs)%nat
  then fail ("some services failed to stop: " +:+ "[" +:+ joinErrors errs +:+ "]")
  else ret tt.

Definition startCmd' : M (World X) unit :=
  startCmd X startStepCA startZot WaitForZot startGatus startTraefik startKind
    bootstrapArgoCD pushTrustBundle pushCertManagerIssuer getDataDir statIsNotExist
    MkdirAll GenerateCAWithDomain filepath_Join filepath_Dir.

Definition restartCmd' : M (World X) unit :=
  restartCmd X stopKind stopTraefik stopGatus stopZot stopStepCA
    startStepCA startZot WaitForZot startGatus startTraefik startKind
    bootstrapArgoCD pushTrustBundle pushCertManagerIssuer.

Definition start_services' : M (World X) unit :=
  start_services X startStepCA startZot WaitForZot startGatus startTraefik startKind
    bootstrapArgoCD pushTrustBundle pushCertManagerIssuer.

(** The specification's "[Restart] = [Stop] (skipping network teardown)
    followed by [Start]". *)
Definition restart_spec : M (World X) unit :=
  stop_skipping_network ;;; startCmd'.

(** Run a command for its effects and drop its error. *)
Definition discarding_error {A} (c : M (World X) A) : M (World X) unit :=
  fun w => (Ok tt, snd (c w)).

(** What restart does: the five service steps of stop with their errors
    shown but dropped, then the service steps of start. *)
Definition restart_as_built : M (World X) unit :=
  discarding_error stop_skipping_network ;;; start_services'.

(** Two runs agree when they return the same outcome, leave the same
    environment and opened the same steps in the same order. *)
Definition same_run (r1 r2 : result unit * World X) : Prop :=
  fst r1 = fst r2 /\
  fst (snd r1) = fst (snd r2) /\
  StopFacts.started (snd (snd r1)) = StopFacts.started (snd (snd r2)).

(** C4, as amended. For every initial state, restart is exactly: the
    five service steps of stop (no network teardown) with their failures
    shown and dropped, followed by the service steps of start from Step CA
    to ArgoCD. Start's flag defaulting, its CA-certificate step and its
    network step are not part of restart, and restart's outcome is the
    outcome of the start steps alone. *)
Theorem C4_restart_is_stop_errors_dropped_then_start_services (w : World X) :
  restartCmd' w = restart_as_built w.
Proof.
  destruct w as [e l].
  unfold restartCmd', restartCmd, restart_as_built, discarding_error,
    stop_skipping_network, start_services', start_services,
    orIgnore, orRecord, ProgressStart, ProgressDone, attempt, lift, bind, ret, fail.
  cbn [fst snd].
  destruct (stopKind e) as [[[]|m1] e1]; cbn [fst snd];
    destruct (stopTraefik e1) as [[[]|m2] e2]; cbn [fst snd];
    destruct (stopGatus e2) as [[[]|m3] e3]; cbn [fst snd];
    destruct (stopZot e3) as [[[]|m4] e4]; cbn [fst snd];
    destruct (stopStepCA e4) as [[[]|m5] e5]; cbn [fst snd app length Nat.ltb Nat.leb];
    reflexivity.
Qed.

End Restart.

End RestartFacts.

(** ** container_commands.go over the daemon model, for concrete runs *)

Module Services.
Import Main.

(** The host outside the daemon: which paths exist, where the data
    directory is, which clusters the provisioning library knows. *)
Record Host := mkHost {
  paths : list string;
  data_dir : string;
  clusters : list string
}.

Definition E := Env Host.

Definition filepath_Join (a b : string) : string := a +:+ "/" +:+ b.

(** [filepath.Dir] of a clean path: everything before the last slash. *)
Fixpoint dir_of (s : string) : option string :=
  match s with
  | EmptyString => None
  | String c s' =>
      match dir_of s' with
      | Some d => Some (String c d)
      | None => if Ascii.eqb c "/"%char then Some EmptyString else None
      end
  end.

Definition filepath_Dir (s : string) : string :=
  match dir_of s with
  | Some EmptyString => "/"
  | Some d => d
  | None => "."
  end.

Definition getDataDir : M E string := fun e => (Ok (data_dir (sys Host e)), e).

Definition statIsNotExist (p : string) : M E bool :=
  fun e => (Ok (negb (existsb (String.eqb p) (paths (sys Host e)))), e).

Definition add_path (p : string) : M E unit :=
  fun e => (Ok tt,
            mkEnv Host (docker Host e)
              (mkHost (p :: paths (sys Host e)) (data_dir (sys Host e)) (clusters (sys Host e)))
              (flags Host e)).

Definition MkdirAll (p : string) : M E unit := add_path p.

(** Only the two files that [GenerateCAWithDomain] leaves behind matter
    to the orchestration; the certificate itself is the subject of the
    [cacert] development below. *)
Definition GenerateCAWithDomain (certPath keyPath domain : string) : M E unit :=
  add_path certPath ;;; add_path keyPath.

Definition getF : M E Flags := fun e => (Ok (flags Host e), e).
Definition setF (f : Flags) : M E unit :=
  fun e => (Ok tt, mkEnv Host (docker Host e) (sys Host e) f).

(** [checkPrerequisites] *)
Definition checkPrerequisites (networkName : string) : M E unit :=
  networkExists <- wrapping "failed to check if network exists"
                     (liftD Host (Docker.NetworkExists networkName)) ;;
  if (networkExists : bool) then ret tt
  else fail ("network '" +:+ networkName
             +:+ "' does not exist. Create it first with 'kinder network create'").

(** [stopContainerSafe]: whatever happens, nothing is reported to the
    caller. *)
Definition stopContainerSafe (containerName : string) : M E unit :=
  r <- attempt (liftD Host (Docker.ContainerExists containerName)) ;;
  match r with
  | Ok true =>
      _ <- attempt (liftD Host (Docker.RemoveContainer containerName)) ;;
      ret tt
  | _ => ret tt
  end.

Definition StepCAContainerName : string := "kinder-step-ca".
Definition ZotContainerName : string := "kinder-zot".
Definition GatusContainerName : string := "kinder-gatus".
Definition TraefikContainerName : string := "kinder-traefik".
Definition DefaultAppName : string := "kinder".

Definition stopStepCA : M E unit := stopContainerSafe StepCAContainerName.
Definition stopZot : M E unit := stopContainerSafe ZotContainerName.
Definition stopGatus : M E unit := stopContainerSafe GatusContainerName.
Definition stopTraefik : M E unit := stopContainerSafe TraefikContainerName.

(** The descriptors that the [Create...Container] functions hand to
    [CreateContainer]; the configuration files they write first are left
    out. *)
Definition stepca_config (net dataDir : string) : Docker.ContainerConfig :=
  Docker.mkContainerConfig StepCAContainerName "smallstep/step-ca:latest" "stepca" net
    ["stepca"]
    ["DOCKER_STEPCA_INIT_NAME=kinder"; "DOCKER_STEPCA_INIT_DNS_NAMES=stepca";
     "DOCKER_STEPCA_INIT_PROVISIONER_NAME=kinder-admin"]
    ["9000/tcp"] [] [(filepath_Join dataDir "step-ca", "/home/step")]
    "unless-stopped" "" "" [] [].

Definition zot_config (net dataDir : string) : Docker.ContainerConfig :=
  Docker.mkContainerConfig ZotContainerName "ghcr.io/project-zot/zot-linux-amd64:latest"
    "zot" net ["zot"] [] ["5000/tcp"] [("5000/tcp", ("0.0.0.0", "5000"))]
    [(filepath_Join dataDir "zot", "/etc/zot");
     (filepath_Join (filepath_Join dataDir "zot") "data", "/var/lib/registry")]
    "unless-stopped" "" "" ["serve"; "/etc/zot/config.json"] [].

Definition gatus_config (net dataDir : string) : Docker.ContainerConfig :=
  Docker.mkContainerConfig GatusContainerName "twinproduction/gatus:latest" "gatus" net
    ["gatus"] [] ["8080/tcp"] []
    [(filepath_Join (filepath_Join dataDir "gatus") "config.yaml", "/config/config.yaml");
     (filepath_Join dataDir "ca.crt", "/etc/ssl/certs/kinder-ca.crt")]
    "unless-stopped" "" "" [] [].

Definition traefik_config (net dataDir port : string) : Docker.ContainerConfig :=
  Docker.mkContainerConfig TraefikContainerName "traefik:latest" "traefik" net
    ["traefik"] ["SSL_CERT_FILE=/etc/traefik/ca.crt"] ["80/tcp"; "443/tcp"]
    [("80/tcp", ("", "80")); ("443/tcp", ("", port))]
    [(filepath_Join dataDir "traefik", "/etc/traefik")]
    "unless-stopped" "" "" ["--configFile=/etc/traefik/traefik.yaml"] [].

Definition create (what : string) (config : Docker.ContainerConfig) : M E unit :=
  _ <- wrapping ("failed to create " +:+ what +:+ " container")
         (wrapping ("failed to create " +:+ what +:+ " container")
            (liftD Host (Docker.CreateContainer config))) ;;
  ret tt.

Definition startStepCA : M E unit :=
  f <- getF ;;
  (if String.eqb (certPath f) "" then
     dataDir <- wrapping "failed to get data directory" getDataDir ;;
     setF (mkFlags (filepath_Join dataDir CACertFilename) (keyPath f) (networkCIDR f)
             (networkName f) (traefikPort f) (traefikDomain f))
   else ret tt) ;;;
  f <- getF ;;
  (if String.eqb (keyPath f) "" then
     dataDir <- wrapping "failed to get data directory" getDataDir ;;
     setF (mkFlags (certPath f) (filepath_Join dataDir CAKeyFilename) (networkCIDR f)
             (networkName f) (traefikPort f) (traefikDomain f))
   else ret tt) ;;;
  f <- getF ;;
  missing <- statIsNotExist (certPath f) ;;
  (if (missing : bool) then
     fail ("CA certificate not found at " +:+ certPath f +:+ ". Run 'kinder ca generate' first")
   else ret tt) ;;;
  missing <- statIsNotExist (keyPath f) ;;
  (if (missing : bool) then
     fail ("CA key not found at " +:+ keyPath f +:+ ". Run 'kinder ca generate' first")
   else ret tt) ;;;
  checkPrerequisites (networkName f) ;;;
  dataDir <- wrapping "failed to get data directory" getDataDir ;;
  create "Step CA" (stepca_config (networkName f) dataDir).

Definition startZot : M E unit :=
  f <- getF ;;
  checkPrerequisites (networkName f) ;;;
  dataDir <- wrapping "failed to get data directory" getDataDir ;;
  create "Zot" (zot_config (networkName f) dataDir).

Definition startGatus : M E unit :=
  f <- getF ;;
  checkPrerequisites (networkName f) ;;;
  dataDir <- wrapping "failed to get data directory" getDataDir ;;
  create "Gatus" (gatus_config (networkName f) dataDir).

Definition startTraefik : M E unit :=
  f <- getF ;;
  checkPrerequisites (networkName f) ;;;
  dataDir <- wrapping "failed to get data directory" getDataDir ;;
  create "Traefik"
    (traefik_config (networkName f) dataDir
       (if String.eqb (traefikPort f) "" then DefaultTraefikPort else traefikPort f)).

Definition KindExists (name : string) : M E bool :=
  fun e => (Ok (existsb (String.eqb name) (clusters (sys Host e))), e).

Definition set_clusters (cs : list string) : M E unit :=
  fun e => (Ok tt,
            mkEnv Host (docker Host e)
              (mkHost (paths (sys Host e)) (data_dir (sys Host e)) cs) (flags Host e)).

Definition startKind : M E unit :=
  dataDir <- wrapping "failed to get data directory" getDataDir ;;
  let caCertPath := filepath_Join dataDir CACertFilename in
  missing <- statIsNotExist caCertPath ;;
  (if (missing : bool) then
     fail ("CA certificate not found at " +:+ caCertPath +:+ " - run 'kinder start' first")
   else ret tt) ;;;
  exists_ <- wrapping "failed to check cluster status" (KindExists DefaultAppName) ;;
  if (exists_ : bool) then ret tt
  else fun e => set_clusters (DefaultAppName :: clusters (sys Host e)) e.

Definition stopKind : M E unit :=
  exists_ <- wrapping "failed to check cluster status" (KindExists DefaultAppName) ;;
  if (exists_ : bool) then
    fun e => set_clusters
               (filter (fun c => negb (String.eqb DefaultAppName c)) (clusters (sys Host e))) e
  else ret tt.

(** The registry answers, the pushes and the GitOps bootstrap succeed. *)
Definition WaitForZot : M E unit := ret tt.
Definition pushTrustBundle (caCertPath : string) : M E unit := ret tt.
Definition pushCertManagerIssuer (caCertPath : string) : M E unit := ret tt.
Definition bootstrapArgoCD : M E unit := ret tt.

Definition restart : M (World Host) unit :=
  RestartFacts.restartCmd' Host stopKind stopTraefik stopGatus stopZot stopStepCA
    startStepCA startZot WaitForZot startGatus startTraefik startKind bootstrapArgoCD
    pushTrustBundle pushCertManagerIssuer.

Definition stop_then_start : M (World Host) unit :=
  RestartFacts.restart_spec Host stopKind stopTraefik stopGatus stopZot stopStepCA
    startStepCA startZot WaitForZot startGatus startTraefik startKind bootstrapArgoCD
    pushTrustBundle pushCertManagerIssuer getDataDir statIsNotExist MkdirAll
    GenerateCAWithDomain filepath_Join filepath_Dir.

(** A host on which the CA files exist, nothing runs, and the network has
    not been created (or was removed by an earlier stop). *)
Definition no_network : World Host :=
  (mkEnv Host (Docker.mkWorld [] [] [] 0 [] false [])
     (mkHost ["/data/ca.crt"; "/data/ca.key"] "/data" [])
     (mkFlags "" "" "172.28.28.0/24" "kind" "8443" "c0000201.sslip.io"),
   []).

End Services.

Example restart_without_network :
  fst (Services.restart Services.no_network)
  = Err "failed to start Step CA: network 'kind' does not exist. Create it first with 'kinder network create'".
Proof. vm_compute. reflexivity. Qed.

Example stop_then_start_without_network :
  fst (Services.stop_then_start Services.no_network) = Ok tt.
Proof. vm_compute. reflexivity. Qed.

(** C4, as stated, fails. On a host where the network does not exist,
    "stop without the network step, then start" creates the network and
    brings every service up, whereas restart never creates it and aborts
    at its first start step. *)
Lemma C4_counterexample :
  ~ RestartFacts.same_run Services.Host
      (Services.restart Services.no_network)
      (Services.stop_then_start Services.no_network).
Proof.
  intros [H _]. vm_compute in H. discriminate H.
Qed.

Example restart_leaves_no_network :
  Docker.networks (Main.docker _ (fst (snd (Services.restart Services.no_network)))) = [] /\
  map Docker.net_Name
    (Docker.networks (Main.docker _ (fst (snd (Services.stop_then_start Services.no_network)))))
  = ["kind"].
Proof. split; vm_compute; reflexivity. Qed.

(** ** The file system *)

Module FS.

(** A path is its list of elements; [filepath.Join dir name] of a
    directory and one element is [dir ++ [name]]. *)
Abbreviation Path := (list string).

Inductive Node (D : Type) :=
| File (data : D) (perm : Z)
| Dir.
Arguments File {D} data perm.
Arguments Dir {D}.

(** The tree maps every existing path to its node; the root always
    exists. [fs_faults] scripts the failures of the coming system calls
    (permissions, I/O errors), as for the daemon. *)
Record State (D : Type) := mkState {
  tree : gmap Path (Node D);
  fs_faults : list bool
}.
Arguments mkState {D} tree fs_faults.
Arguments tree {D} s.
Arguments fs_faults {D} s.

Definition healthy {D} (s : State D) : Prop :=
  Forall (fun b => b = false) (fs_faults s).

Definition path_string (p : Path) : string := "/" +:+ Join p "/".

Fixpoint is_prefix (p q : Path) : bool :=
  match p, q with
  | [], _ => true
  | a :: p', b :: q' => String.eqb a b && is_prefix p' q'
  | _ :: _, [] => false
  end.

Fixpoint strip_prefix (p q : Path) : option Path :=
  match p, q with
  | [], _ => Some q
  | a :: p', b :: q' => if String.eqb a b then strip_prefix p' q' else None
  | _ :: _, [] => None
  end.

Section Ops.

Variable D : Type.

Definition syscall (what : string) : M (State D) unit :=
  fun s => let s' := mkState (tree s) (tl (fs_faults s)) in
           if hd false (fs_faults s) then (Err what, s') else (Ok tt, s').

Definition lookup_node (p : Path) (s : State D) : option (Node D) :=
  match p with
  | [] => Some Dir
  | _ => tree s !! p
  end.

Inductive StatResult := Found | NotExist | OtherError (msg : string).

(** [os.Stat]; [os.IsNotExist] of its error is [true] exactly for
    [NotExist]. *)
Definition Stat (p : Path) : M (State D) StatResult :=
  r <- attempt (syscall ("stat " +:+ path_string p +:+ ": permission denied")) ;;
  match r with
  | Err e => ret (OtherError e)
  | Ok _ => fun s => (Ok (match lookup_node p s with Some _ => Found | None => NotExist end), s)
  end.

Definition IsNotExist (r : StatResult) : bool :=
  match r with NotExist => true | _ => false end.

(** The element names directly under [p]. *)
Definition child_of (p : Path) (kv : Path * Node D) : option string :=
  match strip_prefix p (fst kv) with
  | Some [n] => Some n
  | _ => None
  end.

Definition children (p : Path) (s : State D) : list string :=
  omap (child_of p) (map_to_list (tree s)).

Definition ReadDir (p : Path) : M (State D) (list string) :=
  syscall ("open " +:+ path_string p +:+ ": permission denied") ;;;
  fun s => match lookup_node p s with
           | Some Dir => (Ok (children p s), s)
           | Some (File _ _) => (Err ("readdirent " +:+ path_string p +:+ ": not a directory"), s)
           | None => (Err ("open " +:+ path_string p +:+ ": no such file or directory"), s)
           end.

(** [os.RemoveAll]: the path and everything below it; no error when the
    path does not exist. *)
Definition RemoveAll (p : Path) : M (State D) unit :=
  syscall ("unlinkat " +:+ path_string p +:+ ": permission denied") ;;;
  fun s => (Ok tt,
            mkState (filter (fun kv => is_prefix p (fst kv) = false) (tree s)) (fs_faults s)).

Definition ReadFile (p : Path) : M (State D) D :=
  syscall ("open " +:+ path_string p +:+ ": permission denied") ;;;
  fun s => match lookup_node p s with
           | Some (File data _) => (Ok data, s)
           | Some Dir => (Err ("read " +:+ path_string p +:+ ": is a directory"), s)
           | None => (Err ("open " +:+ path_string p +:+ ": no such file or directory"), s)
           end.

Definition parent (p : Path) : Path := removelast p.

(** [os.WriteFile] (and [os.Create] followed by writes): the parent must
    be a directory; an existing file is truncated and keeps its mode. *)
Definition WriteFile (p : Path) (data : D) (perm : Z) : M (State D) unit :=
  syscall ("open " +:+ path_string p +:+ ": permission denied") ;;;
  fun s => match p, lookup_node (parent p) s, lookup_node p s with
           | [], _, _ => (Err ("open " +:+ path_string p +:+ ": is a directory"), s)
           | _, Some Dir, None =>
               (Ok tt, mkState (<[p := File data perm]> (tree s)) (fs_faults s))
           | _, Some Dir, Some (File _ perm0) =>
               (Ok tt, mkState (<[p := File data perm0]> (tree s)) (fs_faults s))
           | _, Some Dir, Some Dir =>
               (Err ("open " +:+ path_string p +:+ ": is a directory"), s)
           | _, Some (File _ _), _ =>
               (Err ("open " +:+ path_string p +:+ ": not a directory"), s)
           | _, None, _ =>
               (Err ("open " +:+ path_string p +:+ ": no such file or directory"), s)
           end.

(** [os.MkdirAll]: every missing directory on the way is created. *)
Fixpoint mkdirs (done : Path) (todo : Path) (t : gmap Path (Node D))
  : result (gmap Path (Node D)) :=
  match todo with
  | [] => Ok t
  | n :: rest =>
      let here := done ++ [n] in
      match t !! here with
      | Some (File _ _) => Err ("mkdir " +:+ path_string here +:+ ": not a directory")
      | Some Dir => mkdirs here rest t
      | None => mkdirs here rest (<[here := Dir]> t)
      end
  end.

Definition MkdirAll (p : Path) : M (State D) unit :=
  syscall ("mkdir " +:+ path_string p +:+ ": permission denied") ;;;
  fun s => match mkdirs [] p (tree s) with
           | Ok t => (Ok tt, mkState t (fs_faults s))
           | Err e => (Err e, s)
           end.

End Ops.

Arguments Stat {D} p.
Arguments ReadDir {D} p.
Arguments RemoveAll {D} p.
Arguments ReadFile {D} p.
Arguments WriteFile {D} p data perm.
Arguments MkdirAll {D} p.
Arguments lookup_node {D} p s.
Arguments children {D} p s.
Arguments syscall {D} what.

End FS.

(** ** common.go: cleaning the data directory *)

Module Clean.
Import FS.

Definition CACertFilename : string := "ca.crt".
Definition CAKeyFilename : string := "ca.key".

Definition is_ca_file (name : string) : bool :=
  String.eqb name CACertFilename || String.eqb name CAKeyFilename.

(** The body of the [for _, entry := range entries] loop. *)
Fixpoint remove_entries (dataDir : Path) (entries : list string) : M (State string) unit :=
  match entries with
  | [] => ret tt
  | name :: rest =>
      if is_ca_file name then remove_entries dataDir rest
      else
        let path := dataDir ++ [name] in
        wrapping ("failed to remove " +:+ path_string path) (RemoveAll path) ;;;
        remove_entries dataDir rest
  end.

Definition cleanContainerData (dataDir : Path) : M (State string) unit :=
  st <- Stat dataDir ;;
  if IsNotExist st then ret tt
  else
    entries <- wrapping "failed to read data directory" (ReadDir dataDir) ;;
    remove_entries dataDir entries.

End Clean.

Module CleanFacts.
Import FS Clean.

Lemma strip_prefix_Some (d k r : Path) : strip_prefix d k = Some r <-> k = d ++ r.
Proof.
  revert k. induction d as [|a d IH]; intros k; simpl.
  - split; [now intros [= ->] | now intros ->].
  - destruct k as [|b k]; [split; discriminate|].
    destruct (String.eqb_spec a b) as [->|Hne].
    + rewrite IH. split; [now intros -> | now intros [= ->]].
    + split; [discriminate | intros [= -> _]; congruence].
Qed.

Lemma strip_prefix_app (d r : Path) : strip_prefix d (d ++ r) = Some r.
Proof. now apply strip_prefix_Some. Qed.

Lemma is_prefix_snoc (d : Path) (n : string) (q : Path) :
  is_prefix (d ++ [n]) q
  = match strip_prefix d q with
    | Some (n' :: _) => String.eqb n n'
    | _ => false
    end.
Proof.
  revert q. induction d as [|a d IH]; intros q; simpl.
  - destruct q as [|b q]; [reflexivity|]. now rewrite andb_true_r.
  - destruct q as [|b q]; [reflexivity|].
    destruct (String.eqb a b); [apply IH | reflexivity].
Qed.

Lemma lookup_RemoveAll_tree {D} (p q : Path) (t : gmap Path (Node D)) :
  filter (fun kv => is_prefix p (fst kv) = false) t !! q
  = if is_prefix p q then None else t !! q.
Proof.
  destruct (is_prefix p q) eqn:Hp.
  - apply map_lookup_filter_None. right. intros x _. simpl. congruence.
  - destruct (t !! q) as [x|] eqn:Hq.
    + apply map_lookup_filter_Some. auto.
    + apply map_lookup_filter_None. auto.
Qed.

Lemma healthy_tl {D} (t t' : gmap Path (Node D)) f :
  healthy (mkState t f) -> healthy (mkState t' (tl f)).
Proof.
  unfold healthy. simpl. destruct f; simpl; [auto|]. now inversion 1.
Qed.

Lemma syscall_healthy {D} what (s : State D) :
  healthy s -> syscall what s = (Ok tt, mkState (tree s) (tl (fs_faults s))).
Proof.
  unfold healthy, syscall. destruct (fs_faults s) as [|b f]; simpl; [reflexivity|].
  inversion 1; subst. reflexivity.
Qed.

Lemma RemoveAll_healthy {D} (p : Path) (s : State D) :
  healthy s ->
  RemoveAll p s
  = (Ok tt, mkState (filter (fun kv => is_prefix p (fst kv) = false) (tree s))
                    (tl (fs_faults s))).
Proof.
  intros H. unfold RemoveAll, bind. now rewrite (syscall_healthy _ _ H).
Qed.

(** Which paths the loop removes: those whose first element below the
    data directory is one of the listed names and not a CA file. *)
Definition removed (dataDir : Path) (names : list string) (q : Path) : bool :=
  match strip_prefix dataDir q with
  | Some (n :: _) => negb (is_ca_file n) && existsb (String.eqb n) names
  | _ => false
  end.

Lemma remove_entries_healthy (dataDir : Path) (names : list string) (s : State string) :
  healthy s ->
  exists s',
    remove_entries dataDir names s = (Ok tt, s') /\ healthy s' /\
    forall q, tree s' !! q = if removed dataDir names q then None else tree s !! q.
Proof.
  revert s. induction names as [|n names IH]; intros s Hs.
  - exists s. split; [reflexivity|]. split; [assumption|].
    intros q. unfold removed. destruct (strip_prefix dataDir q) as [[|? ?]|];
      try reflexivity. simpl. now rewrite andb_false_r.
  - simpl. destruct (is_ca_file n) eqn:Hca.
    + destruct (IH s Hs) as (s' & Hrun & Hh & Hl). exists s'.
      split; [assumption|]. split; [assumption|].
      intros q. rewrite Hl. unfold removed.
      destruct (strip_prefix dataDir q) as [[|m r]|]; try reflexivity.
      simpl. destruct (String.eqb_spec m n) as [->|_]; [|reflexivity].
      rewrite Hca. reflexivity.
    + unfold bind, wrapping. rewrite (RemoveAll_healthy _ _ Hs).
      set (s1 := mkState _ _).
      assert (Hs1 : healthy s1).
      { destruct s as [t f]. eapply healthy_tl. exact Hs. }
      destruct (IH s1 Hs1) as (s' & Hrun & Hh & Hl). exists s'.
      split; [assumption|]. split; [assumption|].
      intros q. rewrite Hl. unfold s1. simpl tree.
      rewrite lookup_RemoveAll_tree, is_prefix_snoc. unfold removed.
      destruct (strip_prefix dataDir q) as [[|m r]|]; try reflexivity.
      simpl. rewrite (String.eqb_sym n m).
      destruct (String.eqb_spec m n) as [->|_].
      * rewrite Hca. simpl. now destruct (existsb _ names).
      * reflexivity.
Qed.

Lemma children_spec {D} (d : Path) (n : string) (s : State D) :
  existsb (String.eqb n) (children d s) = true <-> is_Some (tree s !! (d ++ [n])).
Proof.
  rewrite existsb_exists. unfold children. split.
  - intros (m & Hin & Heq). apply String.eqb_eq in Heq. subst m.
    apply list_elem_of_In, list_elem_of_omap in Hin as ([k v] & Hkv & Hc).
    apply elem_of_map_to_list in Hkv. unfold child_of in Hc. simpl in Hc.
    destruct (strip_prefix d k) as [[|m [|? ?]]|] eqn:Hsp; try discriminate.
    injection Hc as ->. apply strip_prefix_Some in Hsp. subst k. eauto.
  - intros [v Hv]. exists n. split; [|apply String.eqb_refl].
    apply list_elem_of_In, list_elem_of_omap. exists (d ++ [n], v). split.
    + now apply elem_of_map_to_list.
    + unfold child_of. simpl. now rewrite strip_prefix_app.
Qed.

End CleanFacts.

Module CleanClaims.
Import FS Clean CleanFacts.


(** A data directory with the two CA files, a generated configuration
    directory and a stray file; and a neighbour outside it. *)
Definition sample_tree : gmap Path (Node string) :=
  list_to_map
    [ (["data"], Dir);
      (["data"; "ca.crt"], File "CERT" 420);
      (["data"; "ca.key"], File "KEY" 384);
      (["data"; "zot"], Dir);
      (["data"; "zot"; "config.json"], File "{}" 420);
      (["data"; "notes.txt"], File "x" 420);
      (["other"], Dir) ].

Definition sample : State string := mkState sample_tree [].


End CleanClaims.

Example clean_sample :
  let s' := snd (Clean.cleanContainerData ["data"] CleanClaims.sample) in
  fst (Clean.cleanContainerData ["data"] CleanClaims.sample) = Ok tt /\
  FS.tree s' !! ["data"; "zot"] = None /\
  FS.tree s' !! ["data"; "zot"; "config.json"] = None /\
  FS.tree s' !! ["data"; "notes.txt"] = None /\
  FS.tree s' !! ["data"; "ca.crt"] = Some (FS.File "CERT" 420) /\
  FS.tree s' !! ["data"; "ca.key"] = Some (FS.File "KEY" 384) /\
  FS.tree s' !! ["data"] = Some FS.Dir /\
  FS.tree s' !! ["other"] = Some FS.Dir.
Proof. vm_compute. repeat split; reflexivity. Qed.

Example clean_missing :
  Clean.cleanContainerData ["nowhere"] CleanClaims.sample = (Ok tt, CleanClaims.sample).
Proof. vm_compute. reflexivity. Qed.

(** ** docker/kind.go and docker/zot.go: the registry mirror descriptors *)

Module Kind.
Import FS.

(** [fmt.Sprintf] for formats that use only the [%s] verb. *)
Fixpoint Sprintf (format : string) (args : list string) : string :=
  match format with
  | String "%"%char (String "s"%char rest) =>
      match args with
      | a :: args' => a +:+ Sprintf rest args'
      | [] => "%!s(MISSING)" +:+ Sprintf rest []
      end
  | String c rest => String c (Sprintf rest args)
  | EmptyString => EmptyString
  end.

(** [MirrorPath] *)
Definition MirrorPath (registry : string) : string := "/" +:+ registry.

(** [normalizeRegistryName] *)
Definition normalizeRegistryName (registry : string) : string :=
  if String.eqb registry "registry-1.docker.io" then "docker.io" else registry.

(** [getUpstreamServer] *)
Definition getUpstreamServer (registry : string) : string :=
  if String.eqb registry "docker.io" || String.eqb registry "registry-1.docker.io"
  then "https://registry-1.docker.io"
  else "https://" +:+ registry.

(** The two raw string literals of [createCertsDirStructure]. *)
Definition zot_format : string :=
  "server = " +:+ dq +:+ "http://%s" +:+ dq +:+ nl +:+ nl +:+
  "[host." +:+ dq +:+ "http://%s" +:+ dq +:+ "]" +:+ nl +:+
  "  capabilities = [" +:+ dq +:+ "pull" +:+ dq +:+ ", " +:+ dq +:+ "resolve" +:+ dq
    +:+ ", " +:+ dq +:+ "push" +:+ dq +:+ "]" +:+ nl +:+
  "  skip_verify = true" +:+ nl.

Definition mirror_format : string :=
  "server = " +:+ dq +:+ "%s" +:+ dq +:+ nl +:+ nl +:+
  "[host." +:+ dq +:+ "%s" +:+ dq +:+ "]" +:+ nl +:+
  "  capabilities = [" +:+ dq +:+ "pull" +:+ dq +:+ ", " +:+ dq +:+ "resolve" +:+ dq
    +:+ "]" +:+ nl.

(** [filepath.Join dir name] for a clean absolute [dir]: the elements of
    [name] are appended one by one, empty ones and [.] dropped, [..]
    stepping back. *)
Definition components (name : string) : list string := Net.split_on name "/"%char.

Fixpoint clean_onto (dir : Path) (elems : list string) : Path :=
  match elems with
  | [] => dir
  | e :: rest =>
      if String.eqb e "" || String.eqb e "." then clean_onto dir rest
      else if String.eqb e ".." then clean_onto (removelast dir) rest
      else clean_onto (dir ++ [e]) rest
  end.

Definition filepath_Join (dir : Path) (name : string) : Path := clean_onto dir (components name).

(** The body of [for registry, mirrorURL := range mirrors]. *)
Definition mirror_step (certsDir : Path) (caCertData : string)
  (entry : string * string) : M (State string) unit :=
  let '(registry, mirrorURL) := entry in
  let normalizedName := normalizeRegistryName registry in
  let registryDir := filepath_Join certsDir normalizedName in
  wrapping ("failed to create directory for " +:+ normalizedName) (MkdirAll registryDir) ;;;
  let upstreamServer := getUpstreamServer registry in
  let mirrorWithPath := mirrorURL +:+ MirrorPath registry in
  let hostsToml := Sprintf mirror_format [upstreamServer; mirrorWithPath] in
  let hostsPath := filepath_Join registryDir "hosts.toml" in
  wrapping ("failed to write hosts.toml for " +:+ normalizedName)
    (WriteFile hostsPath hostsToml 420) ;;;
  if (0 <? String.length caCertData)%nat then
    let caCertDest := filepath_Join registryDir "ca.crt" in
    wrapping ("failed to write CA cert for " +:+ normalizedName)
      (WriteFile caCertDest caCertData 420)
  else ret tt.

Fixpoint range_mirrors (certsDir : Path) (caCertData : string)
  (mirrors : list (string * string)) : M (State string) unit :=
  match mirrors with
  | [] => ret tt
  | entry :: rest =>
      mirror_step certsDir caCertData entry ;;;
      range_mirrors certsDir caCertData rest
  end.

(** The body of [if zotHostname != ""]: the entries for the registry
    itself and for localhost:5000. *)
Definition zot_entries (certsDir : Path) (zotHostname : string) : M (State string) unit :=
  let zotAddr := zotHostname +:+ ":5000" in
  let zotDir := filepath_Join certsDir zotAddr in
  wrapping ("failed to create directory for " +:+ zotAddr) (MkdirAll zotDir) ;;;
  let hostsToml := Sprintf zot_format [zotAddr; zotAddr] in
  let hostsPath := filepath_Join zotDir "hosts.toml" in
  wrapping ("failed to write hosts.toml for " +:+ zotAddr)
    (WriteFile hostsPath hostsToml 420) ;;;
  let localhostDir := filepath_Join certsDir "localhost:5000" in
  wrapping "failed to create directory for localhost:5000" (MkdirAll localhostDir) ;;;
  let localhostHostsToml := Sprintf zot_format [zotAddr; zotAddr] in
  let localhostHostsPath := filepath_Join localhostDir "hosts.toml" in
  wrapping "failed to write hosts.toml for localhost:5000"
    (WriteFile localhostHostsPath localhostHostsToml 420).

(** [createCertsDirStructure]. [mirrors] lists the entries of the Go map
    in the order in which [range] visits them (its keys are distinct; the
    order is not specified by the language); [caCertPath] is [None] for
    the empty path. *)
Definition createCertsDirStructure (dataDir : Path) (caCertPath : option Path)
  (mirrors : list (string * string)) (zotHostname : string) : M (State string) unit :=
  let certsDir := filepath_Join dataDir "certs.d" in
  wrapping "failed to remove old certs.d directory" (RemoveAll certsDir) ;;;
  caCertData <- match caCertPath with
                | Some p => wrapping "failed to read CA certificate" (ReadFile p)
                | None => ret ""
                end ;;
  (if negb (String.eqb zotHostname "") then zot_entries certsDir zotHostname else ret tt) ;;;
  range_mirrors certsDir caCertData mirrors.

(** Reading a descriptor back: its lines, the [server] lines and the
    headers of its host sections. *)
Definition lines (s : string) : list string := Net.split_on s (ascii_of_nat 10).

Definition server_lines (s : string) : list string :=
  filter (fun l => String.prefix "server = " l = true) (lines s).

Definition host_sections (s : string) : list string :=
  filter (fun l => String.prefix "[host." l = true) (lines s).

End Kind.

Definition test_tree : gmap FS.Path (FS.Node string) :=
  list_to_map
    [ (["tmp"], FS.Dir);
      (["tmp"; "ca.crt"], FS.File "PEM" 420);
      (["tmp"; "certs.d"], FS.Dir);
      (["tmp"; "certs.d"; "old-registry.io"], FS.Dir);
      (["tmp"; "certs.d"; "old-registry.io"; "hosts.toml"], FS.File "stale" 420) ].

Definition test_run :=
  Kind.createCertsDirStructure ["tmp"] (Some ["tmp"; "ca.crt"])
    [("registry-1.docker.io", "http://zot:5000"); ("ghcr.io", "http://zot:5000")] "zot"
    (FS.mkState test_tree []).

Example certs_test :
  fst test_run = Ok tt /\
  FS.tree (snd test_run) !! ["tmp"; "certs.d"; "old-registry.io"] = None /\
  FS.tree (snd test_run) !! ["tmp"; "certs.d"; "docker.io"; "ca.crt"] = Some (FS.File "PEM" 420) /\
  FS.tree (snd test_run) !! ["tmp"; "certs.d"; "zot:5000"] = Some FS.Dir /\
  option_map (fun n => match n with FS.File d _ => Kind.host_sections d | _ => [] end)
    (FS.tree (snd test_run) !! ["tmp"; "certs.d"; "docker.io"; "hosts.toml"])
  = Some ["[host." +:+ dq +:+ "http://zot:5000/registry-1.docker.io" +:+ dq +:+ "]"] /\
  option_map (fun n => match n with FS.File d _ => Kind.server_lines d | _ => [] end)
    (FS.tree (snd test_run) !! ["tmp"; "certs.d"; "docker.io"; "hosts.toml"])
  = Some ["server = " +:+ dq +:+ "https://registry-1.docker.io" +:+ dq].
Proof. vm_compute. repeat split; reflexivity. Qed.

Module KindFacts.
Import FS Kind CleanFacts.

(** *** Paths *)






(** *** [filepath.Join] with a single element *)

Fixpoint no_slash (s : string) : bool :=
  match s with
  | EmptyString => true
  | String c s' => negb (Ascii.eqb c "/"%char) && no_slash s'
  end.

Definition single_component (n : string) : bool :=
  no_slash n && negb (String.eqb n "") && negb (String.eqb n ".") && negb (String.eqb n "..").

Lemma components_single (n : string) : no_slash n = true -> components n = [n].
Proof.
  unfold components. induction n as [|c n IH]; [reflexivity|].
  intros H. simpl in H. apply andb_true_iff in H as [Hc Hn].
  apply negb_true_iff in Hc. cbn [Net.split_on]. now rewrite Hc, (IH Hn).
Qed.

Lemma filepath_Join_single (dir : Path) (n : string) :
  single_component n = true -> filepath_Join dir n = dir ++ [n].
Proof.
  unfold single_component, filepath_Join. intros H.
  apply andb_true_iff in H as [H H3]. apply andb_true_iff in H as [H H2].
  apply andb_true_iff in H as [H0 H1].
  apply negb_true_iff in H1, H2, H3.
  rewrite (components_single _ H0). cbn [clean_onto]. now rewrite H1, H2, H3.
Qed.

(** *** [MkdirAll] *)




(** *** [WriteFile] *)

Definition not_dir {D} (t : gmap Path (Node D)) (q : Path) : Prop :=
  t !! q <> Some Dir.

Lemma lookup_node_nonempty {D} (p : Path) (s : State D) :
  p <> [] -> lookup_node p s = tree s !! p.
Proof. destruct p; [congruence | reflexivity]. Qed.




(** *** The certs.d tree while it is being built *)

Section CertsDir.

Variable dataDir : Path.

Definition certsDir : Path := dataDir ++ ["certs.d"].












End CertsDir.

(** *** Reading a descriptor back *)









Lemma ReadFile_healthy {D} (p : Path) (data : D) (perm : Z) (s : State D) :
  healthy s ->
  lookup_node p s = Some (File data perm) ->
  ReadFile p s = (Ok data, mkState (tree s) (tl (fs_faults s))).
Proof.
  intros Hs Hp. unfold ReadFile, bind. rewrite (syscall_healthy _ _ Hs).
  replace (lookup_node p (mkState (tree s) (tl (fs_faults s)))) with (lookup_node p s)
    by (destruct p; reflexivity).
  now rewrite Hp.
Qed.

End KindFacts.

Module KindClaims.
Import FS Kind CleanFacts KindFacts.









End KindClaims.

(** Two names with one directory: docker.io and registry-1.docker.io
    both normalise to docker.io, and the entry visited last is the one
    whose descriptor remains. *)
Example shared_directory :
  let run :=
    Kind.createCertsDirStructure ["tmp"] None
      [("registry-1.docker.io", "http://zot:5000"); ("docker.io", "http://zot:5000")] ""
      (FS.mkState test_tree []) in
  fst run = Ok tt /\
  option_map (fun n => match n with FS.File d _ => Kind.host_sections d | _ => [] end)
    (FS.tree (snd run) !! ["tmp"; "certs.d"; "docker.io"; "hosts.toml"])
  = Some ["[host." +:+ dq +:+ "http://zot:5000/docker.io" +:+ dq +:+ "]"].
Proof. vm_compute. split; reflexivity. Qed.

(** ** cacert: the root and intermediate certificates *)

Module CACert.
Import FS.

(** [StepCAHostname] of docker/stepca.go. *)
Definition StepCAHostname : string := "stepca".

(** *** Keys, names and certificates

    Keys are symbolic: a private key is its kind and its secret number,
    [Public k] is the public half of [k], and a signature made with [k]
    verifies under [Public k] and under no other key. *)

Inductive PrivateKey : Type :=
| ECDSAKey (d : Z)
| RSAKey (d : Z)
| Ed25519Key (seed : Z).

Inductive PublicKey : Type :=
| Public (k : PrivateKey).

(** [PublicKey.Equal] *)
Definition key_eqb (a b : PrivateKey) : bool :=
  match a, b with
  | ECDSAKey x, ECDSAKey y => x =? y
  | RSAKey x, RSAKey y => x =? y
  | Ed25519Key x, Ed25519Key y => x =? y
  | _, _ => false
  end.

Definition Equal (a b : PublicKey) : bool :=
  match a, b with
  | Public x, Public y => key_eqb x y
  end.

Record Name := mkName { CommonName : string; Organization : list string }.

(** The fields of [x509.Certificate] that the package sets or reads.
    [Signer] stands for the signature: the key under which it verifies. *)
Record Certificate := mkCertificate {
  SerialNumber : option Z;
  Subject : Name;
  Issuer : Name;
  NotBefore : Z;
  NotAfter : Z;
  KeyUsage : Z;
  BasicConstraintsValid : bool;
  IsCA : bool;
  MaxPathLen : Z;
  MaxPathLenZero : bool;
  PermittedDNSDomainsCritical : bool;
  PermittedDNSDomains : list string;
  PermittedIPRanges : list Net.IPNet;
  PublicKey_ : option PublicKey;
  Signer : option PublicKey
}.

Definition KeyUsageDigitalSignature : Z := 1.
Definition KeyUsageCertSign : Z := 32.
Definition KeyUsageCRLSign : Z := 64.

(** The contents of a PEM block, and a file as the PEM blocks it holds. *)
Inductive DER : Type :=
| CertDER (c : Certificate)
| PKCS8 (k : PrivateKey)
| OtherDER (bytes : string).

Record Block := mkBlock { Type_ : string; Bytes : DER }.

Definition FileData : Type := list Block.

(** [pem.Decode]: the first block, [nil] when there is none. *)
Definition pem_Decode (data : FileData) : option Block := head data.

(** [pem.EncodeToMemory] *)
Definition pem_EncodeToMemory (b : Block) : FileData := [b].

(** *** Addresses *)

Definition v4InV6Prefix : Net.IP := [0; 0; 0; 0; 0; 0; 0; 0; 0; 0; 255; 255].

Definition IPv6loopback : Net.IP := [0; 0; 0; 0; 0; 0; 0; 0; 0; 0; 0; 0; 0; 0; 0; 1].

(** [net.ParseIP]: dotted IPv4 text gives the 16-byte form of the
    address; of IPv6 text only the loopback literal, the one the package
    uses, is read here; [nil] otherwise. *)
Definition ParseIP (s : string) : Net.IP :=
  match Net.parseIPv4 s with
  | Some ip => v4InV6Prefix ++ ip
  | None => if String.eqb s "::1" then IPv6loopback else []
  end.

Definition bytes_eqb (a b : list Z) : bool :=
  (length a =? length b)%nat && forallb (fun p => fst p =? snd p) (combine a b).

(** [IP.Mask] *)
Definition IP_Mask (ip : Net.IP) (mask : Net.IPMask) : Net.IP :=
  let mask :=
    if (length mask =? 16)%nat && (length ip =? 4)%nat && forallb (Z.eqb 255) (firstn 12 mask)
    then skipn 12 mask else mask in
  let ip :=
    if (length mask =? 4)%nat && (length ip =? 16)%nat && bytes_eqb (firstn 12 ip) v4InV6Prefix
    then skipn 12 ip else ip in
  if negb (length ip =? length mask)%nat then []
  else map (fun p => Z.land (fst p) (snd p)) (combine ip mask).

(** *** crypto/x509 *)

(** [isIA5String]: no character beyond ASCII. *)
Fixpoint isIA5String (s : string) : bool :=
  match s with
  | EmptyString => true
  | String c s' => (nat_of_ascii c <? 128)%nat && isIA5String s'
  end.

(** [domainToReverseLabels] as a test: no label is empty and every
    character is printable and not a space. *)
Fixpoint label_ok (s : string) : bool :=
  match s with
  | EmptyString => true
  | String c s' => (33 <=? nat_of_ascii c)%nat && (nat_of_ascii c <=? 126)%nat && label_ok s'
  end.

Definition domain_labels_ok (domain : string) : bool :=
  String.eqb domain "" ||
  forallb (fun l => negb (String.eqb l "") && label_ok l) (Net.split_on domain "."%char).

(** What the parser accepts as a dnsName constraint: the name without
    its leading period has well-formed labels. *)
Definition dns_constraint_ok (domain : string) : bool :=
  isIA5String domain &&
  domain_labels_ok (match domain with
                    | String "."%char rest => rest
                    | _ => domain
                    end).

(** What the parser accepts as an IP constraint: address and mask of
    the same length, 4 or 16, and a mask of ones followed by zeros. *)
Definition ip_constraint_ok (n : Net.IPNet) : bool :=
  (length (Net.ipnet_IP n) =? length (Net.ipnet_Mask n))%nat &&
  ((length (Net.ipnet_Mask n) =? 4)%nat || (length (Net.ipnet_Mask n) =? 16)%nat) &&
  (0 <=? Net.simpleMaskLength (Net.ipnet_Mask n)).

(** [marshalBasicConstraints]: a zero [MaxPathLen] without
    [MaxPathLenZero] is left out, which reads back as -1; without the
    extension the field reads back as 0. *)
Definition encoded_MaxPathLen (template : Certificate) : Z :=
  if negb (BasicConstraintsValid template) then 0
  else if (MaxPathLen template =? 0) && negb (MaxPathLenZero template) then -1
  else MaxPathLen template.

(** [x509.CreateCertificate template parent pub priv]: the certificate
    takes its subject and extensions from the template, its issuer from
    the parent's subject, and is signed with [priv]. The DER value is
    represented by the certificate that parsing it gives. *)
Definition CreateCertificate (template parent : Certificate) (pub : PublicKey)
  (priv : PrivateKey) : result DER :=
  match SerialNumber template with
  | None => Err "x509: no SerialNumber given"
  | Some serial =>
      if serial <? 0 then Err "x509: serial number must be positive"
      else if BasicConstraintsValid template && negb (IsCA template)
              && negb (MaxPathLen template =? -1)
              && (negb (MaxPathLen template =? 0) || MaxPathLenZero template)
      then Err "x509: only CAs are allowed to specify MaxPathLen"
      else if match PublicKey_ parent with
              | Some pk => negb (Equal (Public priv) pk)
              | None => false
              end
      then Err "x509: provided PrivateKey doesn't match parent's PublicKey"
      else match find (fun d => negb (isIA5String d)) (PermittedDNSDomains template) with
           | Some d => Err ("x509: " +:+ d +:+ " cannot be encoded as an IA5String")
           | None =>
               Ok (CertDER
                     {| SerialNumber := Some serial;
                        Subject := Subject template;
                        Issuer := Subject parent;
                        NotBefore := NotBefore template;
                        NotAfter := NotAfter template;
                        KeyUsage := KeyUsage template;
                        BasicConstraintsValid := BasicConstraintsValid template;
                        IsCA := BasicConstraintsValid template && IsCA template;
                        MaxPathLen := encoded_MaxPathLen template;
                        MaxPathLenZero :=
                          BasicConstraintsValid template
                          && (encoded_MaxPathLen template =? 0);
                        PermittedDNSDomainsCritical :=
                          PermittedDNSDomainsCritical template;
                        PermittedDNSDomains := PermittedDNSDomains template;
                        PermittedIPRanges :=
                          map (fun n => Net.mkIPNet
                                          (IP_Mask (Net.ipnet_IP n) (Net.ipnet_Mask n))
                                          (Net.ipnet_Mask n))
                              (PermittedIPRanges template);
                        PublicKey_ := Some pub;
                        Signer := Some (Public priv) |})
           end
  end.

(** [x509.ParseCertificate] *)
Definition ParseCertificate (der : DER) : result Certificate :=
  match der with
  | CertDER c =>
      match find (fun d => negb (dns_constraint_ok d)) (PermittedDNSDomains c) with
      | Some d => Err ("x509: failed to parse dnsName constraint " +:+ d)
      | None =>
          if forallb ip_constraint_ok (PermittedIPRanges c) then Ok c
          else Err "x509: IP constraint contained invalid mask"
      end
  | _ => Err "x509: malformed certificate"
  end.

(** [x509.MarshalPKCS8PrivateKey] and [x509.ParsePKCS8PrivateKey] *)
Definition MarshalPKCS8PrivateKey (k : PrivateKey) : result DER := Ok (PKCS8 k).

Definition ParsePKCS8PrivateKey (der : DER) : result PrivateKey :=
  match der with
  | PKCS8 k => Ok k
  | _ => Err "asn1: structure error: tags don't match"
  end.

(** [Certificate.CheckSignatureFrom]: the parent may sign certificates
    and the signature verifies under the parent's key. *)
Definition CheckSignatureFrom (c parent : Certificate) : result unit :=
  if negb (BasicConstraintsValid parent && IsCA parent)
  then Err "x509: invalid signature: parent certificate cannot sign this kind of certificate"
  else if negb (KeyUsage parent =? 0) && (Z.land (KeyUsage parent) KeyUsageCertSign =? 0)
  then Err "x509: invalid signature: parent certificate cannot sign this kind of certificate"
  else match PublicKey_ parent, Signer c with
       | Some pk, Some sg =>
           if Equal pk sg then Ok tt else Err "x509: ECDSA verification failure"
       | _, _ => Err "x509: cannot verify signature: algorithm unimplemented"
       end.

(** *** The machine: host name, random source, clock and disk

    Every read of [rand.Reader] takes the next draw of [entropy] and
    fails once none is left. *)
Record Host := mkHost {
  hostname : result string;
  entropy : list Z;
  clock : Z;
  disk : State FileData
}.

Definition liftFS {A} (c : M (State FileData) A) : M Host A :=
  fun h => let '(r, d) := c (disk h) in (r, mkHost (hostname h) (entropy h) (clock h) d).

Definition of_result {A} (r : result A) : M Host A := fun h => (r, h).

(** [os.Hostname] *)
Definition os_Hostname : M Host string := fun h => (hostname h, h).

Definition draw : M Host Z :=
  fun h => match entropy h with
           | x :: rest => (Ok x, mkHost (hostname h) rest (clock h) (disk h))
           | [] => (Err "unexpected EOF", h)
           end.

(** [ecdsa.GenerateKey(elliptic.P256(), rand.Reader)] *)
Definition ecdsa_GenerateKey : M Host PrivateKey := d <- draw ;; ret (ECDSAKey d).

(** [rand.Int(rand.Reader, max)]: a number in [[0, max)]. *)
Definition rand_Int (max : Z) : M Host Z := x <- draw ;; ret (x mod max).

(** [time.Now], in nanoseconds. *)
Definition time_Now : M Host Z := fun h => (Ok (clock h), h).

Definition Hour : Z := 3600 * 1000000000.

(** [os.Create]: the file is created or truncated; the handle is its path. *)
Definition os_Create (p : Path) : M (State FileData) Path :=
  WriteFile p [] 438 ;;; ret p.

(** [pem.Encode] on an open file: the block is written after what the
    file holds. *)
Definition pem_Encode (out : Path) (b : Block) : M (State FileData) unit :=
  syscall ("write " +:+ path_string out +:+ ": input/output error") ;;;
  fun s => match lookup_node out s with
           | Some (File data perm) =>
               (Ok tt, mkState (<[out := File (data ++ [b]) perm]> (tree s)) (fs_faults s))
           | _ => (Err ("write " +:+ path_string out +:+ ": bad file descriptor"), s)
           end.

(** *** The package *)

(** [GenerateCAWithDomain] *)
Definition GenerateCAWithDomain (certPath keyPath : Path) (domain : string) : M Host unit :=
  hostname <- wrapping "failed to get hostname" os_Hostname ;;
  privateKey <- wrapping "failed to generate ECDSA private key" ecdsa_GenerateKey ;;
  serialNumber <- wrapping "failed to generate serial number" (rand_Int (Z.shiftl 1 128)) ;;
  notBefore <- time_Now ;;
  let notAfter := notBefore + 365 * 24 * Hour in
  let permittedDomains :=
    [domain; "." +:+ domain; "localhost"; ".localhost"; "stepca"] in
  let template :=
    {| SerialNumber := Some serialNumber;
       Subject := {| CommonName := "kinder Root CA (" +:+ hostname +:+ ")";
                     Organization := ["kinder"] |};
       Issuer := mkName "" [];
       NotBefore := notBefore;
       NotAfter := notAfter;
       KeyUsage := Z.lor KeyUsageCertSign KeyUsageCRLSign;
       BasicConstraintsValid := true;
       IsCA := true;
       MaxPathLen := 0;
       MaxPathLenZero := false;
       PermittedDNSDomainsCritical := true;
       PermittedDNSDomains := permittedDomains;
       PermittedIPRanges :=
         [ Net.mkIPNet (ParseIP "127.0.0.1") (Net.CIDRMask 32 32);
           Net.mkIPNet (ParseIP "::1") (Net.CIDRMask 128 128);
           Net.mkIPNet (ParseIP "192.0.2.0") (Net.CIDRMask 24 32) ];
       PublicKey_ := None;
       Signer := None |} in
  certDER <- wrapping "failed to create certificate"
               (of_result (CreateCertificate template template (Public privateKey) privateKey)) ;;
  certOut <- wrapping "failed to create certificate file" (liftFS (os_Create certPath)) ;;
  wrapping "failed to write certificate to file"
    (liftFS (pem_Encode certOut (mkBlock "CERTIFICATE" certDER))) ;;;
  privKeyBytes <- wrapping "failed to marshal private key"
                    (of_result (MarshalPKCS8PrivateKey privateKey)) ;;
  let keyPEM := pem_EncodeToMemory (mkBlock "PRIVATE KEY" privKeyBytes) in
  wrapping "failed to write private key to file" (liftFS (WriteFile keyPath keyPEM 384)).

(** [GenerateCA] *)
Definition GenerateCA (certPath keyPath : Path) : M Host unit :=
  GenerateCAWithDomain certPath keyPath "c0000201.sslip.io".

(** The part of [GenerateIntermediate] that follows the reading of the
    root certificate and key. *)
Definition sign_intermediate (rootCert : Certificate) (rootPrivateKey : PrivateKey)
  (intermediateCertPath intermediateKeyPath : Path) : M Host unit :=
  intermediateKey <- wrapping "failed to generate intermediate private key" ecdsa_GenerateKey ;;
  serialNumber <- wrapping "failed to generate serial number" (rand_Int (Z.shiftl 1 128)) ;;
  notBefore <- time_Now ;;
  let notAfter := notBefore + 365 * 24 * Hour in
  let template :=
    {| SerialNumber := Some serialNumber;
       Subject := {| CommonName := "kinder Intermediate CA"; Organization := ["kinder"] |};
       Issuer := mkName "" [];
       NotBefore := notBefore;
       NotAfter := notAfter;
       KeyUsage := Z.lor (Z.lor KeyUsageDigitalSignature KeyUsageCertSign) KeyUsageCRLSign;
       BasicConstraintsValid := true;
       IsCA := true;
       MaxPathLen := 0;
       MaxPathLenZero := true;
       PermittedDNSDomainsCritical := false;
       PermittedDNSDomains := [];
       PermittedIPRanges := [];
       PublicKey_ := None;
       Signer := None |} in
  certDER <- wrapping "failed to create intermediate certificate"
               (of_result (CreateCertificate template rootCert (Public intermediateKey)
                             rootPrivateKey)) ;;
  certOut <- wrapping "failed to create intermediate certificate file"
               (liftFS (os_Create intermediateCertPath)) ;;
  wrapping "failed to write intermediate certificate to file"
    (liftFS (pem_Encode certOut (mkBlock "CERTIFICATE" certDER))) ;;;
  privKeyBytes <- wrapping "failed to marshal intermediate private key"
                    (of_result (MarshalPKCS8PrivateKey intermediateKey)) ;;
  let keyPEM := pem_EncodeToMemory (mkBlock "PRIVATE KEY" privKeyBytes) in
  wrapping "failed to write intermediate private key to file"
    (liftFS (WriteFile intermediateKeyPath keyPEM 384)).

(** [GenerateIntermediate] *)
Definition GenerateIntermediate
  (rootCertPath rootKeyPath intermediateCertPath intermediateKeyPath : Path) : M Host unit :=
  rootCertPEM <- wrapping "failed to read root certificate" (liftFS (ReadFile rootCertPath)) ;;
  match pem_Decode rootCertPEM with
  | None => fail "failed to decode root certificate PEM"
  | Some rootCertBlock =>
      rootCert <- wrapping "failed to parse root certificate"
                    (of_result (ParseCertificate (Bytes rootCertBlock))) ;;
      rootKeyPEM <- wrapping "failed to read root private key"
                      (liftFS (ReadFile rootKeyPath)) ;;
      match pem_Decode rootKeyPEM with
      | None => fail "failed to decode root private key PEM"
      | Some rootKeyBlock =>
          rootKey <- wrapping "failed to parse root private key"
                       (of_result (ParsePKCS8PrivateKey (Bytes rootKeyBlock))) ;;
          match rootKey with
          | ECDSAKey _ =>
              sign_intermediate rootCert rootKey intermediateCertPath intermediateKeyPath
          | _ => fail "root private key is not ECDSA"
          end
      end
  end.

End CACert.

Definition ca_disk : FS.State CACert.FileData :=
  FS.mkState (list_to_map [ (["data"], FS.Dir) ]) [].

Definition ca_host : CACert.Host :=
  CACert.mkHost (Ok "devbox") [11; 12; 13; 14; 15; 16] 1000 ca_disk.

Example root_then_intermediate :
  let '(r1, h1) :=
    CACert.GenerateCAWithDomain ["data"; "ca.crt"] ["data"; "ca.key"] "example.test" ca_host in
  let '(r2, h2) :=
    CACert.GenerateIntermediate ["data"; "ca.crt"] ["data"; "ca.key"]
      ["data"; "intermediate.crt"] ["data"; "intermediate.key"] h1 in
  r1 = Ok tt /\ r2 = Ok tt /\
  CACert.entropy h2 = [15; 16] /\
  FS.tree (CACert.disk h2) !! ["data"; "ca.key"]
  = Some (FS.File [CACert.mkBlock "PRIVATE KEY" (CACert.PKCS8 (CACert.ECDSAKey 11))] 384) /\
  FS.tree (CACert.disk h2) !! ["data"; "intermediate.key"]
  = Some (FS.File [CACert.mkBlock "PRIVATE KEY" (CACert.PKCS8 (CACert.ECDSAKey 13))] 384).
Proof. vm_compute. repeat split; reflexivity. Qed.

Module CACertFacts.
Import FS CACert CleanFacts KindFacts.

(** A path at which a file can be written: its directory is there and
    it is not itself a directory. *)
Definition writable (d : State FileData) (p : Path) : Prop :=
  p <> [] /\ lookup_node (parent p) d = Some Dir /\ not_dir (tree d) p.

Lemma liftFS_Ok {A} (c : M (State FileData) A) (h : Host) (a : A) (d' : State FileData) :
  c (disk h) = (Ok a, d') ->
  liftFS c h = (Ok a, mkHost (hostname h) (entropy h) (clock h) d').
Proof. unfold liftFS. now intros ->. Qed.

Lemma writable_after_write (t : gmap Path (Node FileData)) (p q : Path)
  (data : FileData) (pm : Z) f f' :
  writable (mkState t f) p -> writable (mkState t f) q ->
  writable (mkState (<[p := File data pm]> t) f') q.
Proof.
  intros (Hp & _ & Hnd) (Hq & Hpar & Hndq). split; [exact Hq|]. split.
  - unfold lookup_node in *. destruct (parent q) as [|a r] eqn:E; [reflexivity|].
    cbn [tree] in *. rewrite lookup_insert_ne; [exact Hpar|].
    intros ->. apply Hnd. exact Hpar.
  - unfold not_dir in *. cbn [tree] in *.
    destruct (decide (p = q)) as [->|Hne].
    + rewrite lookup_insert_eq. discriminate.
    + rewrite lookup_insert_ne; [exact Hndq | exact Hne].
Qed.

(** The mode of the file at [p] after a write that asks for [perm]: a
    file that is there keeps its mode. *)
Definition mode_after {D} (t : gmap Path (Node D)) (p : Path) (perm : Z) : Z :=
  match t !! p with
  | Some (File _ perm0) => perm0
  | _ => perm
  end.

(** The disk answers its next [n] calls. *)
Definition calm {D} (n : nat) (s : State D) : Prop :=
  Forall (fun b => b = false) (firstn n (fs_faults s)).

Lemma healthy_calm {D} (n : nat) (s : State D) : healthy s -> calm n s.
Proof.
  unfold healthy, calm. generalize (fs_faults s). intros f. revert n.
  induction f as [|b f IH]; intros [|n] H; simpl; try constructor.
  - now inversion H.
  - apply IH. now inversion H.
Qed.

Lemma syscall_calm {D} (what : string) (n : nat) (s : State D) :
  calm (S n) s -> syscall what s = (Ok tt, mkState (tree s) (tl (fs_faults s))).
Proof.
  unfold calm, syscall. destruct (fs_faults s) as [|b f]; simpl; [reflexivity|].
  inversion 1; subst. reflexivity.
Qed.

Lemma calm_tl {D} (n : nat) (t t' : gmap Path (Node D)) f :
  calm (S n) (mkState t f) -> calm n (mkState t' (tl f)).
Proof.
  unfold calm. simpl. destruct f as [|b f]; simpl.
  - intros _. destruct n; constructor.
  - now inversion 1.
Qed.

Lemma calm_S {D} (n : nat) (s : State D) : calm (S n) s -> calm n s.
Proof.
  unfold calm. generalize (fs_faults s). induction n as [|n IH]; intros f H; [constructor|].
  destruct f as [|b f]; [constructor|].
  change (firstn (S (S n)) (b :: f)) with (b :: firstn (S n) f) in H.
  change (firstn (S n) (b :: f)) with (b :: firstn n f).
  inversion H; subst. constructor; [reflexivity | now apply IH].
Qed.


Lemma WriteFile_exact {D} (p : Path) (data : D) (perm : Z) (s : State D) :
  calm 1 s ->
  p <> [] ->
  lookup_node (parent p) s = Some Dir ->
  not_dir (tree s) p ->
  WriteFile p data perm s
  = (Ok tt, mkState (<[p := File data (mode_after (tree s) p perm)]> (tree s))
              (tl (fs_faults s))).
Proof.
  intros Hs Hp Hpar Hnd. unfold WriteFile, bind, mode_after. rewrite (syscall_calm _ _ _ Hs).
  destruct p as [|a p']; [congruence|].
  change (lookup_node (parent (a :: p')) (mkState (tree s) (tl (fs_faults s))))
    with (lookup_node (parent (a :: p')) s).
  rewrite Hpar. cbn [lookup_node tree].
  destruct (tree s !! (a :: p')) as [[d pm|]|] eqn:Hl; [reflexivity | | reflexivity].
  exfalso. now apply Hnd.
Qed.

(** [os.Create] followed by [pem.Encode] leaves a file with the one block. *)
Lemma create_encode_ok (d : State FileData) (p : Path) (b : Block) :
  calm 2 d -> writable d p ->
  exists d0,
    os_Create p d = (Ok p, d0) /\
    pem_Encode p b d0
    = (Ok tt, mkState (<[p := File [b] (mode_after (tree d) p 438)]> (tree d))
                (tl (tl (fs_faults d)))).
Proof.
  intros Hd (Hp & Hpar & Hnd).
  assert (Hd' : calm 1 d) by (now apply calm_S).
  pose proof (WriteFile_exact p ([] : list Block) 438 d Hd' Hp Hpar Hnd) as Hw.
  eexists. split.
  - unfold os_Create, bind. rewrite Hw. reflexivity.
  - unfold pem_Encode, bind.
    rewrite (syscall_calm _ 0) by (destruct d; eapply calm_tl; exact Hd).
    cbn [tree fs_faults]. rewrite lookup_node_nonempty by exact Hp.
    cbn [tree]. rewrite lookup_insert_eq. cbn [fs_faults app].
    now rewrite insert_insert_eq.
Qed.

Lemma isIA5String_app (a b : string) :
  isIA5String (a +:+ b) = isIA5String a && isIA5String b.
Proof.
  induction a as [|c a IH]; [reflexivity|].
  rewrite append_cons. simpl. rewrite IH. now rewrite andb_assoc.
Qed.

(** The root certificate for a host name, a key, a serial number, a
    time and a domain: what [GenerateCAWithDomain] writes. *)
Definition root_certificate (hn : string) (k : PrivateKey) (serial now : Z)
  (domain : string) : Certificate :=
  {| SerialNumber := Some serial;
     Subject := mkName ("kinder Root CA (" +:+ hn +:+ ")") ["kinder"];
     Issuer := mkName ("kinder Root CA (" +:+ hn +:+ ")") ["kinder"];
     NotBefore := now;
     NotAfter := now + 365 * 24 * Hour;
     KeyUsage := 96;
     BasicConstraintsValid := true;
     IsCA := true;
     MaxPathLen := -1;
     MaxPathLenZero := false;
     PermittedDNSDomainsCritical := true;
     PermittedDNSDomains := [domain; "." +:+ domain; "localhost"; ".localhost"; StepCAHostname];
     PermittedIPRanges :=
       [ Net.mkIPNet [127; 0; 0; 1] [255; 255; 255; 255];
         Net.mkIPNet IPv6loopback (repeat 255 16);
         Net.mkIPNet [192; 0; 2; 0] [255; 255; 255; 0] ];
     PublicKey_ := Some (Public k);
     Signer := Some (Public k) |}.

Definition root_files (certPath keyPath : Path) (c : Certificate) (k : PrivateKey)
  (pm1 pm2 : Z) (t : gmap Path (Node FileData)) : gmap Path (Node FileData) :=
  <[keyPath := File [mkBlock "PRIVATE KEY" (PKCS8 k)] pm2]>
    (<[certPath := File [mkBlock "CERTIFICATE" (CertDER c)] pm1]> t).

(** On a machine that works, [GenerateCAWithDomain] takes two draws
    (the key, then the serial number) and writes the two files. *)
(** Up to the writing of the key: on a machine whose disk answers two
    calls, the certificate is in place when the key file is opened. *)
Lemma GenerateCAWithDomain_until_key (certPath keyPath : Path) (domain hn : string)
  (k n : Z) (rest : list Z) (clk : Z) (d : State FileData) :
  calm 2 d -> writable d certPath -> isIA5String domain = true ->
  GenerateCAWithDomain certPath keyPath domain (mkHost (Ok hn) (k :: n :: rest) clk d)
  = wrapping "failed to write private key to file"
      (liftFS (WriteFile keyPath [mkBlock "PRIVATE KEY" (PKCS8 (ECDSAKey k))] 384))
      (mkHost (Ok hn) rest clk
         (mkState
            (<[certPath :=
                 File [mkBlock "CERTIFICATE"
                         (CertDER (root_certificate hn (ECDSAKey k) (n mod 2 ^ 128) clk domain))]
                      (mode_after (tree d) certPath 438)]> (tree d))
            (tl (tl (fs_faults d))))).
Proof.
  intros Hd Hc Hia.
  destruct (create_encode_ok d certPath
              (mkBlock "CERTIFICATE"
                 (CertDER (root_certificate hn (ECDSAKey k) (n mod 2 ^ 128) clk domain)))
              Hd Hc) as (d0 & Hcr & Hen).
  set (d1 := mkState _ _) in *.
  unfold GenerateCAWithDomain.
  unfold bind at 1. unfold wrapping at 1, os_Hostname at 1. cbn [hostname].
  unfold bind at 1. unfold wrapping at 1, ecdsa_GenerateKey, draw, bind at 1. cbn [entropy ret].
  unfold bind at 1. unfold wrapping at 1, rand_Int, draw, bind at 1. cbn [entropy ret].
  unfold bind at 1. unfold time_Now at 1. cbn [clock hostname disk].
  cbv zeta.
  match goal with
  | |- context [CreateCertificate ?t ?p ?pub ?priv] =>
      assert (Hcert : CreateCertificate t p pub priv
                      = Ok (CertDER (root_certificate hn (ECDSAKey k) (n mod 2 ^ 128) clk domain)))
  end.
  { unfold CreateCertificate.
    cbn [SerialNumber BasicConstraintsValid IsCA MaxPathLen MaxPathLenZero PublicKey_
         PermittedDNSDomains andb negb orb].
    change (Z.shiftl 1 128) with (2 ^ 128).
    assert (Hpos : (n mod 2 ^ 128 <? 0) = false)
      by (apply Z.ltb_ge, Z.mod_pos_bound; reflexivity).
    rewrite Hpos. cbn [find]. rewrite isIA5String_app, Hia.
    reflexivity. }
  rewrite Hcert.
  unfold bind at 1. unfold wrapping at 1, of_result at 1.
  unfold bind at 1.
  rewrite (wrapping_Ok _ _ _ _ _ (liftFS_Ok _ (mkHost (Ok hn) rest clk d) _ _ Hcr)).
  cbn [hostname entropy clock].
  unfold bind at 1.
  rewrite (wrapping_Ok _ _ _ _ _ (liftFS_Ok _ (mkHost (Ok hn) rest clk d0) _ _ Hen)).
  cbn [hostname entropy clock].
  unfold bind at 1. unfold wrapping at 1, of_result at 1, MarshalPKCS8PrivateKey.
  unfold pem_EncodeToMemory. reflexivity.
Qed.

Lemma GenerateCAWithDomain_run_modes (certPath keyPath : Path) (domain hn : string)
  (k n : Z) (rest : list Z) (clk : Z) (d : State FileData) :
  healthy d -> writable d certPath -> writable d keyPath -> certPath <> keyPath ->
  isIA5String domain = true ->
  GenerateCAWithDomain certPath keyPath domain (mkHost (Ok hn) (k :: n :: rest) clk d)
  = (Ok tt,
     mkHost (Ok hn) rest clk
       (mkState
          (root_files certPath keyPath
             (root_certificate hn (ECDSAKey k) (n mod 2 ^ 128) clk domain) (ECDSAKey k)
             (mode_after (tree d) certPath 438) (mode_after (tree d) keyPath 384) (tree d))
          (tl (tl (tl (fs_faults d)))))).
Proof.
  intros Hd Hc Hk Hne Hia.
  rewrite (GenerateCAWithDomain_until_key _ _ _ _ _ _ _ _ _ (healthy_calm 2 d Hd) Hc Hia).
  set (d1 := mkState _ _).
  assert (Hd1 : calm 1 d1).
  { subst d1. apply healthy_calm. destruct d as [t f]. cbn [tree fs_faults].
    apply (healthy_tl t), (healthy_tl t), Hd. }
  assert (Hk1 : writable d1 keyPath).
  { subst d1. destruct d as [t f]. cbn [tree fs_faults].
    eapply writable_after_write; eassumption. }
  destruct Hk1 as (Hk1 & Hk2 & Hk3).
  pose proof (@WriteFile_exact FileData keyPath [mkBlock "PRIVATE KEY" (PKCS8 (ECDSAKey k))] 384 d1
                Hd1 Hk1 Hk2 Hk3) as Hw.
  assert (Hm : mode_after (tree d1) keyPath 384 = mode_after (tree d) keyPath 384).
  { subst d1. cbn [tree]. unfold mode_after. now rewrite lookup_insert_ne by exact Hne. }
  rewrite Hm in Hw.
  rewrite (wrapping_Ok _ _ _ _ _ (liftFS_Ok _ (mkHost (Ok hn) rest clk d1) _ _ Hw)).
  reflexivity.
Qed.

Lemma GenerateCAWithDomain_run (certPath keyPath : Path) (domain hn : string)
  (k n : Z) (rest : list Z) (clk : Z) (d : State FileData) :
  healthy d -> writable d certPath -> writable d keyPath -> certPath <> keyPath ->
  isIA5String domain = true ->
  exists pm1 pm2,
    GenerateCAWithDomain certPath keyPath domain (mkHost (Ok hn) (k :: n :: rest) clk d)
    = (Ok tt,
       mkHost (Ok hn) rest clk
         (mkState
            (root_files certPath keyPath
               (root_certificate hn (ECDSAKey k) (n mod 2 ^ 128) clk domain) (ECDSAKey k)
               pm1 pm2 (tree d))
            (tl (tl (tl (fs_faults d)))))).
Proof.
  intros Hd Hc Hk Hne Hia. eexists. eexists.
  now apply GenerateCAWithDomain_run_modes.
Qed.

(** A domain that is not plain ASCII stops the generation before any
    file is touched. *)
Lemma GenerateCAWithDomain_rejects (certPath keyPath : Path) (domain hn : string)
  (k n : Z) (rest : list Z) (clk : Z) (d : State FileData) :
  isIA5String domain = false ->
  exists e,
    GenerateCAWithDomain certPath keyPath domain (mkHost (Ok hn) (k :: n :: rest) clk d)
    = (Err (wrap "failed to create certificate" e), mkHost (Ok hn) rest clk d).
Proof.
  intros Hia. unfold GenerateCAWithDomain.
  unfold bind at 1. unfold wrapping at 1, os_Hostname at 1. cbn [hostname].
  unfold bind at 1. unfold wrapping at 1, ecdsa_GenerateKey, draw, bind at 1. cbn [entropy ret].
  unfold bind at 1. unfold wrapping at 1, rand_Int, draw, bind at 1. cbn [entropy ret].
  unfold bind at 1. unfold time_Now at 1. cbn [clock hostname disk].
  cbv zeta.
  match goal with
  | |- context [CreateCertificate ?t ?p ?pub ?priv] =>
      assert (Hcert : CreateCertificate t p pub priv
                      = Err ("x509: " +:+ domain +:+ " cannot be encoded as an IA5String"))
  end.
  { unfold CreateCertificate.
    cbn [SerialNumber BasicConstraintsValid IsCA MaxPathLen MaxPathLenZero PublicKey_
         PermittedDNSDomains andb negb orb].
    change (Z.shiftl 1 128) with (2 ^ 128).
    assert (Hpos : (n mod 2 ^ 128 <? 0) = false)
      by (apply Z.ltb_ge, Z.mod_pos_bound; reflexivity).
    rewrite Hpos. cbn [find]. rewrite Hia. reflexivity. }
  rewrite Hcert. eexists. reflexivity.
Qed.

(** *** What the parser accepts *)

Lemma labels_no_leading_period (rest : string) :
  domain_labels_ok (String "."%char rest) = false.
Proof. reflexivity. Qed.

Lemma dns_constraints_of_domain (domain : string) :
  isIA5String domain = true -> domain_labels_ok domain = true ->
  dns_constraint_ok domain = true /\ dns_constraint_ok ("." +:+ domain) = true.
Proof.
  intros Hia Hl. unfold dns_constraint_ok. split.
  - rewrite Hia. destruct domain as [|c rest]; [reflexivity|].
    destruct (Ascii.eqb c "."%char) eqn:E.
    + apply Ascii.eqb_eq in E. subst c. now rewrite labels_no_leading_period in Hl.
    + assert (Hsame : match String c rest with
                      | String "."%char r => r
                      | _ => String c rest
                      end = String c rest).
      { destruct c as [[] [] [] [] [] [] [] []]; try reflexivity. discriminate. }
      now rewrite Hsame.
  - rewrite isIA5String_app, Hia. exact Hl.
Qed.

Lemma root_certificate_parses (hn : string) (k : PrivateKey) (serial now : Z) (domain : string) :
  isIA5String domain = true -> domain_labels_ok domain = true ->
  ParseCertificate (CertDER (root_certificate hn k serial now domain))
  = Ok (root_certificate hn k serial now domain).
Proof.
  intros Hia Hl. destruct (dns_constraints_of_domain domain Hia Hl) as [H1 H2].
  unfold ParseCertificate. cbn [PermittedDNSDomains root_certificate find].
  rewrite H1, H2. reflexivity.
Qed.

(** *** The intermediate certificate *)

Definition intermediate_certificate (root : Certificate) (rootKey k : PrivateKey)
  (serial now : Z) : Certificate :=
  {| SerialNumber := Some serial;
     Subject := mkName "kinder Intermediate CA" ["kinder"];
     Issuer := Subject root;
     NotBefore := now;
     NotAfter := now + 365 * 24 * Hour;
     KeyUsage := 97;
     BasicConstraintsValid := true;
     IsCA := true;
     MaxPathLen := 0;
     MaxPathLenZero := true;
     PermittedDNSDomainsCritical := false;
     PermittedDNSDomains := [];
     PermittedIPRanges := [];
     PublicKey_ := Some (Public k);
     Signer := Some (Public rootKey) |}.

Lemma key_eqb_refl (k : PrivateKey) : key_eqb k k = true.
Proof. destruct k; apply Z.eqb_refl. Qed.

Lemma sign_intermediate_run (root : Certificate) (kr : Z) (ic ik : Path)
  (hn : result string) (k n : Z) (rest : list Z) (clk : Z) (d : State FileData) :
  healthy d -> writable d ic -> writable d ik -> ic <> ik ->
  PublicKey_ root = Some (Public (ECDSAKey kr)) ->
  exists pm1 pm2,
    sign_intermediate root (ECDSAKey kr) ic ik (mkHost hn (k :: n :: rest) clk d)
    = (Ok tt,
       mkHost hn rest clk
         (mkState
            (root_files ic ik
               (intermediate_certificate root (ECDSAKey kr) (ECDSAKey k) (n mod 2 ^ 128) clk)
               (ECDSAKey k) pm1 pm2 (tree d))
            (tl (tl (tl (fs_faults d)))))).
Proof.
  intros Hd Hc Hk Hne Hpub.
  destruct (create_encode_ok d ic
              (mkBlock "CERTIFICATE"
                 (CertDER (intermediate_certificate root (ECDSAKey kr) (ECDSAKey k)
                             (n mod 2 ^ 128) clk)))
              (healthy_calm 2 d Hd) Hc) as (d0 & Hcr & Hen).
  set (d1 := mkState _ _) in Hen.
  assert (Hd1 : calm 1 d1).
  { subst d1. apply healthy_calm. destruct d as [t f]. cbn [tree fs_faults].
    apply (healthy_tl t), (healthy_tl t), Hd. }
  assert (Hk1 : writable d1 ik).
  { subst d1. destruct d as [t f]. cbn [tree fs_faults].
    eapply writable_after_write; eassumption. }
  destruct Hk1 as (Hk1 & Hk2 & Hk3).
  pose proof (@WriteFile_exact FileData ik [mkBlock "PRIVATE KEY" (PKCS8 (ECDSAKey k))] 384 d1
                Hd1 Hk1 Hk2 Hk3) as Hw.
  eexists. eexists. unfold sign_intermediate.
  unfold bind at 1. unfold wrapping at 1, ecdsa_GenerateKey, draw, bind at 1. cbn [entropy ret].
  unfold bind at 1. unfold wrapping at 1, rand_Int, draw, bind at 1. cbn [entropy ret].
  unfold bind at 1. unfold time_Now at 1. cbn [clock hostname disk].
  cbv zeta.
  match goal with
  | |- context [CreateCertificate ?t ?p ?pub ?priv] =>
      assert (Hcert : CreateCertificate t p pub priv
                      = Ok (CertDER (intermediate_certificate root (ECDSAKey kr) (ECDSAKey k)
                                       (n mod 2 ^ 128) clk)))
  end.
  { unfold CreateCertificate.
    cbn [SerialNumber BasicConstraintsValid IsCA MaxPathLen MaxPathLenZero PublicKey_
         PermittedDNSDomains andb negb orb].
    change (Z.shiftl 1 128) with (2 ^ 128).
    assert (Hpos : (n mod 2 ^ 128 <? 0) = false)
      by (apply Z.ltb_ge, Z.mod_pos_bound; reflexivity).
    rewrite Hpos, Hpub. cbn [Equal]. rewrite key_eqb_refl. reflexivity. }
  rewrite Hcert.
  unfold bind at 1. unfold wrapping at 1, of_result at 1.
  unfold bind at 1.
  rewrite (wrapping_Ok _ _ _ _ _ (liftFS_Ok _ (mkHost hn rest clk d) _ _ Hcr)).
  cbn [hostname entropy clock].
  unfold bind at 1.
  rewrite (wrapping_Ok _ _ _ _ _ (liftFS_Ok _ (mkHost hn rest clk d0) _ _ Hen)).
  cbn [hostname entropy clock].
  unfold bind at 1. unfold wrapping at 1, of_result at 1, MarshalPKCS8PrivateKey.
  unfold pem_EncodeToMemory.
  rewrite (wrapping_Ok _ _ _ _ _ (liftFS_Ok _ (mkHost hn rest clk d1) _ _ Hw)).
  reflexivity.
Qed.

(** Reading the two root files, on a disk that answers. *)
Lemma GenerateIntermediate_reads (rc rk ic ik : Path) (h : Host)
  (certBlock keyBlock : Block) (moreCert moreKey : list Block) (pmc pmk : Z)
  (root : Certificate) (key : PrivateKey) :
  healthy (disk h) ->
  lookup_node rc (disk h) = Some (File (certBlock :: moreCert) pmc) ->
  lookup_node rk (disk h) = Some (File (keyBlock :: moreKey) pmk) ->
  ParseCertificate (Bytes certBlock) = Ok root ->
  ParsePKCS8PrivateKey (Bytes keyBlock) = Ok key ->
  GenerateIntermediate rc rk ic ik h
  = match key with
    | ECDSAKey _ => sign_intermediate root key ic ik
    | _ => fail "root private key is not ECDSA"
    end (mkHost (hostname h) (entropy h) (clock h)
           (mkState (tree (disk h)) (tl (tl (fs_faults (disk h)))))).
Proof.
  intros Hd Hrc Hrk Hpc Hpk. unfold GenerateIntermediate.
  unfold bind at 1.
  rewrite (wrapping_Ok _ _ _ _ _ (liftFS_Ok _ h _ _ (ReadFile_healthy rc _ _ _ Hd Hrc))).
  cbn [pem_Decode head]. rewrite Hpc.
  unfold bind at 1. unfold wrapping at 1, of_result at 1.
  set (d1 := mkState (tree (disk h)) (tl (fs_faults (disk h)))).
  assert (Hd1 : healthy d1) by (subst d1; destruct (disk h); eapply healthy_tl; exact Hd).
  assert (Hrk1 : lookup_node rk d1 = Some (File (keyBlock :: moreKey) pmk))
    by (destruct rk; exact Hrk).
  unfold bind at 1.
  rewrite (wrapping_Ok _ _ _ _ _
             (liftFS_Ok _ (mkHost (hostname h) (entropy h) (clock h) d1) _ _
                (ReadFile_healthy rk _ _ _ Hd1 Hrk1))).
  cbn [pem_Decode head hostname entropy clock]. rewrite Hpk.
  unfold bind at 1. unfold wrapping at 1, of_result at 1.
  subst d1. cbn [tree fs_faults]. destruct key; reflexivity.
Qed.

(** *** What the package leaves alone *)

(** A computation that changes no node outside [P], whatever its outcome. *)
Definition touches_only {A} (P : Path -> Prop) (c : M Host A) : Prop :=
  forall h r h', c h = (r, h') ->
    forall q, ~ P q -> tree (disk h') !! q = tree (disk h) !! q.

Definition fs_touches_only {D A} (P : Path -> Prop) (c : M (State D) A) : Prop :=
  forall s r s', c s = (r, s') ->
    forall q, ~ P q -> tree s' !! q = tree s !! q.

Lemma touches_bind {A B} (P : Path -> Prop) (c : M Host A) (k : A -> M Host B) :
  touches_only P c -> (forall a, touches_only P (k a)) -> touches_only P (bind c k).
Proof.
  intros Hc Hk h r h' Hrun q Hq. unfold bind in Hrun.
  destruct (c h) as [[a|e] h1] eqn:E.
  - rewrite (Hk a _ _ _ Hrun q Hq). exact (Hc _ _ _ E q Hq).
  - inversion Hrun; subst. exact (Hc _ _ _ E q Hq).
Qed.

Lemma touches_wrapping {A} (P : Path -> Prop) (msg : string) (c : M Host A) :
  touches_only P c -> touches_only P (wrapping msg c).
Proof.
  intros Hc h r h' Hrun q Hq. unfold wrapping in Hrun.
  destruct (c h) as [[a|e] h1] eqn:E; inversion Hrun; subst; exact (Hc _ _ _ E q Hq).
Qed.

Lemma touches_liftFS {A} (P : Path -> Prop) (c : M (State FileData) A) :
  fs_touches_only P c -> touches_only P (liftFS c).
Proof.
  intros Hc h r h' Hrun q Hq. unfold liftFS in Hrun.
  destruct (c (disk h)) as [r1 d1] eqn:E. inversion Hrun; subst. cbn [disk].
  exact (Hc _ _ _ E q Hq).
Qed.

Lemma touches_same_disk {A} (P : Path -> Prop) (c : M Host A) :
  (forall h, disk (snd (c h)) = disk h) -> touches_only P c.
Proof.
  intros Hc h r h' Hrun q _. specialize (Hc h). rewrite Hrun in Hc. simpl in Hc.
  now rewrite Hc.
Qed.

Lemma touches_draw (P : Path -> Prop) : touches_only P draw.
Proof.
  apply touches_same_disk. intros h. unfold draw. destruct (entropy h); reflexivity.
Qed.

Lemma touches_of_result {A} (P : Path -> Prop) (r : result A) : touches_only P (of_result r).
Proof. apply touches_same_disk. reflexivity. Qed.

Lemma touches_ret {A} (P : Path -> Prop) (a : A) : touches_only P (ret a).
Proof. apply touches_same_disk. reflexivity. Qed.

Lemma touches_fail {A} (P : Path -> Prop) (e : string) : touches_only P (@fail Host A e).
Proof. apply touches_same_disk. reflexivity. Qed.

Lemma fs_touches_syscall {D} (P : Path -> Prop) (what : string) :
  fs_touches_only P (@syscall D what).
Proof.
  intros s r s' Hrun q _. unfold syscall in Hrun.
  destruct (hd false (fs_faults s)); inversion Hrun; reflexivity.
Qed.

Lemma fs_touches_bind {D A B} (P : Path -> Prop) (c : M (State D) A)
  (k : A -> M (State D) B) :
  fs_touches_only P c -> (forall a, fs_touches_only P (k a)) -> fs_touches_only P (bind c k).
Proof.
  intros Hc Hk s r s' Hrun q Hq. unfold bind in Hrun.
  destruct (c s) as [[a|e] s1] eqn:E.
  - rewrite (Hk a _ _ _ Hrun q Hq). exact (Hc _ _ _ E q Hq).
  - inversion Hrun; subst. exact (Hc _ _ _ E q Hq).
Qed.

Lemma fs_touches_WriteFile {D} (P : Path -> Prop) (p : Path) (data : D) (perm : Z) :
  P p -> fs_touches_only P (WriteFile p data perm).
Proof.
  intros Hp. unfold WriteFile. apply fs_touches_bind; [apply fs_touches_syscall|].
  intros _ s r s' Hrun q Hq. cbv beta in Hrun.
  assert (Hne : p <> q) by (intros ->; contradiction).
  destruct p as [|a p']; [inversion Hrun; reflexivity|].
  destruct (lookup_node (parent (a :: p')) s) as [[? ?|]|];
    [inversion Hrun; reflexivity| |inversion Hrun; reflexivity].
  destruct (lookup_node (a :: p') s) as [[? ?|]|]; inversion Hrun; subst; cbn [tree];
    try reflexivity; now rewrite lookup_insert_ne.
Qed.

Lemma fs_touches_ReadFile {D} (P : Path -> Prop) (p : Path) :
  fs_touches_only P (@ReadFile D p).
Proof.
  unfold ReadFile. apply fs_touches_bind; [apply fs_touches_syscall|].
  intros _ s r s' Hrun q _. cbv beta in Hrun.
  destruct (lookup_node p s) as [[? ?|]|]; inversion Hrun; reflexivity.
Qed.

Lemma fs_touches_os_Create (P : Path -> Prop) (p : Path) :
  P p -> fs_touches_only P (os_Create p).
Proof.
  intros Hp. unfold os_Create. apply fs_touches_bind; [now apply fs_touches_WriteFile|].
  intros _ s r s' Hrun q _. inversion Hrun. reflexivity.
Qed.

Lemma fs_touches_pem_Encode (P : Path -> Prop) (p : Path) (b : Block) :
  P p -> fs_touches_only P (pem_Encode p b).
Proof.
  intros Hp. unfold pem_Encode. apply fs_touches_bind; [apply fs_touches_syscall|].
  intros _ s r s' Hrun q Hq. cbv beta in Hrun.
  assert (Hne : p <> q) by (intros ->; contradiction).
  match type of Hrun with
  | context [match ?X with _ => _ end] => destruct X as [[? ?|]|]
  end; inversion Hrun; subst; cbn [tree]; try reflexivity; now rewrite lookup_insert_ne.
Qed.

Ltac touches :=
  repeat first
    [ apply touches_bind; [|intros]
    | apply touches_wrapping
    | apply touches_of_result
    | apply touches_ret
    | apply touches_fail
    | apply touches_draw
    | apply touches_same_disk; reflexivity
    | apply touches_liftFS
    | apply fs_touches_ReadFile
    | apply fs_touches_os_Create
    | apply fs_touches_pem_Encode
    | apply fs_touches_WriteFile ].

Lemma touches_bind_result {A B} (P : Path -> Prop) (c : M Host A) (k : A -> M Host B) :
  touches_only P c ->
  (forall a, (exists h h', c h = (Ok a, h')) -> touches_only P (k a)) ->
  touches_only P (bind c k).
Proof.
  intros Hc Hk h r h' Hrun q Hq. unfold bind in Hrun.
  destruct (c h) as [[a|e] h1] eqn:E.
  - rewrite (Hk a (ex_intro _ h (ex_intro _ h1 E)) _ _ _ Hrun q Hq). exact (Hc _ _ _ E q Hq).
  - inversion Hrun; subst. exact (Hc _ _ _ E q Hq).
Qed.

Lemma os_Create_handle (msg : string) (p out : Path) :
  (exists h h', wrapping msg (liftFS (os_Create p)) h = (Ok out, h')) -> out = p.
Proof.
  intros (h & h' & E). apply wrapping_Ok_inv in E. unfold liftFS, os_Create, bind in E.
  destruct (WriteFile _ _ _ _) as [[[]|?] ?]; inversion E; reflexivity.
Qed.

Lemma GenerateCAWithDomain_touches (certPath keyPath : Path) (domain : string) :
  touches_only (fun q => q = certPath \/ q = keyPath)
    (GenerateCAWithDomain certPath keyPath domain).
Proof.
  unfold GenerateCAWithDomain, ecdsa_GenerateKey, rand_Int. cbv zeta.
  do 5 (apply touches_bind; [touches|intros]).
  apply touches_bind_result; [touches; auto|].
  intros out Hout. apply os_Create_handle in Hout. subst out.
  touches; auto.
Qed.

Lemma sign_intermediate_touches (root : Certificate) (key : PrivateKey) (ic ik : Path) :
  touches_only (fun q => q = ic \/ q = ik) (sign_intermediate root key ic ik).
Proof.
  unfold sign_intermediate, ecdsa_GenerateKey, rand_Int. cbv zeta.
  do 4 (apply touches_bind; [touches|intros]).
  apply touches_bind_result; [touches; auto|].
  intros out Hout. apply os_Create_handle in Hout. subst out.
  touches; auto.
Qed.

Lemma GenerateIntermediate_touches (rc rk ic ik : Path) :
  touches_only (fun q => q = ic \/ q = ik) (GenerateIntermediate rc rk ic ik).
Proof.
  unfold GenerateIntermediate.
  apply touches_bind; [touches|intros rootCertPEM].
  destruct (pem_Decode rootCertPEM); [|touches].
  apply touches_bind; [touches|intros rootCert].
  apply touches_bind; [touches|intros rootKeyPEM].
  destruct (pem_Decode rootKeyPEM); [|touches].
  apply touches_bind; [touches|intros rootKey].
  destruct rootKey; [apply sign_intermediate_touches | touches | touches].
Qed.

(** *** Machines that work, and what a file holds *)

Definition working (h : Host) (draws : nat) : Prop :=
  (exists hn, hostname h = Ok hn) /\
  (draws <= length (entropy h))%nat /\
  healthy (disk h).

Definition holds_certificate (h : Host) (p : Path) (c : Certificate) : Prop :=
  exists perm, lookup_node p (disk h) = Some (File [mkBlock "CERTIFICATE" (CertDER c)] perm).

Definition holds_key (h : Host) (p : Path) (k : PrivateKey) : Prop :=
  exists perm, lookup_node p (disk h) = Some (File [mkBlock "PRIVATE KEY" (PKCS8 k)] perm).

Lemma root_files_cert (certPath keyPath : Path) (c : Certificate) (k : PrivateKey)
  (pm1 pm2 : Z) (t : gmap Path (Node FileData)) f :
  certPath <> [] -> certPath <> keyPath ->
  lookup_node certPath (mkState (root_files certPath keyPath c k pm1 pm2 t) f)
  = Some (File [mkBlock "CERTIFICATE" (CertDER c)] pm1).
Proof.
  intros Hc Hne. rewrite lookup_node_nonempty by exact Hc. cbn [tree]. unfold root_files.
  rewrite lookup_insert_ne by (intros E; apply Hne; now symmetry).
  apply lookup_insert_eq.
Qed.

Lemma root_files_key (certPath keyPath : Path) (c : Certificate) (k : PrivateKey)
  (pm1 pm2 : Z) (t : gmap Path (Node FileData)) f :
  keyPath <> [] ->
  lookup_node keyPath (mkState (root_files certPath keyPath c k pm1 pm2 t) f)
  = Some (File [mkBlock "PRIVATE KEY" (PKCS8 k)] pm2).
Proof.
  intros Hk. rewrite lookup_node_nonempty by exact Hk. cbn [tree]. unfold root_files.
  apply lookup_insert_eq.
Qed.

Lemma writable_root_files (certPath keyPath q : Path) (c : Certificate) (k : PrivateKey)
  (pm1 pm2 : Z) (t : gmap Path (Node FileData)) f f' :
  writable (mkState t f) certPath -> writable (mkState t f) keyPath ->
  writable (mkState t f) q ->
  writable (mkState (root_files certPath keyPath c k pm1 pm2 t) f') q.
Proof.
  intros Hc Hk Hq. unfold root_files.
  apply (writable_after_write _ keyPath q _ _ f); apply (writable_after_write _ certPath _ _ _ f);
    assumption.
Qed.

Lemma healthy_tl3 {D} (t t' : gmap Path (Node D)) f :
  healthy (mkState t f) -> healthy (mkState t' (tl (tl (tl f)))).
Proof. intros H. apply (healthy_tl t), (healthy_tl t), (healthy_tl t), H. Qed.

End CACertFacts.

(** A disk whose root key file holds an RSA key. *)
Definition rsa_disk : FS.State CACert.FileData :=
  FS.mkState
    (list_to_map
       [ (["data"], FS.Dir);
         (["data"; "ca.crt"],
          FS.File [CACert.mkBlock "CERTIFICATE"
                     (CACert.CertDER
                        (CACertFacts.root_certificate "devbox" (CACert.RSAKey 7) 1 0
                           "example.test"))] 420);
         (["data"; "ca.key"],
          FS.File [CACert.mkBlock "PRIVATE KEY" (CACert.PKCS8 (CACert.RSAKey 7))] 384) ])
    [].

Module CACertProps.
Import FS CACert CleanFacts KindFacts CACertFacts.

(** A working machine, taken apart. *)
Lemma working_host (h : Host) (draws : nat) :
  working h draws ->
  exists hn, h = mkHost (Ok hn) (entropy h) (clock h) (disk h) /\
             (draws <= length (entropy h))%nat /\ healthy (disk h).
Proof.
  intros ([hn Hhn] & Hlen & Hd). exists hn. destruct h as [x e c d].
  simpl in *. subst x. auto.
Qed.

(** On a working machine and for every ASCII domain,
    [GenerateCAWithDomain] succeeds and the certificate it writes carries
    name constraints marked critical, with the five permitted DNS
    domains domain, .domain, localhost, .localhost and the host name of
    the CA service, and the three permitted IP ranges 127.0.0.1/32,
    ::1/128 and 192.0.2.0/24. *)
Theorem root_certificate_name_constraints (certPath keyPath : Path) (domain : string) (h : Host) :
  working h 2 ->
  writable (disk h) certPath -> writable (disk h) keyPath -> certPath <> keyPath ->
  isIA5String domain = true ->
  exists h' c,
    GenerateCAWithDomain certPath keyPath domain h = (Ok tt, h') /\
    holds_certificate h' certPath c /\
    PermittedDNSDomainsCritical c = true /\
    PermittedDNSDomains c
    = [domain; "." +:+ domain; "localhost"; ".localhost"; StepCAHostname] /\
    map (fun n => (Net.ipnet_IP n, Net.Size (Net.ipnet_Mask n))) (PermittedIPRanges c)
    = [ ([127; 0; 0; 1], (32, 32)); (IPv6loopback, (128, 128)); ([192; 0; 2; 0], (24, 32)) ].
Proof.
  intros Hw Hc Hk Hne Hia.
  destruct (working_host h 2 Hw) as (hn & Hh & Hlen & Hd).
  destruct (entropy h) as [|k [|n rest]] eqn:He; [simpl in Hlen; lia | simpl in Hlen; lia |].
  destruct (GenerateCAWithDomain_run certPath keyPath domain hn k n rest (clock h) (disk h)
              Hd Hc Hk Hne Hia) as (pm1 & pm2 & Hrun).
  rewrite Hh. eexists. exists (root_certificate hn (ECDSAKey k) (n mod 2 ^ 128) (clock h) domain).
  split; [exact Hrun|]. split.
  - exists pm1. cbn [disk]. apply root_files_cert; [apply Hc | exact Hne].
  - repeat split; reflexivity.
Qed.

Lemma root_certificate_name_constraints_witness :
  exists h' c,
    GenerateCAWithDomain ["data"; "ca.crt"] ["data"; "ca.key"] "example.test" ca_host
    = (Ok tt, h') /\
    holds_certificate h' ["data"; "ca.crt"] c /\
    PermittedDNSDomainsCritical c = true /\
    PermittedDNSDomains c
    = ["example.test"; "." +:+ "example.test"; "localhost"; ".localhost"; StepCAHostname] /\
    map (fun n => (Net.ipnet_IP n, Net.Size (Net.ipnet_Mask n))) (PermittedIPRanges c)
    = [ ([127; 0; 0; 1], (32, 32)); (IPv6loopback, (128, 128)); ([192; 0; 2; 0], (24, 32)) ].
Proof.
  apply (root_certificate_name_constraints ["data"; "ca.crt"] ["data"; "ca.key"] "example.test" ca_host).
  - split; [exists "devbox"; reflexivity|]. split; [simpl; lia | constructor].
  - split; [discriminate|]. split; [reflexivity | vm_compute; discriminate].
  - split; [discriminate|]. split; [reflexivity | vm_compute; discriminate].
  - discriminate.
  - reflexivity.
Defined.

(** On a working machine and for a well-formed domain, generating the
    root CA and then, from its two files, the intermediate CA succeeds;
    the intermediate certificate that is written names the root's
    subject as its issuer, carries a signature made with the root key
    that the root certificate verifies, and is a CA with MaxPathLen 0
    and MaxPathLenZero set. *)
Theorem intermediate_chains_to_root (rc rk ic ik : Path) (domain : string) (h : Host) :
  working h 4 ->
  writable (disk h) rc -> writable (disk h) rk ->
  writable (disk h) ic -> writable (disk h) ik ->
  rc <> rk -> ic <> ik ->
  isIA5String domain = true -> domain_labels_ok domain = true ->
  exists h1 h2 root rootKey inter,
    GenerateCAWithDomain rc rk domain h = (Ok tt, h1) /\
    holds_certificate h1 rc root /\
    holds_key h1 rk rootKey /\
    GenerateIntermediate rc rk ic ik h1 = (Ok tt, h2) /\
    holds_certificate h2 ic inter /\
    Issuer inter = Subject root /\
    Signer inter = Some (Public rootKey) /\
    CheckSignatureFrom inter root = Ok tt /\
    IsCA inter = true /\
    MaxPathLen inter = 0 /\
    MaxPathLenZero inter = true.
Proof.
  intros Hw Hrc Hrk Hic Hik Hne Hne' Hia Hl.
  destruct (working_host h 4 Hw) as (hn & Hh & Hlen & Hd).
  destruct (entropy h) as [|k [|n [|k' [|n' rest]]]] eqn:He;
    try (simpl in Hlen; lia).
  destruct (GenerateCAWithDomain_run rc rk domain hn k n (k' :: n' :: rest) (clock h) (disk h)
              Hd Hrc Hrk Hne Hia) as (pm1 & pm2 & Hrun).
  set (root := root_certificate hn (ECDSAKey k) (n mod 2 ^ 128) (clock h) domain) in *.
  set (d1 := mkState (root_files rc rk root (ECDSAKey k) pm1 pm2 (tree (disk h))) _) in Hrun.
  set (h1 := mkHost (Ok hn) (k' :: n' :: rest) (clock h) d1) in Hrun.
  assert (Hd1 : healthy d1)
    by (subst d1; destruct (disk h) as [t f]; apply (healthy_tl3 t), Hd).
  assert (Hcert1 : lookup_node rc d1
                   = Some (File [mkBlock "CERTIFICATE" (CertDER root)] pm1))
    by (apply root_files_cert; [apply Hrc | exact Hne]).
  assert (Hkey1 : lookup_node rk d1
                  = Some (File [mkBlock "PRIVATE KEY" (PKCS8 (ECDSAKey k))] pm2))
    by (apply root_files_key; apply Hrk).
  pose proof (GenerateIntermediate_reads rc rk ic ik h1 _ _ _ _ _ _ root (ECDSAKey k)
                Hd1 Hcert1 Hkey1 (root_certificate_parses _ _ _ _ _ Hia Hl) eq_refl)
    as Hreads.
  cbn [hostname entropy clock disk h1] in Hreads.
  set (d2 := mkState (tree d1) (tl (tl (fs_faults d1)))) in Hreads.
  assert (Hd2 : healthy d2)
    by (subst d2; destruct d1 as [t f]; apply (healthy_tl t), (healthy_tl t), Hd1).
  assert (Hw2 : forall q, writable (disk h) q -> writable d2 q).
  { intros q Hq. subst d2 d1. cbn [tree]. destruct (disk h) as [t f].
    cbn [tree] in *. eapply writable_root_files; eassumption. }
  destruct (sign_intermediate_run root k ic ik (Ok hn) k' n' rest (clock h) d2
              Hd2 (Hw2 _ Hic) (Hw2 _ Hik) Hne' eq_refl) as (pm3 & pm4 & Hsign).
  rewrite Hsign in Hreads.
  rewrite Hh. exists h1. eexists. exists root, (ECDSAKey k).
  exists (intermediate_certificate root (ECDSAKey k) (ECDSAKey k') (n' mod 2 ^ 128) (clock h)).
  split; [exact Hrun|].
  split; [exists pm1; exact Hcert1|].
  split; [exists pm2; exact Hkey1|].
  split; [exact Hreads|].
  split; [exists pm3; cbn [disk]; apply root_files_cert; [apply Hic | exact Hne']|].
  split; [reflexivity|]. split; [reflexivity|].
  split; [|repeat split; reflexivity].
  unfold CheckSignatureFrom. cbn. now rewrite Z.eqb_refl.
Qed.

Lemma intermediate_chains_to_root_witness :
  exists h1 h2 root rootKey inter,
    GenerateCAWithDomain ["data"; "ca.crt"] ["data"; "ca.key"] "example.test" ca_host
    = (Ok tt, h1) /\
    holds_certificate h1 ["data"; "ca.crt"] root /\
    holds_key h1 ["data"; "ca.key"] rootKey /\
    GenerateIntermediate ["data"; "ca.crt"] ["data"; "ca.key"]
      ["data"; "intermediate.crt"] ["data"; "intermediate.key"] h1 = (Ok tt, h2) /\
    holds_certificate h2 ["data"; "intermediate.crt"] inter /\
    Issuer inter = Subject root /\
    Signer inter = Some (Public rootKey) /\
    CheckSignatureFrom inter root = Ok tt /\
    IsCA inter = true /\
    MaxPathLen inter = 0 /\
    MaxPathLenZero inter = true.
Proof.
  apply (intermediate_chains_to_root ["data"; "ca.crt"] ["data"; "ca.key"]
           ["data"; "intermediate.crt"] ["data"; "intermediate.key"] "example.test" ca_host).
  - split; [exists "devbox"; reflexivity|]. split; [simpl; lia | constructor].
  - split; [discriminate|]. split; [reflexivity | vm_compute; discriminate].
  - split; [discriminate|]. split; [reflexivity | vm_compute; discriminate].
  - split; [discriminate|]. split; [reflexivity | vm_compute; discriminate].
  - split; [discriminate|]. split; [reflexivity | vm_compute; discriminate].
  - discriminate.
  - discriminate.
  - reflexivity.
  - reflexivity.
Defined.

(** Whenever the root certificate parses and the key read from the root
    key file is of another kind than ECDSA, [GenerateIntermediate]
    returns the error "root private key is not ECDSA"; it has then
    written nothing and drawn no randomness. *)
Theorem intermediate_refuses_other_root_keys (rc rk ic ik : Path) (h : Host)
  (certBlock keyBlock : Block) (moreCert moreKey : list Block)
  (pmc pmk : Z) (root : Certificate) (key : PrivateKey) :
  healthy (disk h) ->
  lookup_node rc (disk h) = Some (File (certBlock :: moreCert) pmc) ->
  lookup_node rk (disk h) = Some (File (keyBlock :: moreKey) pmk) ->
  ParseCertificate (Bytes certBlock) = Ok root ->
  ParsePKCS8PrivateKey (Bytes keyBlock) = Ok key ->
  (forall d, key <> ECDSAKey d) ->
  exists h',
    GenerateIntermediate rc rk ic ik h = (Err "root private key is not ECDSA", h') /\
    tree (disk h') = tree (disk h) /\
    entropy h' = entropy h.
Proof.
  intros Hd Hc Hk Hpc Hpk Hnot.
  rewrite (GenerateIntermediate_reads rc rk ic ik h _ _ _ _ _ _ root key Hd Hc Hk Hpc Hpk).
  destruct key as [d| |]; [now destruct (Hnot d)| |]; eexists; (split; [reflexivity|]);
    split; reflexivity.
Qed.

Lemma intermediate_refuses_other_root_keys_witness :
  exists h',
    GenerateIntermediate ["data"; "ca.crt"] ["data"; "ca.key"]
      ["data"; "intermediate.crt"] ["data"; "intermediate.key"]
      (mkHost (Ok "devbox") [1; 2] 0 rsa_disk)
    = (Err "root private key is not ECDSA", h') /\
    tree (disk h') = tree rsa_disk /\
    entropy h' = [1; 2].
Proof.
  apply (intermediate_refuses_other_root_keys ["data"; "ca.crt"] ["data"; "ca.key"]
           ["data"; "intermediate.crt"] ["data"; "intermediate.key"]
           (mkHost (Ok "devbox") [1; 2] 0 rsa_disk)
           (mkBlock "CERTIFICATE"
              (CertDER (root_certificate "devbox" (RSAKey 7) 1 0 "example.test")))
           (mkBlock "PRIVATE KEY" (PKCS8 (RSAKey 7))) [] [] 420 384
           (root_certificate "devbox" (RSAKey 7) 1 0 "example.test") (RSAKey 7)).
  - constructor.
  - reflexivity.
  - reflexivity.
  - reflexivity.
  - reflexivity.
  - discriminate.
Defined.

(** [GenerateCAWithDomain] checks nothing about what is already at
    its destinations: run twice on a working machine, it succeeds both
    times, and after the second run the two files hold the second
    certificate and key in place of the first. When the draws of the
    two runs differ (the key draws, and the serial draws modulo 2^128),
    the two certificates have different serial numbers and the two runs
    different private keys and public keys. *)
Theorem root_generation_is_not_idempotent (certPath keyPath : Path) (domain : string) (h : Host)
  (k1 n1 k2 n2 : Z) (rest : list Z) :
  working h 4 ->
  entropy h = k1 :: n1 :: k2 :: n2 :: rest ->
  writable (disk h) certPath -> writable (disk h) keyPath -> certPath <> keyPath ->
  isIA5String domain = true ->
  k1 <> k2 ->
  n1 mod 2 ^ 128 <> n2 mod 2 ^ 128 ->
  exists h1 h2 c1 c2 key1 key2,
    GenerateCAWithDomain certPath keyPath domain h = (Ok tt, h1) /\
    holds_certificate h1 certPath c1 /\ holds_key h1 keyPath key1 /\
    GenerateCAWithDomain certPath keyPath domain h1 = (Ok tt, h2) /\
    holds_certificate h2 certPath c2 /\ holds_key h2 keyPath key2 /\
    SerialNumber c1 <> SerialNumber c2 /\
    key1 <> key2 /\
    PublicKey_ c1 <> PublicKey_ c2 /\
    c1 <> c2.
Proof.
  intros Hw He Hc Hk Hne Hia Hkey Hserial.
  destruct (working_host h 4 Hw) as (hn & Hh & _ & Hd).
  rewrite He in Hh.
  destruct (GenerateCAWithDomain_run certPath keyPath domain hn k1 n1 (k2 :: n2 :: rest)
              (clock h) (disk h) Hd Hc Hk Hne Hia) as (pm1 & pm2 & Hrun1).
  set (c1 := root_certificate hn (ECDSAKey k1) (n1 mod 2 ^ 128) (clock h) domain) in *.
  set (d1 := mkState (root_files certPath keyPath c1 (ECDSAKey k1) pm1 pm2 (tree (disk h))) _)
    in Hrun1.
  assert (Hd1 : healthy d1)
    by (subst d1; destruct (disk h) as [t f]; apply (healthy_tl3 t), Hd).
  assert (Hw1 : forall q, writable (disk h) q -> writable d1 q).
  { intros q Hq. subst d1. destruct (disk h) as [t f].
    cbn [tree] in *. eapply writable_root_files; eassumption. }
  destruct (GenerateCAWithDomain_run certPath keyPath domain hn k2 n2 rest
              (clock h) d1 Hd1 (Hw1 _ Hc) (Hw1 _ Hk) Hne Hia) as (pm3 & pm4 & Hrun2).
  set (c2 := root_certificate hn (ECDSAKey k2) (n2 mod 2 ^ 128) (clock h) domain) in *.
  rewrite Hh. eexists. eexists. exists c1, c2, (ECDSAKey k1), (ECDSAKey k2).
  split; [exact Hrun1|].
  split; [exists pm1; cbn [disk]; apply root_files_cert; [apply Hc | exact Hne]|].
  split; [exists pm2; cbn [disk]; apply root_files_key; apply Hk|].
  split; [exact Hrun2|].
  split; [exists pm3; cbn [disk]; apply root_files_cert; [apply Hc | exact Hne]|].
  split; [exists pm4; cbn [disk]; apply root_files_key; apply Hk|].
  split; [intros E; inversion E; contradiction|].
  split; [intros E; inversion E; contradiction|].
  split; [intros E; inversion E; contradiction|].
  intros E. apply (f_equal SerialNumber) in E. inversion E. contradiction.
Qed.

Lemma root_generation_is_not_idempotent_witness :
  exists h1 h2 c1 c2 key1 key2,
    GenerateCAWithDomain ["data"; "ca.crt"] ["data"; "ca.key"] "example.test" ca_host
    = (Ok tt, h1) /\
    holds_certificate h1 ["data"; "ca.crt"] c1 /\ holds_key h1 ["data"; "ca.key"] key1 /\
    GenerateCAWithDomain ["data"; "ca.crt"] ["data"; "ca.key"] "example.test" h1
    = (Ok tt, h2) /\
    holds_certificate h2 ["data"; "ca.crt"] c2 /\ holds_key h2 ["data"; "ca.key"] key2 /\
    SerialNumber c1 <> SerialNumber c2 /\
    key1 <> key2 /\
    PublicKey_ c1 <> PublicKey_ c2 /\
    c1 <> c2.
Proof.
  apply (root_generation_is_not_idempotent ["data"; "ca.crt"] ["data"; "ca.key"] "example.test"
           ca_host 11 12 13 14 [15; 16]).
  - split; [exists "devbox"; reflexivity|]. split; [simpl; lia | constructor].
  - reflexivity.
  - split; [discriminate|]. split; [reflexivity | vm_compute; discriminate].
  - split; [discriminate|]. split; [reflexivity | vm_compute; discriminate].
  - discriminate.
  - reflexivity.
  - discriminate.
  - vm_compute. discriminate.
Defined.

(** Whatever happens, [GenerateCAWithDomain] and [GenerateIntermediate]
    change nothing on disk besides the certificate and key files they
    are asked to write. *)
Theorem generation_writes_only_its_destinations
  (certPath keyPath rootCert rootKey : Path) (domain : string) (h : Host) (q : Path) :
  q <> certPath -> q <> keyPath ->
  tree (disk (snd (GenerateCAWithDomain certPath keyPath domain h))) !! q
  = tree (disk h) !! q /\
  tree (disk (snd (GenerateIntermediate rootCert rootKey certPath keyPath h))) !! q
  = tree (disk h) !! q.
Proof.
  intros Hc Hk. split.
  - destruct (GenerateCAWithDomain certPath keyPath domain h) as [r h'] eqn:E.
    apply (GenerateCAWithDomain_touches _ _ _ _ _ _ E). now intros [|].
  - destruct (GenerateIntermediate rootCert rootKey certPath keyPath h) as [r h'] eqn:E.
    apply (GenerateIntermediate_touches _ _ _ _ _ _ _ E). now intros [|].
Qed.

Lemma generation_writes_only_its_destinations_witness :
  tree (disk (snd (GenerateCAWithDomain ["data"; "ca.crt"] ["data"; "ca.key"] "example.test"
                     (mkHost (Ok "devbox") [1; 2] 0 rsa_disk)))) !! ["data"]
  = tree rsa_disk !! ["data"] /\
  tree (disk (snd (GenerateIntermediate ["data"; "root.crt"] ["data"; "root.key"]
                     ["data"; "ca.crt"] ["data"; "ca.key"]
                     (mkHost (Ok "devbox") [1; 2] 0 rsa_disk)))) !! ["data"]
  = tree rsa_disk !! ["data"].
Proof.
  apply (generation_writes_only_its_destinations ["data"; "ca.crt"] ["data"; "ca.key"]
           ["data"; "root.crt"] ["data"; "root.key"] "example.test"
           (mkHost (Ok "devbox") [1; 2] 0 rsa_disk) ["data"]); discriminate.
Defined.

(** A domain with a character outside ASCII cannot be written as a
    name constraint: [GenerateCAWithDomain] then fails with "failed to
    create certificate" and leaves the disk as it was. *)
Theorem root_generation_rejects_non_ascii_domain
  (certPath keyPath : Path) (domain : string) (h : Host) :
  working h 2 ->
  isIA5String domain = false ->
  exists e h',
    GenerateCAWithDomain certPath keyPath domain h
    = (Err (wrap "failed to create certificate" e), h') /\
    disk h' = disk h.
Proof.
  intros Hw Hia.
  destruct (working_host h 2 Hw) as (hn & Hh & Hlen & Hd).
  destruct (entropy h) as [|k [|n rest]] eqn:He; [simpl in Hlen; lia | simpl in Hlen; lia |].
  destruct (GenerateCAWithDomain_rejects certPath keyPath domain hn k n rest (clock h) (disk h)
              Hia) as (e & Hrun).
  rewrite Hh. exists e. eexists. split; [exact Hrun | reflexivity].
Qed.

Lemma root_generation_rejects_non_ascii_domain_witness :
  exists e h',
    GenerateCAWithDomain ["data"; "ca.crt"] ["data"; "ca.key"]
      (String (ascii_of_nat 233) "xample.test") ca_host
    = (Err (wrap "failed to create certificate" e), h') /\
    disk h' = disk ca_host.
Proof.
  apply (root_generation_rejects_non_ascii_domain ["data"; "ca.crt"] ["data"; "ca.key"]
           (String (ascii_of_nat 233) "xample.test") ca_host).
  - split; [exists "devbox"; reflexivity|]. split; [simpl; lia | constructor].
  - reflexivity.
Defined.


(** A disk on which a world-readable key file is already there. *)
Definition stale_key_disk : State FileData :=
  mkState
    (list_to_map
       [ (["data"], Dir);
         (["data"; "ca.key"], File [mkBlock "PRIVATE KEY" (PKCS8 (ECDSAKey 5))] 420) ])
    [].


Example stale_key_stays_world_readable :
  tree (disk (snd (GenerateCAWithDomain ["data"; "ca.crt"] ["data"; "ca.key"] "example.test"
                     (mkHost (Ok "devbox") [11; 12] 0 stale_key_disk)))) !! ["data"; "ca.key"]
  = Some (File [mkBlock "PRIVATE KEY" (PKCS8 (ECDSAKey 11))] 420).
Proof. vm_compute. reflexivity. Qed.





End CACertProps.

(** A domain with an empty label passes root generation, but the root
    certificate then fails to parse when the intermediate is made. *)
Example malformed_domain_stops_intermediate :
  let '(r1, h1) :=
    CACert.GenerateCAWithDomain ["data"; "ca.crt"] ["data"; "ca.key"] "a..b" ca_host in
  let '(r2, h2) :=
    CACert.GenerateIntermediate ["data"; "ca.crt"] ["data"; "ca.key"]
      ["data"; "intermediate.crt"] ["data"; "intermediate.key"] h1 in
  r1 = Ok tt /\
  r2 = Err (wrap "failed to parse root certificate"
              "x509: failed to parse dnsName constraint a..b") /\
  FS.tree (CACert.disk h2) !! ["data"; "intermediate.crt"] = None.
Proof. vm_compute. repeat split; reflexivity. Qed.

(** ** More on docker/kind.go: what [createCertsDirStructure] leaves on disk *)

Module KindProps.
Import FS Kind CleanFacts KindFacts KindClaims CACertFacts.

(** *** What the file operations leave alone *)








(** *** The paths that a rebuild writes *)

(** The directories on the way to certs.d and, for every entry name,
    the entry's directory, its hosts.toml and (when a CA certificate is
    copied) its ca.crt. *)
Definition written (dataDir : Path) (names : list string) (withCA : bool) (q : Path) : Prop :=
  (q <> [] /\ is_prefix q (certsDir dataDir) = true) \/
  exists n, In n names /\
            (q = certsDir dataDir ++ [n] \/
             q = certsDir dataDir ++ [n; "hosts.toml"] \/
             (withCA = true /\ q = certsDir dataDir ++ [n; "ca.crt"])).






(** [createCertsDirStructure] after the removal of the old directory. *)
Definition after_removal (dataDir : Path) (caCertPath : option Path)
  (mirrors : list (string * string)) (zotHostname : string) : M (State string) unit :=
  caCertData <- match caCertPath with
                | Some p => wrapping "failed to read CA certificate" (ReadFile p)
                | None => ret ""
                end ;;
  (if negb (String.eqb zotHostname "")
   then zot_entries (certsDir dataDir) zotHostname else ret tt) ;;;
  range_mirrors (certsDir dataDir) caCertData mirrors.

Lemma createCertsDirStructure_split (dataDir : Path) (caCertPath : option Path)
  (mirrors : list (string * string)) (zotHostname : string) :
  createCertsDirStructure dataDir caCertPath mirrors zotHostname
  = (wrapping "failed to remove old certs.d directory" (RemoveAll (certsDir dataDir)) ;;;
     after_removal dataDir caCertPath mirrors zotHostname).
Proof. reflexivity. Qed.


Lemma written_more_CA (dataDir : Path) (names : list string) (b : bool) (q : Path) :
  written dataDir names false q -> written dataDir names b q.
Proof.
  intros [H|(n & Hn & [H|[H|[H _]]])]; [now left | right; eauto | right; eauto | discriminate].
Qed.






(** *** A successful rebuild *)








(** *** The copies of the CA certificate *)







(** The old directory is removed before the CA certificate is read: when
    the certificate file is missing the call fails with "failed to read
    CA certificate", and what it leaves is the former tree without
    certs.d. *)
Theorem missing_ca_certificate_costs_the_old_directory
  (dataDir : Path) (p : Path) (mirrors : list (string * string)) (zotHostname : string)
  (s : State string) :
  healthy s ->
  lookup_node p s = None ->
  exists e s',
    createCertsDirStructure dataDir (Some p) mirrors zotHostname s
    = (Err (wrap "failed to read CA certificate" e), s') /\
    forall q, tree s' !! q
              = if is_prefix (filepath_Join dataDir "certs.d") q then None else tree s !! q.
Proof.
  intros Hs Hp.
  rewrite (filepath_Join_single dataDir "certs.d") by reflexivity. fold (certsDir dataDir).
  rewrite createCertsDirStructure_split. unfold after_removal.
  unfold bind at 1. rewrite (wrapping_Ok _ _ _ _ _ (RemoveAll_healthy _ _ Hs)).
  set (s1 := mkState _ _).
  assert (Hs1 : healthy s1) by (subst s1; destruct s; eapply healthy_tl; exact Hs).
  assert (Hp1 : lookup_node p s1 = None).
  { destruct p as [|a p']; [discriminate|]. unfold lookup_node in *. subst s1. cbn [tree].
    rewrite lookup_RemoveAll_tree, Hp. now destruct (is_prefix _ _). }
  unfold bind at 1, wrapping at 1, ReadFile, bind at 1.
  rewrite (syscall_healthy _ _ Hs1).
  replace (lookup_node p (mkState (tree s1) (tl (fs_faults s1)))) with (lookup_node p s1)
    by (destruct p; reflexivity).
  rewrite Hp1. eexists. eexists. split; [reflexivity|].
  intros q. cbn [tree]. subst s1. cbn [tree]. apply lookup_RemoveAll_tree.
Qed.

Lemma missing_ca_certificate_costs_the_old_directory_witness :
  exists e s',
    createCertsDirStructure ["tmp"] (Some ["tmp"; "missing.crt"])
      [("ghcr.io", "http://zot:5000")] "zot" (mkState test_tree [])
    = (Err (wrap "failed to read CA certificate" e), s') /\
    forall q, tree s' !! q
              = if is_prefix (filepath_Join ["tmp"] "certs.d") q then None
                else tree (mkState test_tree []) !! q.
Proof.
  apply (missing_ca_certificate_costs_the_old_directory ["tmp"] ["tmp"; "missing.crt"]
           [("ghcr.io", "http://zot:5000")] "zot" (mkState test_tree [])).
  - constructor.
  - reflexivity.
Defined.

(** The name of a registry's directory and its upstream server agree:
    normalising a name twice changes nothing more, and a registry and
    its normalised name have the same upstream server. *)
Theorem normalized_name_keeps_upstream (registry : string) :
  normalizeRegistryName (normalizeRegistryName registry) = normalizeRegistryName registry /\
  getUpstreamServer (normalizeRegistryName registry) = getUpstreamServer registry.
Proof.
  unfold normalizeRegistryName, getUpstreamServer.
  destruct (String.eqb registry "registry-1.docker.io") eqn:E.
  - rewrite orb_true_r. split; reflexivity.
  - rewrite E. split; reflexivity.
Qed.

End KindProps.

(** ** More on docker/container.go and docker/network.go *)

Module DockerQueries.
Import Docker.

(** [GetNetworkID] *)
Definition GetNetworkID (name : string) : M World string :=
  GetSharedClient ;;;
  nets <- wrapping "failed to list networks" NetworkList ;;
  match find (fun n => String.eqb (net_Name n) name) nets with
  | Some n => ret (net_ID n)
  | None => fail ("network " +:+ name +:+ " not found")
  end.

End DockerQueries.

Module DockerProps.
Import Docker DockerFacts DockerQueries.

Lemma stop_ref_has_name (ref ref' : string) (c : Container) :
  has_name ref' (stop_ref ref c) = has_name ref' c.
Proof. unfold stop_ref. now destruct (has_name ref c). Qed.

Lemma filter_stopped (ref : string) (cs : list Container) :
  filter (fun c => negb (has_name ref c)) (map (stop_ref ref) cs)
  = filter (fun c => negb (has_name ref c)) cs.
Proof.
  induction cs as [|c cs IH]; [reflexivity|].
  cbn [map]. rewrite !filter_cons, stop_ref_has_name, IH.
  unfold stop_ref. destruct (has_name ref c) eqn:E; simpl.
  - destruct (decide (false = true)); [discriminate | reflexivity].
  - reflexivity.
Qed.

Lemma existsb_stopped (ref : string) (cs : list Container) :
  existsb (has_name ref) (map (stop_ref ref) cs) = existsb (has_name ref) cs.
Proof.
  induction cs as [|c cs IH]; [reflexivity|]. simpl. now rewrite stop_ref_has_name, IH.
Qed.

Lemma existsb_filter_not {A} (p : A -> bool) (l : list A) :
  existsb p (filter (fun c => negb (p c)) l) = false.
Proof.
  induction l as [|c l IH]; [reflexivity|]. rewrite filter_cons.
  destruct (p c) eqn:E; cbn [negb]; case_decide as H.
  - destruct H.
  - exact IH.
  - cbn [existsb]. now rewrite E.
  - exfalso. apply H. exact I.
Qed.

(** A removal that returns no error has removed every container that
    answers to the name and has touched no other container, no network
    and no image; this holds whether or not the stop before it
    succeeded. *)
Theorem RemoveContainer_removes_exactly_the_named
  (containerName : string) (w w' : World) :
  RemoveContainer containerName w = (Ok tt, w') ->
  containers w' = filter (fun c => negb (has_name containerName c)) (containers w) /\
  networks w' = networks w /\
  images w' = images w.
Proof.
  unfold RemoveContainer. intros H.
  apply bind_Ok_inv in H as (u & w1 & Hg & H).
  apply GetSharedClient_Ok_inv in Hg as (_ & Hc1 & Hn1 & Hi1 & _).
  apply bind_Ok_inv in H as (r & w2 & Hstop & H).
  apply bind_Ok_inv in H as (u2 & w3 & Hwarn & H).
  apply wrapping_Ok_inv in H. unfold ContainerRemove in H.
  apply bind_Ok_inv in H as (u3 & w4 & Hcall & H).
  apply call_Ok_inv in Hcall as [_ ->]. cbv beta in H.
  destruct (existsb (has_name containerName) (containers (set_faults _ w3))) eqn:Hex;
    [|discriminate].
  injection H as <-. cbn [containers networks images set_containers set_faults].
  assert (H23 : containers w3 = containers w2 /\ networks w3 = networks w2 /\
                images w3 = images w2).
  { destruct r; unfold warn, ret in Hwarn; inversion Hwarn; subst; auto. }
  destruct H23 as (-> & -> & ->).
  unfold attempt, ContainerStop, bind, call in Hstop. cbv beta in Hstop.
  destruct (hd false (faults w1)).
  - injection Hstop as _ <-. cbn [containers networks images set_faults].
    now rewrite Hc1, Hn1, Hi1.
  - cbn [containers set_faults] in Hstop.
    destruct (existsb (has_name containerName) (containers w1)).
    + injection Hstop as _ <-. cbn [containers networks images set_containers set_faults].
      now rewrite filter_stopped, Hc1, Hn1, Hi1.
    + injection Hstop as _ <-. cbn [containers networks images set_faults].
      now rewrite Hc1, Hn1, Hi1.
Qed.

Definition plain_request (image : string) : CreateRequest :=
  mkCreateRequest image "" [] [] "" "" [] [] [] "" [] None.

(** A daemon with two containers, whose next call fails. *)
Definition two_containers : World :=
  mkWorld [ mkContainer "c0" ["/kinder-zot"] true (plain_request "zot");
            mkContainer "c1" ["/kinder-gatus"] true (plain_request "gatus") ]
    [] ["zot"; "gatus"] 2 [true] true [].

Lemma RemoveContainer_removes_exactly_the_named_witness :
  containers (snd (RemoveContainer "kinder-zot" two_containers))
  = filter (fun c => negb (has_name "kinder-zot" c)) (containers two_containers) /\
  networks (snd (RemoveContainer "kinder-zot" two_containers)) = networks two_containers /\
  images (snd (RemoveContainer "kinder-zot" two_containers)) = images two_containers.
Proof.
  apply (RemoveContainer_removes_exactly_the_named "kinder-zot" two_containers
           (snd (RemoveContainer "kinder-zot" two_containers))).
  vm_compute. reflexivity.
Defined.

(** A stop that fails does not stop the removal: the failure is written
    to the error stream as a warning, the container is removed and no
    error is returned. *)
Theorem RemoveContainer_survives_failed_stop
  (containerName : string) (w : World) (later : list bool) :
  sharedClient w = true ->
  faults w = true :: false :: later ->
  existsb (has_name containerName) (containers w) = true ->
  exists w',
    RemoveContainer containerName w = (Ok tt, w') /\
    existsb (has_name containerName) (containers w') = false /\
    stderr w'
    = stderr w ++ ["Warning: failed to stop container: Cannot connect to the Docker daemon"].
Proof.
  intros Hs Hf Hex. destruct w as [cs ns im nid f sc err].
  cbn [sharedClient faults containers stderr] in *. subst sc f.
  unfold RemoveContainer, GetSharedClient, attempt, ContainerStop, ContainerRemove, warn,
    wrapping, bind, call, ret.
  cbn. rewrite Hex. eexists. split; [reflexivity|]. cbn. split; [|reflexivity].
  apply existsb_filter_not.
Qed.

Lemma RemoveContainer_survives_failed_stop_witness :
  exists w',
    RemoveContainer "kinder-zot"
      (mkWorld (containers two_containers) [] [] 2 [true; false] true []) = (Ok tt, w') /\
    existsb (has_name "kinder-zot") (containers w') = false /\
    stderr w'
    = [] ++ ["Warning: failed to stop container: Cannot connect to the Docker daemon"].
Proof.
  apply (RemoveContainer_survives_failed_stop "kinder-zot"
           (mkWorld (containers two_containers) [] [] 2 [true; false] true []) []);
    reflexivity.
Defined.

(** Removing a container that is not there is an error: with the daemon
    answering, the stop fails with a warning and the removal returns
    "failed to remove container: No such container", leaving every
    container in place. *)
Theorem RemoveContainer_of_absent_container_fails
  (containerName : string) (w : World) :
  sharedClient w = true ->
  reachable 2 w ->
  existsb (has_name containerName) (containers w) = false ->
  exists w',
    RemoveContainer containerName w
    = (Err (wrap "failed to remove container" ("No such container: " +:+ containerName)), w') /\
    containers w' = containers w.
Proof.
  intros Hs Hr Hex. destruct (DockerClaims.reachable_2 _ Hr) as [H1 H2].
  destruct w as [cs ns im nid f sc err].
  cbn [sharedClient faults containers stderr] in *. subst sc.
  unfold RemoveContainer, GetSharedClient, attempt, ContainerStop, ContainerRemove, warn,
    wrapping, bind, call, ret.
  cbn. rewrite H1. cbn. rewrite Hex. cbn. rewrite H2. cbn. rewrite Hex.
  eexists. split; reflexivity.
Qed.

Lemma RemoveContainer_of_absent_container_fails_witness :
  exists w',
    RemoveContainer "kinder-traefik" (mkWorld (containers two_containers) [] [] 2 [] true [])
    = (Err (wrap "failed to remove container" ("No such container: " +:+ "kinder-traefik")),
       w') /\
    containers w' = containers two_containers.
Proof.
  apply (RemoveContainer_of_absent_container_fails "kinder-traefik"
           (mkWorld (containers two_containers) [] [] 2 [] true [])).
  - reflexivity.
  - constructor.
  - reflexivity.
Defined.

(** *** Creating again after a failure *)

Lemma stored_name_matches (name id : string) :
  name <> "" -> name_matches name (stored_name name id) = true.
Proof.
  intros Hn. unfold name_matches, stored_name. destruct name as [|c rest]; [contradiction|].
  destruct (Ascii.eqb c "/"%char) eqn:E.
  - apply Ascii.eqb_eq in E. subst c. rewrite String.eqb_refl. apply orb_true_r.
  - assert (Hs : match String c rest with
                 | String "/"%char _ => String c rest
                 | _ => "/" +:+ String c rest
                 end = "/" +:+ String c rest).
    { destruct c as [[] [] [] [] [] [] [] []]; try reflexivity. discriminate. }
    rewrite Hs, String.eqb_refl. reflexivity.
Qed.

Lemma stored_name_cases (name id : string) :
  name <> "" -> stored_name name id = name \/ stored_name name id = "/" +:+ name.
Proof.
  intros Hn. unfold stored_name. destruct name as [|c rest]; [contradiction|].
  destruct c as [[] [] [] [] [] [] [] []]; auto.
Qed.

Lemma no_name_conflict (name id : string) (cs : list Container) :
  name <> "" ->
  existsb (has_name name) cs = false ->
  existsb (fun c => existsb (String.eqb (stored_name name id)) (ctr_Names c)) cs = false.
Proof.
  intros Hn. induction cs as [|c cs IH]; [reflexivity|]. cbn [existsb].
  intros H. apply orb_false_iff in H as [Hc Hcs]. rewrite (IH Hcs), orb_false_r.
  unfold has_name in Hc. induction (ctr_Names c) as [|n ns IHn]; [reflexivity|].
  cbn [existsb] in *. apply orb_false_iff in Hc as [Hm Hns]. rewrite (IHn Hns), orb_false_r.
  unfold name_matches in Hm. apply orb_false_iff in Hm as [H1 H2].
  destruct (stored_name_cases name id Hn) as [-> | ->].
  - now rewrite String.eqb_sym.
  - now rewrite String.eqb_sym.
Qed.

Lemma find_added (name : string) (cs : list Container) (c : Container) :
  existsb (has_name name) cs = false -> has_name name c = true ->
  find (has_name name) (cs ++ [c]) = Some c.
Proof.
  intros Hex Hc. rewrite find_app_None.
  - simpl. now rewrite Hc.
  - rewrite existsb_find in Hex. now destruct (find (has_name name) cs).
Qed.

(** When the container has been created and its start then fails,
    [CreateContainer] returns "failed to start container" and leaves the
    new container behind, stopped. Creating again finds it, starts it
    and returns its identifier: nothing is pulled or created a second
    time. *)
Theorem CreateContainer_again_after_failed_start
  (config : ContainerConfig) (w : World) (later : list bool) :
  sharedClient w = true ->
  Name config <> "" ->
  existsb (has_name (Name config)) (containers w) = false ->
  faults w = [false; false; false; false; true; false; false; false] ++ later ->
  exists w1 w2 c,
    CreateContainer config w
    = (Err (wrap "failed to start container" "Cannot connect to the Docker daemon"), w1) /\
    find (has_name (Name config)) (containers w1) = Some c /\
    ctr_Running c = false /\
    CreateContainer config w1 = (Ok (ctr_ID c), w2) /\
    option_map ctr_Running (find (has_name (Name config)) (containers w2)) = Some true /\
    length (containers w2) = S (length (containers w)) /\
    images w2 = Image config :: images w.
Proof.
  intros Hs Hn Hex Hf. destruct w as [cs ns im nid f sc err].
  cbn [sharedClient faults containers images] in *. subst sc f.
  set (id := fresh_id nid).
  set (c := mkContainer id [stored_name (Name config) id] false (build_request config)).
  assert (Hc : has_name (Name config) c = true).
  { unfold has_name, c. cbn [ctr_Names existsb]. now rewrite stored_name_matches. }
  assert (Hfind : find (has_name (Name config)) (cs ++ [c]) = Some c)
    by now apply find_added.
  assert (Hex1 : existsb (has_name (Name config)) (cs ++ [c]) = true)
    by (rewrite existsb_find, Hfind; reflexivity).
  assert (Hid : existsb (fun c0 => String.eqb (ctr_ID c0) id) (cs ++ [c]) = true).
  { rewrite existsb_app. cbn. rewrite String.eqb_refl. now rewrite !orb_true_r. }
  eexists. eexists. exists c.
  split; [|split; [|split; [|split; [|split; [|split]]]]].
  - unfold CreateContainer, ContainerExists, GetSharedClient, ContainerList, ImagePull,
      drain_pull, ContainerCreate, ContainerStart, wrapping, bind, call, ret.
    cbn. rewrite Hex. cbn. rewrite (no_name_conflict _ _ _ Hn Hex). cbn. reflexivity.
  - cbn [containers]. exact Hfind.
  - reflexivity.
  - unfold CreateContainer, ContainerExists, GetSharedClient, ContainerList, ContainerInspect,
      ContainerStart, wrapping, bind, call, ret.
    cbn. fold id. fold c. rewrite Hex1. cbn. rewrite Hfind. cbn.
    fold id. fold c. rewrite Hid. cbn. reflexivity.
  - cbn [containers set_containers]. rewrite find_map_start, Hfind. cbn.
    unfold start_id. cbn. now rewrite String.eqb_refl.
  - cbn [containers set_containers]. rewrite length_map, length_app. simpl. lia.
  - reflexivity.
Qed.

Definition flaky_start : World :=
  mkWorld [] [] [] 0 [false; false; false; false; true; false; false; false] true [].

Lemma CreateContainer_again_after_failed_start_witness :
  exists w1 w2 c,
    CreateContainer (DockerClaims.zot_cfg "zot:v1") flaky_start
    = (Err (wrap "failed to start container" "Cannot connect to the Docker daemon"), w1) /\
    find (has_name (Name (DockerClaims.zot_cfg "zot:v1"))) (containers w1) = Some c /\
    ctr_Running c = false /\
    CreateContainer (DockerClaims.zot_cfg "zot:v1") w1 = (Ok (ctr_ID c), w2) /\
    option_map ctr_Running
      (find (has_name (Name (DockerClaims.zot_cfg "zot:v1"))) (containers w2)) = Some true /\
    length (containers w2) = S (length (containers flaky_start)) /\
    images w2 = Image (DockerClaims.zot_cfg "zot:v1") :: images flaky_start.
Proof.
  apply (CreateContainer_again_after_failed_start (DockerClaims.zot_cfg "zot:v1")
           flaky_start []).
  - reflexivity.
  - discriminate.
  - reflexivity.
  - reflexivity.
Defined.

(** When the image cannot be pulled, [CreateContainer] returns "failed
    to pull image" (or "failed to complete image pull" when the
    download breaks off) and no container has been created. *)
Theorem CreateContainer_without_image_creates_nothing
  (config : ContainerConfig) (w : World) (pull drain : bool) (later : list bool) :
  sharedClient w = true ->
  existsb (has_name (Name config)) (containers w) = false ->
  faults w = false :: pull :: drain :: later ->
  pull || drain = true ->
  exists e w',
    CreateContainer config w = (Err e, w') /\
    e = (if pull then wrap "failed to pull image" "pull access denied"
         else wrap "failed to complete image pull" "unexpected EOF") /\
    containers w' = containers w /\
    images w' = images w /\
    next_id w' = next_id w.
Proof.
  intros Hs Hex Hf Hfail. destruct w as [cs ns im nid f sc err].
  cbn [sharedClient faults containers images next_id] in *. subst sc f.
  unfold CreateContainer, ContainerExists, GetSharedClient, ContainerList, ImagePull,
    drain_pull, wrapping, bind, call, ret.
  cbn. rewrite Hex. cbn.
  destruct pull; cbn.
  - eexists. eexists. split; [reflexivity|]. cbn. auto.
  - cbn in Hfail. subst drain. cbn. eexists. eexists. split; [reflexivity|]. cbn. auto.
Qed.

Lemma CreateContainer_without_image_creates_nothing_witness :
  exists e w',
    CreateContainer (DockerClaims.zot_cfg "zot:v1")
      (mkWorld [] [] [] 0 [false; false; true] true []) = (Err e, w') /\
    e = (if false then wrap "failed to pull image" "pull access denied"
         else wrap "failed to complete image pull" "unexpected EOF") /\
    containers w' = [] /\
    images w' = [] /\
    next_id w' = 0%nat.
Proof.
  apply (CreateContainer_without_image_creates_nothing (DockerClaims.zot_cfg "zot:v1")
           (mkWorld [] [] [] 0 [false; false; true] true []) false true []); reflexivity.
Defined.

(** *** Networks *)

Lemma NetworkList_Ok_inv (w w' : World) (nets : list NetworkResource) :
  NetworkList w = (Ok nets, w') -> nets = networks w /\ w' = set_faults (tl (faults w)) w.
Proof.
  unfold NetworkList. intros H. apply bind_Ok_inv in H as (u & w1 & Hcall & H).
  apply call_Ok_inv in Hcall as [_ ->]. injection H as <- <-. auto.
Qed.

Lemma find_network_added (name : string) (ns : list NetworkResource) (n : NetworkResource) :
  find (fun x => String.eqb (net_Name x) name) ns = None ->
  net_Name n = name ->
  find (fun x => String.eqb (net_Name x) name) (ns ++ [n]) = Some n.
Proof.
  intros Hnone Hn. rewrite find_app_None by exact Hnone. simpl.
  now rewrite Hn, String.eqb_refl.
Qed.

(** What a successful [CreateNetwork] has done. *)
Lemma CreateNetwork_Ok_inv (config : NetworkConfig) (w w1 : World) (id : string) :
  CreateNetwork config w = (Ok id, w1) ->
  sharedClient w1 = true /\
  find (fun x => String.eqb (net_Name x) (nw_Name config)) (networks w) = None /\
  exists gateway ipRange,
    Net.deriveNetworkConfig4 (nw_CIDR config) = Ok (gateway, ipRange) /\
    networks w1
    = networks w ++
      [mkNetworkResource id (nw_Name config)
         (mkNetworkCreate (nw_Driver config) (nw_CIDR config) ipRange gateway false
            (if String.eqb (nw_BridgeName config) "" then nw_Name config +:+ "br0"
             else nw_BridgeName config))] /\
    containers w1 = containers w.
Proof.
  unfold CreateNetwork. intros H.
  apply bind_Ok_inv in H as (u & wa & Hg & H).
  apply GetSharedClient_Ok_inv in Hg as (Hs & Hc & Hn & _).
  apply bind_Ok_inv in H as (nets & wb & Hl & H).
  apply wrapping_Ok_inv, NetworkList_Ok_inv in Hl as [-> ->].
  rewrite Hn in H.
  destruct (find _ (networks w)) as [n|] eqn:Hfind; [discriminate|].
  apply bind_Ok_inv in H as ([gateway ipRange] & wc & Hd & H).
  apply wrapping_Ok_inv in Hd. unfold lift_result in Hd. injection Hd as Hd <-.
  apply wrapping_Ok_inv in H. unfold NetworkCreateCall in H.
  apply bind_Ok_inv in H as (u2 & wd & Hcall & H).
  apply call_Ok_inv in Hcall as [_ ->]. cbv beta zeta in H.
  cbn [networks set_faults next_id] in H.
  destruct (existsb _ (networks wa)); [discriminate|].
  injection H as <- <-. cbn [sharedClient networks containers set_next_id set_networks set_faults].
  split; [exact Hs|]. split; [reflexivity|].
  exists gateway, ipRange. rewrite Hn, Hc. auto.
Qed.

(** A network that [CreateNetwork] has created is found by the queries
    that follow: [NetworkExists] says yes and [GetNetworkID] returns the
    identifier that [CreateNetwork] returned. *)
Theorem created_network_is_found (config : NetworkConfig) (w w1 : World) (id : string) :
  CreateNetwork config w = (Ok id, w1) ->
  hd false (faults w1) = false ->
  fst (NetworkExists (nw_Name config) w1) = Ok true /\
  fst (GetNetworkID (nw_Name config) w1) = Ok id.
Proof.
  intros H Hf. apply CreateNetwork_Ok_inv in H as (Hs & Hnone & gw & rg & _ & Hnets & _).
  unfold NetworkExists, GetNetworkID, GetSharedClient, NetworkList, wrapping, bind, call, ret.
  match type of Hnets with
  | _ = _ ++ [?n] => pose proof (find_network_added _ _ n Hnone eq_refl) as Hfound
  end.
  rewrite <- Hnets in Hfound.
  rewrite Hs, Hf. cbn [networks set_faults fst].
  rewrite existsb_find, Hfound. split; reflexivity.
Qed.

Definition kind_network : NetworkConfig := mkNetworkConfig "kind" "172.28.28.0/24" "bridge" "".

Lemma created_network_is_found_witness :
  fst (NetworkExists (nw_Name kind_network)
         (snd (CreateNetwork kind_network DockerClaims.empty_world))) = Ok true /\
  fst (GetNetworkID (nw_Name kind_network)
         (snd (CreateNetwork kind_network DockerClaims.empty_world))) = Ok "n0".
Proof.
  apply (created_network_is_found kind_network DockerClaims.empty_world
           (snd (CreateNetwork kind_network DockerClaims.empty_world)) "n0").
  - vm_compute. reflexivity.
  - reflexivity.
Defined.

(** [CreateNetwork] is not idempotent: called again with the name of
    the network it has just created, it returns "network ... already
    exists" and creates nothing. *)
Theorem CreateNetwork_twice_fails (config config' : NetworkConfig) (w w1 : World) (id : string) :
  CreateNetwork config w = (Ok id, w1) ->
  nw_Name config' = nw_Name config ->
  hd false (faults w1) = false ->
  exists w2,
    CreateNetwork config' w1
    = (Err ("network " +:+ nw_Name config +:+ " already exists"), w2) /\
    networks w2 = networks w1.
Proof.
  intros H Hname Hf. apply CreateNetwork_Ok_inv in H as (Hs & Hnone & gw & rg & _ & Hnets & _).
  unfold CreateNetwork, GetSharedClient, NetworkList, wrapping, bind, call, ret, fail.
  match type of Hnets with
  | _ = _ ++ [?n] => pose proof (find_network_added _ _ n Hnone eq_refl) as Hfound
  end.
  rewrite <- Hnets in Hfound.
  rewrite Hs, Hf, Hname. cbn [networks set_faults].
  rewrite Hfound. eexists. split; reflexivity.
Qed.

Lemma CreateNetwork_twice_fails_witness :
  exists w2,
    CreateNetwork (mkNetworkConfig "kind" "10.0.0.0/16" "bridge" "br-kind")
      (snd (CreateNetwork kind_network DockerClaims.empty_world))
    = (Err ("network " +:+ nw_Name kind_network +:+ " already exists"), w2) /\
    networks w2 = networks (snd (CreateNetwork kind_network DockerClaims.empty_world)).
Proof.
  apply (CreateNetwork_twice_fails kind_network
           (mkNetworkConfig "kind" "10.0.0.0/16" "bridge" "br-kind")
           DockerClaims.empty_world
           (snd (CreateNetwork kind_network DockerClaims.empty_world)) "n0").
  - vm_compute. reflexivity.
  - reflexivity.
  - reflexivity.
Defined.

(** A [CreateNetwork] that returns an error has created no network
    (and touched no container), whatever the error is: a name that is
    taken, a CIDR that does not parse, a daemon that does not answer. *)
Theorem failed_CreateNetwork_creates_nothing
  (config : NetworkConfig) (w w1 : World) (e : string) :
  CreateNetwork config w = (Err e, w1) ->
  networks w1 = networks w /\ containers w1 = containers w.
Proof.
  unfold CreateNetwork, GetSharedClient, NewClient, NetworkList, NetworkCreateCall,
    lift_result, wrapping, bind, call, ret, fail.
  destruct (sharedClient w); cbn [faults set_faults set_sharedClient networks containers];
    repeat match goal with
           | |- context [hd false ?f] => destruct (hd false f)
           | |- context [find ?p ?l] => destruct (find p l)
           | |- context [Net.deriveNetworkConfig4 ?c] =>
               destruct (Net.deriveNetworkConfig4 c) as [[? ?]|?]
           | |- context [existsb ?p ?l] => destruct (existsb p l)
           end;
    cbn [faults set_faults set_sharedClient networks containers];
    intros H; inversion H; subst; auto.
Qed.

Lemma failed_CreateNetwork_creates_nothing_witness :
  networks (snd (CreateNetwork (mkNetworkConfig "kind" "not-a-cidr" "bridge" "")
                   DockerClaims.empty_world)) = networks DockerClaims.empty_world /\
  containers (snd (CreateNetwork (mkNetworkConfig "kind" "not-a-cidr" "bridge" "")
                     DockerClaims.empty_world)) = containers DockerClaims.empty_world.
Proof.
  apply (failed_CreateNetwork_creates_nothing (mkNetworkConfig "kind" "not-a-cidr" "bridge" "")
           DockerClaims.empty_world
           (snd (CreateNetwork (mkNetworkConfig "kind" "not-a-cidr" "bridge" "")
                   DockerClaims.empty_world))
           (wrap "failed to parse network CIDR"
              (wrap ("invalid CIDR " +:+ "not-a-cidr")
                 ("invalid CIDR address: " +:+ "not-a-cidr")))).
  vm_compute. reflexivity.
Defined.

End DockerProps.

(** ** More on docker/network.go: the gateway and the range of addresses *)

Module NetProps.
Import Net.

Lemma digits_val_nonneg (s : string) (acc v : Z) :
  0 <= acc -> digits_val s acc = Some v -> 0 <= v.
Proof.
  revert acc. induction s as [|c s IH]; intros acc Hacc H; simpl in H.
  - now injection H as <-.
  - destruct (is_digit c) eqn:E; [|discriminate].
    apply (IH (acc * 10 + digit_val c)); [|exact H].
    unfold is_digit, digit_val in *. apply andb_true_iff in E as [E1 E2].
    apply Z.leb_le in E1. lia.
Qed.

Lemma dtoi_nonneg (s : string) (v : Z) : dtoi s = Some v -> 0 <= v.
Proof.
  unfold dtoi. destruct s; [discriminate|]. now apply digits_val_nonneg.
Qed.

Lemma parse_octet_range (s : string) (v : Z) : parse_octet s = Some v -> 0 <= v <= 255.
Proof.
  unfold parse_octet. intros H.
  assert (H' : match dtoi s with
               | Some v => if v <=? 255 then Some v else None
               | None => None
               end = Some v).
  { destruct s as [|c s1]; [exact H|].
    destruct s1 as [|c' s']; destruct c as [[] [] [] [] [] [] [] []];
      first [exact H | discriminate H]. }
  destruct (dtoi s) as [x|] eqn:E; [|discriminate].
  destruct (x <=? 255) eqn:E'; [|discriminate]. injection H' as <-.
  apply Z.leb_le in E'. apply dtoi_nonneg in E. lia.
Qed.

(** The masks of the prefix lengths 0 to 32, tried on every byte. *)
Definition lengths : list Z := map Z.of_nat (seq 0 33).
Definition bytes : list Z := map Z.of_nat (seq 0 256).

Definition masked_ok (n d : Z) : bool :=
  match CIDRMask n 32 with
  | [m1; m2; m3; m4] =>
      forallb (fun m => (0 <=? Z.land d m) && (Z.land d m <=? 255)) [m1; m2; m3; m4]
      && ((n =? 32) || (Z.land d m4 <=? 254))
      && (fst (Size [m1; m2; m3; m4]) =? n) && (snd (Size [m1; m2; m3; m4]) =? 32)
  | _ => false
  end.

Lemma masked_ok_all : forallb (fun n => forallb (masked_ok n) bytes) lengths = true.
Proof. vm_compute. reflexivity. Qed.

Lemma in_range (k : nat) (v : Z) : 0 <= v < Z.of_nat k -> In v (map Z.of_nat (seq 0 k)).
Proof.
  intros H. replace v with (Z.of_nat (Z.to_nat v)) by lia.
  apply in_map, in_seq. lia.
Qed.

Lemma masked_ok_at (n d : Z) : 0 <= n <= 32 -> 0 <= d <= 255 -> masked_ok n d = true.
Proof.
  intros Hn Hd. pose proof masked_ok_all as H.
  rewrite forallb_forall in H. specialize (H n (in_range 33 n ltac:(lia))).
  rewrite forallb_forall in H. apply H, (in_range 256). lia.
Qed.

Lemma ip_succ_last (a b c d : Z) :
  0 <= a <= 255 -> 0 <= b <= 255 -> 0 <= c <= 255 -> 0 <= d <= 254 ->
  ip_succ [a; b; c; d] = [a; b; c; d + 1].
Proof.
  intros Ha Hb Hc Hd. unfold ip_succ, ip_to_Z. cbn [length fold_left ip_of_Z app].
  assert (Hsplit : forall X r, 0 <= r < 256 ->
                     (X * 256 + r) mod 256 = r /\ (X * 256 + r) / 256 = X).
  { intros X r Hr. split.
    - rewrite Z.add_comm, Z.mod_add by lia. now apply Z.mod_small.
    - rewrite Z.add_comm, Z.div_add by lia. rewrite Z.div_small by lia. reflexivity. }
  replace ((((0 * 256 + a) * 256 + b) * 256 + c) * 256 + d + 1)
    with ((((0 * 256 + a) * 256 + b) * 256 + c) * 256 + (d + 1)) by lia.
  destruct (Hsplit (((0 * 256 + a) * 256 + b) * 256 + c) (d + 1) ltac:(lia)) as [-> ->].
  destruct (Hsplit ((0 * 256 + a) * 256 + b) c ltac:(lia)) as [-> ->].
  destruct (Hsplit (0 * 256 + a) b ltac:(lia)) as [-> ->].
  destruct (Hsplit 0 a ltac:(lia)) as [-> _].
  reflexivity.
Qed.

(** What [ParseCIDR4] returns: a dotted quad of bytes, masked by a
    prefix length between 0 and 32. *)
Lemma ParseCIDR4_Some (cidr : string) (ipNet : IPNet) :
  ParseCIDR4 cidr = Some ipNet ->
  exists a b c d n,
    (0 <= a <= 255 /\ 0 <= b <= 255 /\ 0 <= c <= 255 /\ 0 <= d <= 255) /\
    0 <= n <= 32 /\
    ipNet = mkIPNet (apply_mask [a; b; c; d] (CIDRMask n 32)) (CIDRMask n 32).
Proof.
  unfold ParseCIDR4. destruct (cut cidr "/"%char) as [[addr mask]|]; [|discriminate].
  destruct (parseIPv4 addr) as [ip|] eqn:Hip; [|discriminate].
  destruct (dtoi mask) as [n|] eqn:Hn; [|discriminate].
  destruct (32 <? n) eqn:Hle; [discriminate|]. intros H. injection H as <-.
  apply Z.ltb_ge in Hle. apply dtoi_nonneg in Hn.
  unfold parseIPv4 in Hip.
  destruct (split_on addr "."%char) as [|sa [|sb [|sc [|sd [|? ?]]]]]; try discriminate.
  destruct (parse_octet sa) as [a|] eqn:Ea; [|discriminate].
  destruct (parse_octet sb) as [b|] eqn:Eb; [|discriminate].
  destruct (parse_octet sc) as [c|] eqn:Ec; [|discriminate].
  destruct (parse_octet sd) as [d|] eqn:Ed; [|discriminate].
  injection Hip as <-.
  apply parse_octet_range in Ea, Eb, Ec, Ed.
  exists a, b, c, d, n. auto.
Qed.

(** For every IPv4 CIDR with a prefix shorter than 32 bits,
    [deriveNetworkConfig] returns as gateway the network address plus
    one, and as range the first half of the network (the network with
    a prefix one bit longer) or, for a prefix of 31 bits, the CIDR as
    it was given. *)
Theorem gateway_is_network_plus_one (cidr : string) (ipNet : IPNet) :
  ParseCIDR4 cidr = Some ipNet ->
  fst (Size (ipnet_Mask ipNet)) < 32 ->
  deriveNetworkConfig4 cidr
  = Ok (IPString4 (ip_succ (ipnet_IP ipNet)),
        if 31 <=? fst (Size (ipnet_Mask ipNet)) then cidr
        else IPString4 (ipnet_IP ipNet) +:+ "/" +:+ itoa (fst (Size (ipnet_Mask ipNet)) + 1)).
Proof.
  intros Hparse Hlen.
  destruct (ParseCIDR4_Some _ _ Hparse) as (a & b & c & d & n & (Ha & Hb & Hc & Hd) & Hn & ->).
  unfold deriveNetworkConfig4, deriveNetworkConfig. rewrite Hparse.
  cbn [ipnet_IP ipnet_Mask] in *.
  pose proof (masked_ok_at n a Hn Ha) as Ma.
  pose proof (masked_ok_at n b Hn Hb) as Mb.
  pose proof (masked_ok_at n c Hn Hc) as Mc.
  pose proof (masked_ok_at n d Hn Hd) as Md.
  unfold masked_ok in *.
  destruct (CIDRMask n 32) as [|m1 [|m2 [|m3 [|m4 [|? ?]]]]]; try discriminate.
  cbn [forallb] in *.
  repeat match goal with
         | H : _ && _ = true |- _ => apply andb_true_iff in H as [? ?]
         | H : (_ <=? _) = true |- _ => apply Z.leb_le in H
         | H : (_ =? _) = true |- _ => apply Z.eqb_eq in H
         end.
  match goal with H : fst (Size _) = n |- _ => rename H into Hones end.
  match goal with H : snd (Size _) = 32 |- _ => rename H into Hbits end.
  rewrite Hones in Hlen.
  assert (Hlast : Z.land d m4 <= 254).
  { match goal with
    | H : (n =? 32) || (Z.land d m4 <=? 254) = true |- _ =>
        apply orb_true_iff in H as [H|H]; [apply Z.eqb_eq in H; lia | now apply Z.leb_le in H]
    end. }
  cbn [apply_mask incr_last option_map]. unfold byte_incr.
  rewrite (Z.mod_small (Z.land d m4 + 1)) by lia.
  rewrite ip_succ_last by lia.
  destruct (Size [m1; m2; m3; m4]) as [ones bits]. cbn [fst snd] in *. subst ones bits.
  replace (32 - 1 <=? n) with (31 <=? n) by reflexivity.
  reflexivity.
Qed.

Lemma gateway_is_network_plus_one_witness :
  deriveNetworkConfig4 "172.28.28.0/24"
  = Ok (IPString4 (ip_succ (ipnet_IP (mkIPNet [172; 28; 28; 0] [255; 255; 255; 0]))),
        if 31 <=? fst (Size (ipnet_Mask (mkIPNet [172; 28; 28; 0] [255; 255; 255; 0])))
        then "172.28.28.0/24"
        else IPString4 (ipnet_IP (mkIPNet [172; 28; 28; 0] [255; 255; 255; 0])) +:+ "/"
             +:+ itoa (fst (Size (ipnet_Mask (mkIPNet [172; 28; 28; 0] [255; 255; 255; 0])))
                       + 1)).
Proof.
  apply (gateway_is_network_plus_one "172.28.28.0/24"
           (mkIPNet [172; 28; 28; 0] [255; 255; 255; 0])).
  - reflexivity.
  - vm_compute. reflexivity.
Defined.

Example default_network_derivation :
  deriveNetworkConfig4 "172.28.28.0/24" = Ok ("172.28.28.1", "172.28.28.0/25").
Proof. vm_compute. reflexivity. Qed.

End NetProps.

(** ** More on [cleanContainerData] *)

Module CleanProps.
Import FS Clean CleanFacts.

Lemma removed_itself (dataDir : Path) (names : list string) : removed dataDir names dataDir = false.
Proof.
  unfold removed. replace (strip_prefix dataDir dataDir) with (Some (@nil string)); [reflexivity|].
  symmetry. apply strip_prefix_Some. now rewrite app_nil_r.
Qed.

(** Cleaning an existing data directory, as a function of its entries. *)
Lemma cleanContainerData_run (dataDir : Path) (s : State string) :
  healthy s ->
  lookup_node dataDir s = Some Dir ->
  exists s',
    cleanContainerData dataDir s = (Ok tt, s') /\ healthy s' /\
    forall q, tree s' !! q
              = if removed dataDir (children dataDir s) q then None else tree s !! q.
Proof.
  intros Hs Hd.
  unfold cleanContainerData, Stat, bind, attempt, ret.
  rewrite (syscall_healthy _ _ Hs).
  set (s1 := mkState (tree s) (tl (fs_faults s))).
  assert (Hs1 : healthy s1) by (destruct s; eapply healthy_tl; eassumption).
  assert (Hl1 : lookup_node dataDir s1 = lookup_node dataDir s) by reflexivity.
  rewrite Hl1, Hd. cbv [IsNotExist]. cbv beta iota.
  unfold wrapping, ReadDir, bind. cbv beta. rewrite (syscall_healthy _ _ Hs1).
  set (s2 := mkState (tree s1) (tl (fs_faults s1))).
  assert (Hs2 : healthy s2) by (eapply healthy_tl; exact Hs1).
  change (lookup_node dataDir s2) with (lookup_node dataDir s). rewrite Hd.
  destruct (remove_entries_healthy dataDir (children dataDir s2) s2 Hs2)
    as (s' & Hrun & Hh & Hl).
  exists s'. split; [exact Hrun|]. split; [exact Hh|]. exact Hl.
Qed.

(** Cleaning is idempotent: on a file system that lets the calls
    through, cleaning once more what has just been cleaned succeeds and
    changes nothing. *)
Theorem cleaning_twice_changes_nothing_more (dataDir : Path) (s : State string) :
  healthy s ->
  lookup_node dataDir s = Some Dir ->
  exists s1 s2,
    cleanContainerData dataDir s = (Ok tt, s1) /\
    cleanContainerData dataDir s1 = (Ok tt, s2) /\
    tree s2 = tree s1.
Proof.
  intros Hs Hd.
  destruct (cleanContainerData_run dataDir s Hs Hd) as (s1 & Hrun1 & Hs1 & Hl1).
  assert (Hd1 : lookup_node dataDir s1 = Some Dir).
  { destruct dataDir as [|a d]; [reflexivity|]. unfold lookup_node in *.
    now rewrite Hl1, removed_itself. }
  destruct (cleanContainerData_run dataDir s1 Hs1 Hd1) as (s2 & Hrun2 & _ & Hl2).
  exists s1, s2. split; [exact Hrun1|]. split; [exact Hrun2|].
  apply map_eq. intros q. rewrite Hl2.
  destruct (removed dataDir (children dataDir s1) q) eqn:Hrem; [|reflexivity].
  exfalso. unfold removed in Hrem.
  destruct (strip_prefix dataDir q) as [[|n r]|] eqn:Hsp; try discriminate.
  apply andb_true_iff in Hrem as [Hca Hin]. apply negb_true_iff in Hca.
  apply children_spec in Hin. rewrite Hl1 in Hin.
  unfold removed in Hin. rewrite strip_prefix_app, Hca in Hin. cbn [negb andb] in Hin.
  destruct (existsb (String.eqb n) (children dataDir s)) eqn:Hex.
  - now destruct Hin.
  - apply children_spec in Hin. congruence.
Qed.

Lemma cleaning_twice_changes_nothing_more_witness :
  exists s1 s2,
    cleanContainerData ["data"] CleanClaims.sample = (Ok tt, s1) /\
    cleanContainerData ["data"] s1 = (Ok tt, s2) /\
    tree s2 = tree s1.
Proof.
  apply (cleaning_twice_changes_nothing_more ["data"] CleanClaims.sample).
  - constructor.
  - reflexivity.
Defined.

(** A data directory path that names a plain file is not treated as
    absent: the existence check passes, reading the directory fails,
    and the call returns "failed to read data directory" having removed
    nothing. *)
Theorem cleaning_a_plain_file_fails (dataDir : Path) (data : string) (perm : Z)
  (s : State string) :
  healthy s ->
  lookup_node dataDir s = Some (File data perm) ->
  exists e s',
    cleanContainerData dataDir s = (Err (wrap "failed to read data directory" e), s') /\
    tree s' = tree s.
Proof.
  intros Hs Hd.
  unfold cleanContainerData, Stat, bind, attempt, ret.
  rewrite (syscall_healthy _ _ Hs).
  set (s1 := mkState (tree s) (tl (fs_faults s))).
  assert (Hs1 : healthy s1) by (destruct s; eapply healthy_tl; eassumption).
  assert (Hl1 : lookup_node dataDir s1 = lookup_node dataDir s) by reflexivity.
  rewrite Hl1, Hd. cbv [IsNotExist]. cbv beta iota.
  unfold wrapping, ReadDir, bind. cbv beta. rewrite (syscall_healthy _ _ Hs1).
  set (s2 := mkState (tree s1) (tl (fs_faults s1))).
  change (lookup_node dataDir s2) with (lookup_node dataDir s). rewrite Hd.
  eexists. eexists. split; reflexivity.
Qed.

Lemma cleaning_a_plain_file_fails_witness :
  exists e s',
    cleanContainerData ["data"; "notes.txt"] CleanClaims.sample
    = (Err (wrap "failed to read data directory" e), s') /\
    tree s' = tree CleanClaims.sample.
Proof.
  apply (cleaning_a_plain_file_fails ["data"; "notes.txt"] "x" 420 CleanClaims.sample).
  - constructor.
  - reflexivity.
Defined.

End CleanProps.

(** ** The network step of the start sequence, on a missing network *)

Module MainProps.
Import Main.

Lemma reachable_S (n : nat) (w : Docker.World) :
  Docker.reachable (S n) w ->
  hd false (Docker.faults w) = false /\
  Docker.reachable n (Docker.set_faults (tl (Docker.faults w)) w).
Proof.
  unfold Docker.reachable. destruct w as [cs ns im nid fs sc err].
  cbn [Docker.faults Docker.set_faults]. destruct fs as [|a fs]; cbn [firstn hd tl].
  - intros _. split; [reflexivity|]. destruct n; constructor.
  - intros H. inversion H; subst. auto.
Qed.

Lemma reachable_shared (n : nat) (w : Docker.World) (b : bool) :
  Docker.reachable n w -> Docker.reachable n (Docker.set_sharedClient b w).
Proof. exact (fun H => H). Qed.

Lemma reachable_pred (n : nat) (w : Docker.World) :
  Docker.reachable (S n) w -> Docker.reachable n w.
Proof.
  unfold Docker.reachable. generalize (Docker.faults w). clear w.
  induction n as [|n IH]; intros fs H; [constructor|].
  destruct fs as [|a fs]; [constructor|].
  cbn [firstn] in *. inversion H; subst. constructor; [reflexivity|]. now apply IH.
Qed.

(** [NetworkExists], as far as the network step needs it: the answer,
    and a daemon that still answers. *)
Lemma NetworkExists_run (n : nat) (name : string) (d : Docker.World) :
  Docker.reachable (2 + n) d ->
  exists d',
    Docker.NetworkExists name d
    = (Ok (existsb (fun x => String.eqb (Docker.net_Name x) name) (Docker.networks d)), d') /\
    Docker.sharedClient d' = true /\
    Docker.reachable n d' /\
    Docker.networks d' = Docker.networks d /\
    Docker.containers d' = Docker.containers d /\
    Docker.next_id d' = Docker.next_id d.
Proof.
  intros Hr. apply reachable_S in Hr as [H1 Hr].
  unfold Docker.NetworkExists, Docker.GetSharedClient, Docker.NewClient,
    Docker.NetworkList, Docker.call, wrapping, bind, ret.
  destruct (Docker.sharedClient d) eqn:Hs.
  - rewrite H1. eexists. split; [reflexivity|].
    cbn [Docker.sharedClient Docker.set_faults Docker.networks Docker.containers Docker.next_id].
    repeat split; auto. now apply reachable_pred.
  - rewrite H1. apply reachable_S in Hr as [H2 Hr].
    cbn [Docker.set_faults Docker.set_sharedClient Docker.faults
         Docker.containers Docker.networks Docker.images Docker.next_id
         Docker.sharedClient Docker.stderr] in *.
    rewrite H2. eexists. split; [reflexivity|].
    cbn [Docker.sharedClient Docker.set_faults Docker.networks Docker.containers
         Docker.next_id Docker.set_sharedClient].
    repeat split; auto.
Qed.

(** [CreateNetwork] on a client that is already open. *)
Lemma CreateNetwork_run (config : Docker.NetworkConfig) (gateway ipRange : string)
  (d : Docker.World) :
  Docker.sharedClient d = true ->
  Docker.reachable 2 d ->
  existsb (fun x => String.eqb (Docker.net_Name x) (Docker.nw_Name config)) (Docker.networks d)
  = false ->
  Net.deriveNetworkConfig4 (Docker.nw_CIDR config) = Ok (gateway, ipRange) ->
  exists d',
    Docker.CreateNetwork config d = (Ok ("n" +:+ itoa (Z.of_nat (Docker.next_id d))), d') /\
    Docker.networks d'
    = Docker.networks d ++
      [Docker.mkNetworkResource ("n" +:+ itoa (Z.of_nat (Docker.next_id d)))
         (Docker.nw_Name config)
         (Docker.mkNetworkCreate (Docker.nw_Driver config) (Docker.nw_CIDR config) ipRange
            gateway false
            (if String.eqb (Docker.nw_BridgeName config) "" then Docker.nw_Name config +:+ "br0"
             else Docker.nw_BridgeName config))] /\
    Docker.containers d' = Docker.containers d.
Proof.
  intros Hs Hr Hex Hd. destruct (DockerClaims.reachable_2 _ Hr) as [H1 H2].
  pose proof Hex as Hfind. rewrite DockerFacts.existsb_find in Hfind.
  unfold Docker.CreateNetwork, Docker.GetSharedClient, Docker.NetworkList,
    Docker.NetworkCreateCall, Docker.lift_result, Docker.call, wrapping, bind, ret, fail.
  rewrite Hs, H1.
  cbn [Docker.set_faults Docker.faults Docker.containers Docker.networks Docker.images
       Docker.next_id Docker.sharedClient Docker.stderr].
  destruct (find _ (Docker.networks d)); [discriminate|].
  rewrite Hd. cbv beta iota.
  cbn [Docker.set_faults Docker.faults Docker.containers Docker.networks Docker.images
       Docker.next_id Docker.sharedClient Docker.stderr].
  rewrite H2.
  cbn [Docker.set_faults Docker.faults Docker.containers Docker.networks Docker.images
       Docker.next_id Docker.sharedClient Docker.stderr].
  rewrite Hex. eexists. split; [reflexivity|]. split; reflexivity.
Qed.

(** The identifier that the daemon gives to the next network. *)
Definition next_network_id (d : Docker.World) : string :=
  "n" +:+ itoa (Z.of_nat (Docker.next_id d)).

Section StartNetwork.

Variable X : Type.

(** When no network of the requested name exists, the daemon answers,
    the CIDR flag is a usable IPv4 network and the identifier that the
    daemon gives has at least twelve characters (the report shows its
    first twelve), the network step of the start sequence creates
    exactly one network: it has the flags' name and CIDR, the bridge
    driver, the bridge [<name>br0] and the derived gateway and address
    range; the step reports "Created" and the sequence goes on. No
    container is touched. *)
Theorem start_creates_the_missing_network
  {B : Type} (e : Env X) (l : list Event) (k : unit -> M (World X) B)
  (gateway ipRange : string) :
  existsb (fun n => String.eqb (Docker.net_Name n) (networkName (flags X e)))
          (Docker.networks (docker X e)) = false ->
  Docker.reachable 4 (docker X e) ->
  Net.deriveNetworkConfig4 (networkCIDR (flags X e)) = Ok (gateway, ipRange) ->
  (12 <= String.length (next_network_id (docker X e)))%nat ->
  exists d',
    bind (start_network X) k (e, l)
    = k tt (mkEnv X d' (sys X e) (flags X e),
            l ++ [EvStart "Network";
                  EvDone true ("Created '" +:+ networkName (flags X e) +:+ "' (ID: "
                               +:+ prefix12 (next_network_id (docker X e))
                               +:+ ", CIDR: " +:+ networkCIDR (flags X e) +:+ ")")]) /\
    Docker.networks d'
    = Docker.networks (docker X e) ++
      [Docker.mkNetworkResource (next_network_id (docker X e)) (networkName (flags X e))
         (Docker.mkNetworkCreate "bridge" (networkCIDR (flags X e)) ipRange gateway false
            (networkName (flags X e) +:+ "br0"))] /\
    Docker.containers d' = Docker.containers (docker X e).
Proof.
  intros Hex Hr Hd _.
  destruct (NetworkExists_run 2 (networkName (flags X e)) _ Hr)
    as (d1 & Hrun1 & Hs1 & Hr1 & Hn1 & Hc1 & Hi1).
  set (config := Docker.mkNetworkConfig (networkName (flags X e)) (networkCIDR (flags X e))
                   "bridge" (networkName (flags X e) +:+ "br0")).
  assert (Hex1 : existsb (fun x => String.eqb (Docker.net_Name x) (Docker.nw_Name config))
                   (Docker.networks d1) = false) by (rewrite Hn1; exact Hex).
  destruct (CreateNetwork_run config gateway ipRange d1 Hs1 Hr1 Hex1 Hd)
    as (d2 & Hrun2 & Hn2 & Hc2).
  unfold next_network_id. rewrite <- Hi1.
  exists d2. split.
  - unfold start_network, orAbort, ProgressStart, ProgressDone, getFlags, attempt,
      lift, liftD, bind, ret.
    cbn [fst snd]. rewrite Hrun1, Hex. cbn [fst snd docker sys flags].
    fold config. rewrite Hrun2. cbn [fst snd docker sys flags].
    now rewrite <- app_assoc.
  - split.
    + rewrite Hn2, Hn1. unfold config. cbn [Docker.nw_Name Docker.nw_Driver Docker.nw_CIDR
                                             Docker.nw_BridgeName].
      destruct (String.eqb (networkName (flags X e) +:+ "br0") "") eqn:Hb; [|reflexivity].
      apply String.eqb_eq in Hb. rewrite Hb. reflexivity.
    + now rewrite Hc2, Hc1.
Qed.


End StartNetwork.


(** A daemon that has handed out many identifiers: the next one has
    twelve characters. *)
Definition busy_world : Env unit :=
  mkEnv unit (Docker.mkWorld [] [] [] (Z.to_nat 10000000000) [] false []) tt
    (mkFlags "" "" "172.28.28.0/24" "kind" "" "").

Lemma start_creates_the_missing_network_witness :
  exists d',
    bind (start_network unit) (fun _ => ret tt) (busy_world, [])
    = ret tt (mkEnv unit d' (sys unit busy_world) (flags unit busy_world),
              [] ++ [EvStart "Network";
                     EvDone true ("Created '" +:+ networkName (flags unit busy_world)
                                  +:+ "' (ID: "
                                  +:+ prefix12 (next_network_id (docker unit busy_world))
                                  +:+ ", CIDR: " +:+ networkCIDR (flags unit busy_world)
                                  +:+ ")")]) /\
    Docker.networks d'
    = Docker.networks (docker unit busy_world) ++
      [Docker.mkNetworkResource (next_network_id (docker unit busy_world))
         (networkName (flags unit busy_world))
         (Docker.mkNetworkCreate "bridge" (networkCIDR (flags unit busy_world))
            "172.28.28.0/25" "172.28.28.1" false
            (networkName (flags unit busy_world) +:+ "br0"))] /\
    Docker.containers d' = Docker.containers (docker unit busy_world).
Proof.
  apply (start_creates_the_missing_network unit busy_world [] (fun _ => ret tt)
           "172.28.28.1" "172.28.28.0/25").
  - reflexivity.
  - exact (List.Forall_nil _).
  - unfold busy_world. cbn [flags networkCIDR]. vm_compute. reflexivity.
  - unfold next_network_id, busy_world. cbn [docker Docker.next_id].
    rewrite Z2Nat.id by lia. vm_compute. lia.
Defined.


End MainProps.

(** ** Removing a network, and the safe stop of a service container *)

Module ServiceProps.
Import Docker DockerFacts DockerQueries.

Lemma filter_others_twice (ref : string) (cs : list Container) :
  filter (fun c => negb (has_name ref c)) (filter (fun c => negb (has_name ref c)) cs)
  = filter (fun c => negb (has_name ref c)) cs.
Proof.
  induction cs as [|c cs IH]; [reflexivity|]. rewrite filter_cons.
  case_decide as H; [|exact IH].
  rewrite filter_cons. case_decide as H'; [|contradiction]. now rewrite IH.
Qed.

(** Whatever [RemoveContainer] returns, it acts on the named container
    only. *)
Lemma RemoveContainer_others (containerName : string) (w : World) :
  filter (fun c => negb (has_name containerName c))
         (containers (snd (RemoveContainer containerName w)))
  = filter (fun c => negb (has_name containerName c)) (containers w) /\
  networks (snd (RemoveContainer containerName w)) = networks w.
Proof.
  destruct w as [cs ns im nid f sc err].
  unfold RemoveContainer, GetSharedClient, NewClient, attempt, ContainerStop, ContainerRemove,
    warn, wrapping, bind, call, ret.
  cbn [sharedClient faults containers networks images next_id stderr set_faults
       set_sharedClient set_containers set_stderr].
  destruct sc;
    repeat first
      [ progress cbn [sharedClient faults containers networks images next_id stderr set_faults
                      set_sharedClient set_containers set_stderr fst snd]
      | match goal with
        | |- context [hd false ?l] => destruct (hd false l)
        | |- context [existsb (has_name containerName) ?l] =>
            let E := fresh "E" in destruct (existsb (has_name containerName) l) eqn:E
        end ];
    rewrite ?filter_others_twice, ?DockerProps.filter_stopped; auto.
Qed.

(** After a network has been removed it is no longer found: the next
    existence check answers "no". Every network of another name, and
    every container, is left as it was. *)
Theorem removed_network_is_not_found (name : string) (w w1 : World) :
  RemoveNetwork name w = (Ok tt, w1) ->
  hd false (faults w1) = false ->
  fst (NetworkExists name w1) = Ok false /\
  networks w1 = filter (fun n => negb (String.eqb (net_Name n) name)) (networks w) /\
  containers w1 = containers w.
Proof.
  unfold RemoveNetwork. intros H Hf.
  apply bind_Ok_inv in H as (u & wa & Hg & H).
  apply GetSharedClient_Ok_inv in Hg as (Hs & Hc & Hn & _).
  apply wrapping_Ok_inv in H. unfold NetworkRemove in H.
  apply bind_Ok_inv in H as (u2 & wb & Hcall & H).
  apply call_Ok_inv in Hcall as [_ ->]. cbv beta in H.
  cbn [networks set_faults] in H.
  destruct (existsb _ (networks wa)); [|discriminate].
  injection H as <-.
  cbn [networks containers set_networks set_faults faults sharedClient] in *.
  rewrite Hn, Hc. split; [|auto].
  unfold NetworkExists, GetSharedClient, NetworkList, wrapping, bind, call, ret.
  cbn [sharedClient set_networks set_faults faults networks]. rewrite Hs.
  cbn [sharedClient set_networks set_faults faults networks]. rewrite Hf.
  cbn [networks set_faults set_networks fst].
  now rewrite (DockerProps.existsb_filter_not (fun n => String.eqb (net_Name n) name)).
Qed.

Lemma removed_network_is_not_found_witness :
  fst (NetworkExists "kind"
         (snd (RemoveNetwork "kind" (Main.docker unit StartFacts.world_with_network)))) = Ok false /\
  networks (snd (RemoveNetwork "kind" (Main.docker unit StartFacts.world_with_network)))
  = filter (fun n => negb (String.eqb (net_Name n) "kind"))
      (networks (Main.docker unit StartFacts.world_with_network)) /\
  containers (snd (RemoveNetwork "kind" (Main.docker unit StartFacts.world_with_network)))
  = containers (Main.docker unit StartFacts.world_with_network).
Proof.
  apply (removed_network_is_not_found "kind" (Main.docker unit StartFacts.world_with_network)).
  - vm_compute. reflexivity.
  - vm_compute. reflexivity.
Defined.

(** The safe stop of a service container never reports an error,
    whatever the daemon does: a failed existence check, a failed stop
    and a failed removal are all swallowed. It acts on the named
    container only: the containers of other names are exactly the ones
    that were there, and networks, host and flags are unchanged. *)
Theorem safe_stop_never_fails_and_spares_the_others
  (containerName : string) (e : Services.E) :
  fst (Services.stopContainerSafe containerName e) = Ok tt /\
  filter (fun c => negb (has_name containerName c))
         (containers (Main.docker _ (snd (Services.stopContainerSafe containerName e))))
  = filter (fun c => negb (has_name containerName c)) (containers (Main.docker _ e)) /\
  networks (Main.docker _ (snd (Services.stopContainerSafe containerName e)))
  = networks (Main.docker _ e) /\
  Main.sys _ (snd (Services.stopContainerSafe containerName e)) = Main.sys _ e /\
  Main.flags _ (snd (Services.stopContainerSafe containerName e)) = Main.flags _ e.
Proof.
  unfold Services.stopContainerSafe, attempt, Main.liftD, bind, ret.
  destruct (ContainerExists containerName (Main.docker _ e)) as [r d1] eqn:Hex.
  assert (H1 : containers d1 = containers (Main.docker _ e) /\ networks d1 = networks (Main.docker _ e)).
  { revert Hex. unfold ContainerExists, GetSharedClient, NewClient, ContainerList, wrapping,
      bind, call, ret.
    destruct (Main.docker _ e) as [cs ns im nid f sc err].
    cbn [sharedClient faults containers networks images next_id stderr set_faults
         set_sharedClient].
    destruct sc;
      repeat first
        [ progress cbn [sharedClient faults containers networks images next_id stderr
                        set_faults set_sharedClient fst snd]
        | match goal with
          | |- context [hd false ?l] => destruct (hd false l)
          end ];
      intros [= _ <-]; auto. }
  destruct H1 as [Hc1 Hn1].
  destruct r as [[|]|msg]; cbn [fst snd Main.docker Main.sys Main.flags]; try (now rewrite ?Hc1, ?Hn1).
  destruct (RemoveContainer_others containerName d1) as [Hc2 Hn2].
  destruct (RemoveContainer containerName d1) as [r2 d2].
  cbn [fst snd Main.docker Main.sys Main.flags] in *. now rewrite Hc2, Hn2, Hc1, Hn1.
Qed.

End ServiceProps.
